(** * Normalisation layer of the inputs database ([python_source_code/db.py])

    A shallow embedding of the query, crosswalk, header-parsing and series
    extraction code of [db.py], and the properties of it that the
    specification states.

    - [Py]: the Python values and built-ins the module uses.  A call returns
      or raises ([result]); floats are IEEE 754 binary64, computed with the
      kernel's primitive floats; a [dict] keeps insertion order and compares
      keys with [==].
    - [Pandas]: frames and the frame operations the module calls.
    - [SqlEngine]: the engine behind [pd.read_sql_query] and
      [DataFrame.to_sql], an interface: [db.py] only ever hands it the text
      of a statement, or a frame to store.
    - The functions of [db.py], under their own names and in the order of
      their statements.
    - A store with prepared answers and worked data, on which every property
      is run.
    - The properties: of the model first, then of [db.py]. *)

From Stdlib Require Import ZArith Bool List String Ascii DecimalString Lia.
From Stdlib Require Import PrimFloat SpecFloat FloatOps.
Import ListNotations.
Open Scope string_scope.

(* ================================================================== *)
(** ** Python values, exceptions and built-ins *)
(* ================================================================== *)

Module Py.

(** The exceptions the modelled code can raise.  [DatabaseError] stands for
    whatever the SQL engine raises (a missing table, a malformed statement). *)
Inductive exn : Type :=
| KeyError
| TypeError
| ValueError
| OverflowError
| DatabaseError.

(** A computation either returns a value or raises. *)
Inductive result (A : Type) : Type :=
| Ok (a : A)
| Raise (e : exn).

Arguments Ok {A} a.
Arguments Raise {A} e.

Definition bind {A B : Type} (m : result A) (k : A -> result B) : result B :=
  match m with
  | Ok a => k a
  | Raise e => Raise e
  end.

Definition is_ok {A : Type} (m : result A) : bool :=
  match m with Ok _ => true | Raise _ => false end.

(** *** Strings: [str.isdigit], [in], [str.find], slicing *)

Definition is_digit (c : ascii) : bool :=
  (48 <=? nat_of_ascii c)%nat && (nat_of_ascii c <=? 57)%nat.

Fixpoint all_digits (s : string) : bool :=
  match s with
  | EmptyString => true
  | String c s' => is_digit c && all_digits s'
  end.

(** [s.isdigit()] on an ASCII string: non-empty and made of '0'..'9' only. *)
Definition isdigit (s : string) : bool :=
  match s with
  | EmptyString => false
  | String _ _ => all_digits s
  end.

(** [sub in s] *)
Definition contains (sub s : string) : bool :=
  match index 0 sub s with Some _ => true | None => false end.

(** [s.find(sub)]: the first position of [sub], or -1. *)
Definition str_find (sub s : string) : Z :=
  match index 0 sub s with Some n => Z.of_nat n | None => (-1)%Z end.

(** [s[:i]], with Python's reading of a negative bound. *)
Definition slice_to (s : string) (i : Z) : string :=
  if (0 <=? i)%Z then substring 0 (Z.to_nat i) s
  else substring 0 (Z.to_nat (Z.of_nat (String.length s) + i)) s.

(** A string is true in a condition when it is not empty. *)
Definition truthy (s : string) : bool :=
  match s with EmptyString => false | String _ _ => true end.

(** *** [int(s)] for a string *)

Definition is_space (c : ascii) : bool :=
  let n := nat_of_ascii c in
  (n =? 32)%nat || ((9 <=? n)%nat && (n <=? 13)%nat).

Fixpoint lstrip (s : string) : string :=
  match s with
  | EmptyString => EmptyString
  | String c s' => if is_space c then lstrip s' else s
  end.

Fixpoint rstrip (s : string) : string :=
  match s with
  | EmptyString => EmptyString
  | String c s' =>
      match rstrip s' with
      | EmptyString => if is_space c then EmptyString else String c EmptyString
      | r => String c r
      end
  end.

Definition strip (s : string) : string := lstrip (rstrip s).

Definition digit_value (c : ascii) : Z := Z.of_nat (nat_of_ascii c) - 48.

(** The value of a run of decimal digits, most significant first. *)
Fixpoint digits_value_from (acc : Z) (s : string) : Z :=
  match s with
  | EmptyString => acc
  | String c s' => digits_value_from (10 * acc + digit_value c) s'
  end.

Definition digits_value (s : string) : Z := digits_value_from 0 s.

(** Decimal digits in which single underscores may separate two digits:
    [digit (["_"] digit)*]. *)
Fixpoint parse_digits (acc : Z) (s : string) : option Z :=
  match s with
  | EmptyString => None
  | String c s' =>
      if is_digit c then
        let acc' := (10 * acc + digit_value c)%Z in
        match s' with
        | EmptyString => Some acc'
        | String c' s'' =>
            if Ascii.eqb c' "_" then parse_digits acc' s'' else parse_digits acc' s'
        end
      else None
  end.

(** [int(s)] in base 10: surrounding white space, an optional sign, digits. *)
Definition int_of_str (s : string) : result Z :=
  let t := strip s in
  let parsed :=
    match t with
    | String "+" r => parse_digits 0 r
    | String "-" r => option_map Z.opp (parse_digits 0 r)
    | _ => parse_digits 0 t
    end in
  match parsed with
  | Some n => Ok n
  | None => Raise ValueError
  end.

(** [str(n)] for an int. *)
Definition str_of_int (n : Z) : string := NilZero.string_of_int (Z.to_int n).

(** *** Floats: IEEE 754 binary64, as Python's [float] *)

(** The float nearest to an integer (ties to even; infinite when out of
    range). *)
Definition float_of_Z (n : Z) : float :=
  SF2Prim (binary_normalize prec emax n 0 false).

(** [float(n)] for an int, also the conversion [n / 1e2] applies to [n]:
    an int too large for a float raises. *)
Definition float_of_int (n : Z) : result float :=
  let f := float_of_Z n in
  if is_infinity f then Raise OverflowError else Ok f.

(** Reading a float from text and printing one are left to the run time:
    [float(s)] accepts far more than the digit strings the column labels are
    made of (fractions, exponents, "inf", "nan"), and [str(x)] prints the
    shortest decimal that reads back as [x].  The one fact used is that a
    string of digits reads as the float nearest to the integer it spells. *)
Class FloatText : Type := {
  float_of_str : string -> result float;
  str_of_float : float -> string;
  float_of_str_digits :
    forall s, isdigit s = true -> float_of_str s = Ok (float_of_Z (digits_value s))
}.

(** *** Cells: the Python objects a frame read from SQL holds *)

Inductive cell : Type :=
| CNone
| CInt (n : Z)
| CFloat (x : float)
| CStr (s : string).

(** [value is not None] *)
Definition is_not_None (v : cell) : bool :=
  match v with CNone => false | _ => true end.

(** [value / d] for a float [d]. *)
Definition truediv (v : cell) (d : float) : result float :=
  match v with
  | CFloat x => Ok (x / d)%float
  | CInt n => bind (float_of_int n) (fun x => Ok (x / d)%float)
  | CStr _ => Raise TypeError
  | CNone => Raise TypeError
  end.

(** [float(value)] *)
Definition float_of_cell `{FloatText} (v : cell) : result float :=
  match v with
  | CFloat x => Ok x
  | CInt n => float_of_int n
  | CStr s => float_of_str s
  | CNone => Raise TypeError
  end.

(** [str(value)] *)
Definition str_of_cell `{FloatText} (v : cell) : string :=
  match v with
  | CNone => "None"
  | CInt n => str_of_int n
  | CFloat x => str_of_float x
  | CStr s => s
  end.

(** *** Dictionaries: insertion ordered, keys compared with [==] *)

Definition dict (K V : Type) : Type := list (K * V).

(** [d[k] = v]: an equal key keeps its place and takes the new value,
    a new key goes last. *)
Fixpoint dict_set {K V : Type} (keq : K -> K -> bool) (k : K) (v : V)
    (d : dict K V) : dict K V :=
  match d with
  | [] => [(k, v)]
  | (k', v') :: d' =>
      if keq k' k then (k', v) :: d' else (k', v') :: dict_set keq k v d'
  end.

Fixpoint dict_get {K V : Type} (keq : K -> K -> bool) (k : K)
    (d : dict K V) : option V :=
  match d with
  | [] => None
  | (k', v') :: d' => if keq k' k then Some v' else dict_get keq k d'
  end.

(** [{key(x): val(x) for x in items if cond(x)}], continuing from [d]:
    the key expression is evaluated before the value expression, and the
    first exception ends the comprehension. *)
Fixpoint dict_comprehension {A K V : Type} (keq : K -> K -> bool)
    (cond : A -> bool) (key : A -> result K) (val : A -> result V)
    (items : list A) (d : dict K V) : result (dict K V) :=
  match items with
  | [] => Ok d
  | x :: rest =>
      if cond x then
        bind (key x) (fun k =>
        bind (val x) (fun v =>
        dict_comprehension keq cond key val rest (dict_set keq k v d)))
      else dict_comprehension keq cond key val rest d
  end.

End Py.

Import Py.

Notation "x <- m ;; k" := (Py.bind m (fun x => k))
  (at level 61, m at next level, right associativity).

(* ================================================================== *)
(** ** The pandas operations [db.py] calls *)
(* ================================================================== *)

Module Pandas.

(** Column labels are compared with [==]. *)
Class Label (L : Type) : Type := {
  label_eqb : L -> L -> bool;
  label_eqb_eq : forall a b, label_eqb a b = true <-> a = b
}.

#[global] Instance string_Label : Label string :=
  {| label_eqb := String.eqb; label_eqb_eq := String.eqb_eq |}.

(** After [extract_demo_data] relabels its columns a label is an int (an age
    band) or a string (["Period"]). *)
Inductive label : Type :=
| LStr (s : string)
| LInt (n : Z).

Definition label_beq (a b : label) : bool :=
  match a, b with
  | LStr s, LStr t => String.eqb s t
  | LInt n, LInt m => Z.eqb n m
  | _, _ => false
  end.

Lemma label_beq_eq (a b : label) : label_beq a b = true <-> a = b.
Proof.
  destruct a as [s|n], b as [t|m]; simpl.
  - rewrite String.eqb_eq. split; [intros ->; reflexivity | intros [= ->]; reflexivity].
  - split; discriminate.
  - split; discriminate.
  - rewrite Z.eqb_eq. split; [intros ->; reflexivity | intros [= ->]; reflexivity].
Qed.

#[global] Instance label_Label : Label label :=
  {| label_eqb := label_beq; label_eqb_eq := label_beq_eq |}.

(** A frame: its column labels and its rows, each row holding one cell per
    column.  Every frame here carries the default index 0, 1, 2, ... of its
    rows: [pd.read_sql_query] and [pd.merge] build it, and the column
    operations below keep it.

    The labels of a frame read from a table are pairwise distinct; the
    column operations are modelled for such frames (a label names the first
    column that carries it). *)
Record DataFrame (L : Type) : Type := mkFrame {
  columns : list L;
  rows : list (list cell)
}.

Arguments mkFrame {L} columns rows.
Arguments columns {L} _.
Arguments rows {L} _.

Definition nrows {L : Type} (df : DataFrame L) : nat := List.length (rows df).

Section Frames.
Context {L : Type} `{Label L}.

(** [l in df.columns] *)
Definition has_label (l : L) (cols : list L) : bool :=
  existsb (fun c => label_eqb c l) cols.

(** The cell of row [r] under label [l]. *)
Fixpoint lookup_cell (l : L) (cols : list L) (r : list cell) : option cell :=
  match cols, r with
  | c :: cs, v :: vs => if label_eqb c l then Some v else lookup_cell l cs vs
  | _, _ => None
  end.

Definition cell_at (l : L) (cols : list L) (r : list cell) : cell :=
  match lookup_cell l cols r with
  | Some v => v
  | None => CFloat nan
  end.

(** [df.reindex(columns=labels)] *)
Definition reindex (labels : list L) (df : DataFrame L) : DataFrame L :=
  mkFrame labels
    (map (fun r => map (fun l => cell_at l (columns df) r) labels) (rows df)).

(** [df.filter(items=items)]: pandas reindexes to
    [[r for r in items if r in df.columns]]. *)
Definition filter_items (items : list L) (df : DataFrame L) : DataFrame L :=
  reindex (filter (fun r => has_label r (columns df)) items) df.

(** [df.loc[:, labels]] and [df[labels]] for a list of labels: a label that
    is not a column raises [KeyError]. *)
Definition loc_columns (labels : list L) (df : DataFrame L)
    : result (DataFrame L) :=
  if forallb (fun l => has_label l (columns df)) labels
  then Ok (reindex labels df)
  else Raise KeyError.

(** [df.loc[0, :]]: the row labelled 0, which exists exactly when the frame
    has a row. *)
Definition loc_row0 (df : DataFrame L) : result (list cell) :=
  match rows df with
  | [] => Raise KeyError
  | r :: _ => Ok r
  end.

(** [df[l]]: the column as a series. *)
Definition get_column (l : L) (df : DataFrame L) : result (list cell) :=
  if has_label l (columns df)
  then Ok (map (cell_at l (columns df)) (rows df))
  else Raise KeyError.

Fixpoint set_cell (l : L) (cols : list L) (r : list cell) (v : cell)
    : list cell :=
  match cols, r with
  | c :: cs, x :: xs =>
      if label_eqb c l then v :: xs else x :: set_cell l cs xs v
  | _, _ => r
  end.

(** [df[l] = series], the series being as long as the frame: an existing
    column takes the new values, a new label adds a last column. *)
Definition set_column (l : L) (series : list cell) (df : DataFrame L)
    : DataFrame L :=
  if has_label l (columns df)
  then mkFrame (columns df)
         (map (fun rv => set_cell l (columns df) (fst rv) (snd rv))
              (combine (rows df) series))
  else mkFrame (columns df ++ [l])%list
         (map (fun rv => (fst rv ++ [snd rv])%list) (combine (rows df) series)).

(** [df.rename(columns=mapper)]: a label the mapper knows is replaced. *)
Definition rename_label (mapper : list (L * L)) (l : L) : L :=
  match List.find (fun kv => label_eqb (fst kv) l) mapper with
  | Some kv => snd kv
  | None => l
  end.

Definition rename (mapper : list (L * L)) (df : DataFrame L) : DataFrame L :=
  mkFrame (map (rename_label mapper) (columns df)) (rows df).

Fixpoint drop_cells (labels cols : list L) (r : list cell) : list cell :=
  match cols, r with
  | c :: cs, v :: vs =>
      if has_label c labels then drop_cells labels cs vs
      else v :: drop_cells labels cs vs
  | _, _ => []
  end.

(** [df.drop(columns=labels)] *)
Definition drop_columns (labels : list L) (df : DataFrame L)
    : result (DataFrame L) :=
  if forallb (fun l => has_label l (columns df)) labels
  then Ok (mkFrame (filter (fun c => negb (has_label c labels)) (columns df))
             (map (drop_cells labels (columns df)) (rows df)))
  else Raise KeyError.

(** What pandas keeps true of a frame read from a table: no label twice,
    and one cell per column in every row. *)
Fixpoint unique_labels (cols : list L) : bool :=
  match cols with
  | [] => true
  | c :: cs => negb (has_label c cs) && unique_labels cs
  end.

Definition rectangular (df : DataFrame L) : bool :=
  forallb (fun r => Nat.eqb (List.length r) (List.length (columns df))) (rows df).

Definition well_formed (df : DataFrame L) : bool :=
  unique_labels (columns df) && rectangular df.
End Frames.

(** [pd.isna] of a cell: [None] and NaN are missing values. *)
Definition isna (v : cell) : bool :=
  match v with
  | CNone => true
  | CFloat x => is_nan x
  | _ => false
  end.

(** [df.dropna()]: the rows without a missing value. *)
Definition dropna {L : Type} (df : DataFrame L) : DataFrame L :=
  mkFrame (columns df) (filter (forallb (fun v => negb (isna v))) (rows df)).

(** When two join keys match: equal ints, equal strings, equal floats, an
    int and the float of the same value (an int64 key column is cast to
    float64 to meet a float64 one), and a missing key with a missing key. *)
Definition key_matches (a b : cell) : bool :=
  match a, b with
  | CInt n, CInt m => Z.eqb n m
  | CStr s, CStr t => String.eqb s t
  | CFloat x, CFloat y => PrimFloat.eqb x y || (is_nan x && is_nan y)
  | CInt n, CFloat y => PrimFloat.eqb (float_of_Z n) y
  | CFloat x, CInt m => PrimFloat.eqb x (float_of_Z m)
  | CNone, CNone => true
  | CNone, CFloat y => is_nan y
  | CFloat x, CNone => is_nan x
  | _, _ => false
  end.

(** A label both frames carry takes a suffix in the merged frame. *)
Definition with_suffix (suffix : string) (others : list string) (l : string)
    : string :=
  if has_label l others then l ++ suffix else l.

(** [pd.merge(left, right, left_on=.., right_on=..)], an inner join: the rows
    of [left] in their order, each paired with every row of [right] whose key
    matches, in the order of [right].  (pandas also refuses to join a text
    key column to a numeric one; here such keys simply never match.) *)
Definition merge (left right : DataFrame string) (left_on right_on : string)
    : result (DataFrame string) :=
  if has_label left_on (columns left) && has_label right_on (columns right)
  then
    Ok (mkFrame
          (map (with_suffix "_x" (columns right)) (columns left)
           ++ map (with_suffix "_y" (columns left)) (columns right))%list
          (flat_map
             (fun l =>
                map (fun r => (l ++ r)%list)
                  (filter
                     (fun r => key_matches (cell_at left_on (columns left) l)
                                 (cell_at right_on (columns right) r))
                     (rows right)))
             (rows left)))
  else Raise KeyError.

End Pandas.

Import Pandas.

(* ================================================================== *)
(** ** [db.py] *)
(* ================================================================== *)

(** The SQL engine, as [db.py] uses it: [pd.read_sql_query(query, con=engine)]
    and [frame.to_sql(name, con=engine, if_exists="replace")].  [E] is the
    state of the database behind the engine.  A write that returns gives the
    state it leaves; of a write that raises only its exception is told (it
    may have dropped the old table already), and the properties below say
    nothing of the store after one. *)
Class SqlEngine (E : Type) : Type := {
  read_sql_query : string -> E -> result (DataFrame string);
  to_sql : DataFrame string -> string -> E -> result E
}.

(** The fields of an [InputDB] object that its query and mapping methods read
    or write. *)
Record InputDB (E : Type) : Type := mkInputDB {
  engine : E;
  map_df : option (DataFrame string)
}.

Arguments mkInputDB {E} engine map_df.
Arguments engine {E} _.
Arguments map_df {E} _.

(** A list comprehension whose element expression may raise. *)
Fixpoint list_comprehension {A B : Type} (f : A -> result B) (items : list A)
    : result (list B) :=
  match items with
  | [] => Ok []
  | x :: rest =>
      y <- f x ;;
      ys <- list_comprehension f rest ;;
      Ok (y :: ys)
  end.

Section Db.
Context {E : Type} `{SqlEngine E} `{FloatText}.

(** [InputDB.db_query], lines 136-154. *)
Definition db_query (self : InputDB E)
    (table_name is_filter value column : string)
    : result (DataFrame string) :=
  let query := "Select " ++ column ++ " from " ++ table_name in
  let query :=
    if truthy is_filter && truthy value
    then query ++ " Where " ++ is_filter ++ " = '" ++ value ++ "'"
    else query in
  read_sql_query query (engine self).

(** [InputDB.get_un_iso_map], lines 179-183.  A method that assigns to its
    object gives the object after the call and what the call returns or
    raises; an exception leaves the object as it was when it was raised. *)
Definition get_un_iso_map (self : InputDB E) : InputDB E * result unit :=
  match (locations <- db_query self "un_iso3_map" "" "" "*" ;;
         loc_columns ["Location code"; "ISO3 Alpha-code"] locations) with
  | Ok pairs => (mkInputDB (engine self) (Some (dropna pairs)), Ok tt)
  | Raise e => (self, Raise e)
  end.

(** Lines 166-174 of [InputDB.add_iso_to_table]: the local [table_with_iso]
    as it stands when it is stored.  [pd.merge] refuses a [None] in place of
    a frame. *)
Definition table_with_iso (self : InputDB E) (table_name : string)
    : result (DataFrame string) :=
  table <- db_query self table_name "" "" "*" ;;
  crosswalk <- match map_df self with
               | Some m => Ok m
               | None => Raise TypeError
               end ;;
  table_with_iso <- merge table crosswalk "Country code" "Location code" ;;
  let table_with_iso := rename [("ISO3 Alpha-code", "iso3")] table_with_iso in
  if has_label "Index" (columns table_with_iso)
  then drop_columns ["Index"] table_with_iso
  else Ok table_with_iso.

(** The rows of the crosswalk that the merge of line 166 pairs with row [r]
    of [table]: those whose location code matches the row's country code. *)
Definition crosswalk_entries (crosswalk table : DataFrame string)
    (r : list cell) : list (list cell) :=
  filter
    (fun entry =>
       key_matches (cell_at "Country code" (columns table) r)
         (cell_at "Location code" (columns crosswalk) entry))
    (rows crosswalk).

(** [InputDB.add_iso_to_table], lines 156-177. *)
Definition add_iso_to_table (self : InputDB E) (table_name : string)
    : InputDB E * result unit :=
  let (self, built) := get_un_iso_map self in
  match built with
  | Raise e => (self, Raise e)
  | Ok _ =>
      match (mapped <- table_with_iso self table_name ;;
             to_sql mapped (table_name ++ "_mapped") (engine self)) with
      | Ok stored => (mkInputDB stored (map_df self), Ok tt)
      | Raise e => (self, Raise e)
      end
  end.

(** [get_bcg_coverage], lines 10-24. *)
Definition get_bcg_coverage (database : InputDB E) (country_iso_code : string)
    : result (dict Z float) :=
  _bcg_coverage <- db_query database "BCG" "ISO_code" country_iso_code "*" ;;
  let _bcg_coverage :=
    filter_items (filter isdigit (columns _bcg_coverage)) _bcg_coverage in
  row <- loc_row0 _bcg_coverage ;;
  dict_comprehension Z.eqb
    (fun kv => is_not_None (snd kv))
    (fun kv => int_of_str (fst kv))
    (fun kv => truediv (snd kv) 1e2)
    (combine (columns _bcg_coverage) row) [].

(** [get_all_iso3_from_bcg], lines 27-37. *)
Definition get_all_iso3_from_bcg (database : InputDB E) : result (list cell) :=
  codes <- db_query database "bcg" "" "" "ISO_code" ;;
  get_column "ISO_code" codes.

(** [get_crude_birth_rate], lines 40-57. *)
Definition get_crude_birth_rate (database : InputDB E)
    (country_iso_code : string) : result (dict float float) :=
  birth_rates <-
    db_query database "crude_birth_rate_mapped" "iso3" country_iso_code "*" ;;
  row <- loc_row0 birth_rates ;;
  dict_comprehension PrimFloat.eqb
    (fun kv => contains "-" (fst kv))
    (fun kv =>
       start <- float_of_str (slice_to (fst kv) (str_find "-" (fst kv))) ;;
       Ok (start + 2.5)%float)
    (fun kv => x <- float_of_cell (snd kv) ;; Ok (x / 1e3)%float)
    (combine (columns birth_rates) row) [].

(** The [columns] argument of the [rename] of line 205. *)
Definition demo_column_names : list (string * string) :=
  [("95+", "95-"); ("Reference date (as of 1 July)", "Period")].

(** The labels of a frame once renamed on line 205. *)
Definition demo_renamed (df : DataFrame string) : list string :=
  map (rename_label demo_column_names) (columns df).

(** The new label of a column, line 214. *)
Definition age_band_label (column : string) : result label :=
  if contains "-" column
  then n <- int_of_str (slice_to column (str_find "-" column)) ;; Ok (LInt n)
  else Ok (LStr column).

(** The lambda of line 218. *)
Definition period_year (x : cell) : cell :=
  CStr (if contains "-" (str_of_cell x)
        then slice_to (str_of_cell x) (str_find "-" (str_of_cell x))
        else str_of_cell x).

(** [extract_demo_data], lines 186-221. *)
Definition extract_demo_data (_input_database : InputDB E)
    (data_type country_iso_code : string) : result (DataFrame label) :=
  demo_data_frame <-
    db_query _input_database data_type "iso3" country_iso_code "*" ;;
  let demo_data_frame := rename demo_column_names demo_data_frame in
  let columns_to_keep :=
    (filter (contains "-") (columns demo_data_frame) ++ ["Period"])%list in
  demo_data_frame <- loc_columns columns_to_keep demo_data_frame ;;
  new_columns <- list_comprehension age_band_label (columns demo_data_frame) ;;
  let demo_data_frame := mkFrame new_columns (rows demo_data_frame) in
  period <- get_column (LStr "Period") demo_data_frame ;;
  Ok (set_column (LStr "Period") (map period_year period) demo_data_frame).
End Db.

(* ================================================================== *)
(** ** [db.py]: filling the store *)
(* ================================================================== *)

(** *** More of Python: slices with two bounds, [str.split], indexing *)

Module PySeq.

(** A slice bound brought into [0 .. len]: a negative bound counts from the
    end. *)
Definition clamp (len i : Z) : Z :=
  if (i <? 0)%Z then Z.max 0 (len + i) else Z.min i len.

(** [s[start:stop]] *)
Definition slice (s : string) (start stop : Z) : string :=
  let len := Z.of_nat (String.length s) in
  let a := clamp len start in
  let b := clamp len stop in
  if (a <? b)%Z then substring (Z.to_nat a) (Z.to_nat (b - a)) s else "".

(** [s.split(sep)] for a separator of one character: the pieces between the
    separators, empty pieces included; never an empty list. *)
Fixpoint split (sep : ascii) (s : string) : list string :=
  match s with
  | EmptyString => [""]
  | String c s' =>
      if Ascii.eqb c sep then "" :: split sep s'
      else match split sep s' with
           | piece :: pieces => String c piece :: pieces
           | [] => [String c ""]
           end
  end.

(** [sep not in s] for a separator of one character. *)
Fixpoint lacks (sep : ascii) (s : string) : bool :=
  match s with
  | EmptyString => true
  | String c s' => negb (Ascii.eqb c sep) && lacks sep s'
  end.

(** What the loaders can raise: the exceptions of [Py], [IndexError] from
    indexing a list, and whatever else reading a file or writing a table
    raises ([FileNotFoundError], a parser's error, ...), told by the name of
    its class. *)
Inductive load_exn : Type :=
| IndexError
| Raised (e : exn)
| Other (class_name : string).

Inductive attempt (A : Type) : Type :=
| Done (a : A)
| Failed (e : load_exn).

Arguments Done {A} a.
Arguments Failed {A} e.

(** A call of [Py] inside a loader. *)
Definition lift {A : Type} (m : result A) : attempt A :=
  match m with
  | Ok a => Done a
  | Raise e => Failed (Raised e)
  end.

Definition and_then {A B : Type} (m : attempt A) (k : A -> attempt B)
    : attempt B :=
  match m with
  | Done a => k a
  | Failed e => Failed e
  end.

(** [l[i]] for an index that is not negative. *)
Definition item {A : Type} (l : list A) (i : nat) : attempt A :=
  match nth_error l i with
  | Some a => Done a
  | None => Failed IndexError
  end.

(** [k in d] and [d[k]] for a dictionary with strings as keys. *)
Definition has_key {V : Type} (k : string) (d : dict string V) : bool :=
  match dict_get String.eqb k d with Some _ => true | None => false end.

Definition getitem {V : Type} (k : string) (d : dict string V) : result V :=
  match dict_get String.eqb k d with
  | Some v => Ok v
  | None => Raise KeyError
  end.

End PySeq.

Import PySeq.

(** *** The files and the loaders *)

(** What the loaders call outside [db.py]: [glob.glob(pattern)],
    [pd.read_csv(path)], [pd.ExcelFile(path)],
    [pd.read_excel(book, header=.., index_col=.., sheet_name=..)] and
    [sheet.to_sql(name, con=engine, if_exists="replace")].  A sheet read with
    [index_col=1] is indexed by one of its columns; the loaders only pass it
    on, so it is kept apart from the frames of [Pandas].  As for [SqlEngine],
    of a write that raises only its exception is told. *)
Class Files (E Book Sheet : Type) : Type := {
  create_engine : string -> E;
  glob : string -> list string;
  read_csv : string -> attempt Sheet;
  ExcelFile : string -> attempt Book;
  read_excel : Book -> Z -> Z -> string -> attempt Sheet;
  sheet_to_sql : Sheet -> string -> E -> attempt E
}.

(** The attributes [InputDB.__init__] sets and no method assigns again. *)
Record Settings : Type := mkSettings {
  database_name : string;
  verbose : bool;
  headers_lookup : dict string Z;
  tab_of_interest : dict string string;
  output_name : dict string string
}.

(** Lines 69-98 of [InputDB.__init__]. *)
Definition attributes (database_name : string) (verbose : bool) : Settings :=
  {| database_name := database_name;
     verbose := verbose;
     headers_lookup :=
       [("../xls/WPP2019_FERT_F03_CRUDE_BIRTH_RATE.xlsx", 16%Z);
        ("../xls/WPP2019_F01_LOCATIONS.xlsx", 16%Z);
        ("../xls/WPP2019_MORT_F04_1_DEATHS_BY_AGE_BOTH_SEXES.xlsx", 16%Z);
        ("../xls/WPP2019_POP_F07_1_POPULATION_BY_AGE_BOTH_SEXES.xlsx", 16%Z);
        ("../xls/life_expectancy_2015.xlsx", 3%Z);
        ("../xls/rate_birth_2015.xlsx", 3%Z)];
     tab_of_interest :=
       [("../xls/WPP2019_FERT_F03_CRUDE_BIRTH_RATE.xlsx", "ESTIMATES");
        ("../xls/WPP2019_MORT_F04_1_DEATHS_BY_AGE_BOTH_SEXES.xlsx", "ESTIMATES");
        ("../xls/WPP2019_POP_F07_1_POPULATION_BY_AGE_BOTH_SEXES.xlsx", "ESTIMATES");
        ("../xls/WPP2019_F01_LOCATIONS.xlsx", "Location");
        ("../xls/coverage_estimates_series.xlsx", "BCG");
        ("../xls/gtb_2015.xlsx", "gtb_2015");
        ("../xls/gtb_2016.xlsx", "gtb_2016");
        ("../xls/life_expectancy_2015.xlsx", "life_expectancy_2015");
        ("../xls/rate_birth_2015.xlsx", "rate_birth_2015")];
     output_name :=
       [("../xls/WPP2019_FERT_F03_CRUDE_BIRTH_RATE.xlsx", "crude_birth_rate");
        ("../xls/WPP2019_MORT_F04_1_DEATHS_BY_AGE_BOTH_SEXES.xlsx", "absolute_deaths");
        ("../xls/WPP2019_POP_F07_1_POPULATION_BY_AGE_BOTH_SEXES.xlsx", "total_population");
        ("../xls/WPP2019_F01_LOCATIONS.xlsx", "un_iso3_map");
        ("../xls/coverage_estimates_series.xlsx", "bcg");
        ("../xls/gtb_2015.xlsx", "gtb_2015");
        ("../xls/gtb_2016.xlsx", "gtb_2016");
        ("../xls/life_expectancy_2015.xlsx", "life_expectancy_2015");
        ("../xls/rate_birth_2015.xlsx", "rate_birth_2015")] |}.

Section Loaders.
Context {E Book Sheet : Type} `{Files E Book Sheet}.

(** [InputDB.__init__], lines 65-99: the attributes, and the engine and the
    empty crosswalk the other methods work on. *)
Definition __init__ (database_name : string) (verbose : bool)
    : Settings * InputDB E :=
  (attributes database_name verbose,
   mkInputDB (create_engine ("sqlite:///" ++ database_name)) None).

(** [InputDB.output_to_user], lines 126-134: the lines it prints. *)
Definition output_to_user (settings : Settings) (comment : string)
    : list string :=
  if verbose settings then [comment] else [].

(** The table name of line 108: [filename.split("\\")[1].split(".")[0]]. *)
Definition csv_table_name (filename : string) : attempt string :=
  and_then (item (split "\" filename) 1) (fun part => item (split "." part) 0).

(** One turn of the loop of [update_csv_reads], lines 107-108: the object
    after it, and whether it raised. *)
Definition update_csv_read (self : InputDB E) (filename : string)
    : InputDB E * attempt unit :=
  match
    and_then (read_csv filename) (fun data_frame =>
    and_then (csv_table_name filename) (fun name =>
    sheet_to_sql data_frame name (engine self)))
  with
  | Done stored => (mkInputDB stored (map_df self), Done tt)
  | Failed e => (self, Failed e)
  end.

(** The loop of lines 106-108: an exception ends it. *)
Fixpoint update_csv_loop (self : InputDB E) (csv_file_list : list string)
    : InputDB E * attempt unit :=
  match csv_file_list with
  | [] => (self, Done tt)
  | filename :: rest =>
      match update_csv_read self filename with
      | (self, Done _) => update_csv_loop self rest
      | (self, Failed e) => (self, Failed e)
      end
  end.

(** [InputDB.update_csv_reads], lines 101-108. *)
Definition update_csv_reads (self : InputDB E) (input_path : string)
    : InputDB E * attempt unit :=
  update_csv_loop self (glob input_path).

(** The file name of line 118. *)
Definition xlsx_filename (available_file : string) : string :=
  "../xls/" ++ slice available_file 7 (-5) ++ ".xlsx".

(** One turn of the loop of [update_xl_reads], lines 118-124: the object
    after it, the lines printed, and whether it raised.  The workbook is
    opened before the tab is looked up, and the line is printed before the
    sheet is stored. *)
Definition update_xl_read (settings : Settings) (self : InputDB E)
    (available_file : string) : InputDB E * list string * attempt unit :=
  let filename := xlsx_filename available_file in
  let header_row :=
    if has_key filename (headers_lookup settings)
    then match dict_get String.eqb filename (headers_lookup settings) with
         | Some row => row
         | None => 0%Z
         end
    else 0%Z in
  let data_title :=
    if has_key filename (output_name settings)
    then match dict_get String.eqb filename (output_name settings) with
         | Some title => title
         | None => filename
         end
    else filename in
  match
    and_then (ExcelFile filename) (fun book =>
    and_then (lift (getitem filename (tab_of_interest settings))) (fun tab =>
    and_then (read_excel book header_row 1 tab) (fun current_data_frame =>
    and_then (lift (getitem filename (tab_of_interest settings))) (fun tab =>
    Done (current_data_frame,
          output_to_user settings
            ("now reading '" ++ tab ++ "' tab of '" ++ filename ++ "' file"))))))
  with
  | Failed e => (self, [], Failed e)
  | Done (current_data_frame, printed) =>
      match sheet_to_sql current_data_frame data_title (engine self) with
      | Done stored => (mkInputDB stored (map_df self), printed, Done tt)
      | Failed e => (self, printed, Failed e)
      end
  end.

(** [InputDB.update_xl_reads], lines 110-124; its default argument is
    [glob "../xls/*.xlsx"], taken when the class is defined. *)
Fixpoint update_xl_reads (settings : Settings) (self : InputDB E)
    (sheets_to_read : list string) : InputDB E * list string * attempt unit :=
  match sheets_to_read with
  | [] => (self, [], Done tt)
  | available_file :: rest =>
      match update_xl_read settings self available_file with
      | (self, printed, Done _) =>
          match update_xl_reads settings self rest with
          | (self, more, outcome) => (self, (printed ++ more)%list, outcome)
          end
      | (self, printed, Failed e) => (self, printed, Failed e)
      end
  end.
End Loaders.

(* ================================================================== *)
(** ** A store and a run time for the worked examples *)
(* ================================================================== *)

(** *** The frame pandas makes of the records of an answer *)

(** [pd.read_sql_query] hands the records the driver returns, tuples of
    [None], ints, floats and strings, to [DataFrame.from_records], which
    types each column from all its values ([maybe_convert_objects]): a
    column with a string, or with nothing but [None], keeps its objects; any
    other column with a [None] or a float becomes a column of floats, its
    [None]s NaN and its ints floats; a column of ints stays as it is.  So
    what a row holds for a NULL depends on the other rows of the answer. *)
Inductive dtype : Type :=
| object
| float64
| int64.

Definition is_text (v : cell) : bool :=
  match v with CStr _ => true | _ => false end.

Definition is_None (v : cell) : bool :=
  match v with CNone => true | _ => false end.

Definition is_real (v : cell) : bool :=
  match v with CFloat _ => true | _ => false end.

Definition infer_dtype (values : list cell) : dtype :=
  if existsb is_text values then object
  else if forallb is_None values then object
  else if existsb is_None values || existsb is_real values then float64
  else int64.

Definition astype (d : dtype) (v : cell) : cell :=
  match d, v with
  | float64, CNone => CFloat nan
  | float64, CInt n => CFloat (float_of_Z n)
  | _, _ => v
  end.

(** The values of the records at position [j]. *)
Definition field (j : nat) (records : list (list cell)) : list cell :=
  map (fun record => nth j record CNone) records.

Definition from_records (columns : list string) (records : list (list cell))
    : DataFrame string :=
  mkFrame columns
    (map (fun record =>
            map (fun j => astype (infer_dtype (field j records))
                            (nth j record CNone))
                (seq 0 (List.length columns)))
         records).

(** A store that answers each statement from a table of prepared results,
    keyed by the text of the statement; storing a frame prepares the answer
    to the unfiltered query of its name, the row numbers going first as
    [to_sql] writes them (answers prepared for other statements stay). *)
Definition Prepared : Type := list (string * DataFrame string).

Fixpoint number_rows (i : Z) (rs : list (list cell)) : list (list cell) :=
  match rs with
  | [] => []
  | r :: rs' => (CInt i :: r) :: number_rows (i + 1) rs'
  end.

Definition prepared_read (query : string) (store : Prepared)
    : result (DataFrame string) :=
  match List.find (fun qa => String.eqb (fst qa) query) store with
  | Some qa => Ok (snd qa)
  | None => Raise DatabaseError
  end.

Definition prepared_store (frame : DataFrame string) (name : string)
    (store : Prepared) : result Prepared :=
  Ok (("Select * from " ++ name,
       mkFrame ("index" :: columns frame) (number_rows 0 (rows frame)))
      :: store).

#[global] Instance Prepared_engine : SqlEngine Prepared :=
  {| read_sql_query := prepared_read; to_sql := prepared_store |}.

(** A run time that reads digit strings as floats and nothing else, and prints
    no float: enough for the examples, whose labels are years and year ranges
    and whose date cells are ints and strings. *)
Definition digits_float_of_str (s : string) : result float :=
  if isdigit s then Ok (float_of_Z (digits_value s)) else Raise ValueError.

Lemma digits_float_of_str_digits (s : string) :
  isdigit s = true -> digits_float_of_str s = Ok (float_of_Z (digits_value s)).
Proof. unfold digits_float_of_str. intros ->. reflexivity. Qed.

#[global] Instance digits_FloatText : FloatText :=
  {| float_of_str := digits_float_of_str;
     str_of_float := fun _ => "";
     float_of_str_digits := digits_float_of_str_digits |}.

(** *** Worked data: Mongolia (MNG), and Antarctica (ATA), which has no row *)

#[local] Set Warnings "-inexact-float".

Definition bcg_columns : list string :=
  ["index"; "ISO_code"; "Cname"; "1980"; "1981"; "1982"].

Definition bcg_row_MNG : list cell :=
  [CInt 0; CStr "MNG"; CStr "Mongolia"; CFloat 87.0; CNone; CInt 90].

Definition birth_rate_columns : list string :=
  ["index"; "Variant"; "Country code"; "1980-1984"; "1985-1989";
   "Location code"; "iso3"].

Definition birth_rate_row_MNG : list cell :=
  [CInt 0; CStr "Estimates"; CInt 496; CFloat 34.2; CFloat 20.0;
   CFloat 496.0; CStr "MNG"].

Definition population_columns : list string :=
  ["index"; "Country code"; "Reference date (as of 1 July)";
   "0-4"; "5-9"; "95+"; "iso3"].

Definition population_rows_MNG : list (list cell) :=
  [[CInt 0; CInt 496; CInt 1950; CFloat 120.5; CFloat 98.0; CFloat 0.5;
    CStr "MNG"];
   [CInt 1; CInt 496; CInt 1955; CFloat 140.0; CFloat 110.5; CFloat 1.0;
    CStr "MNG"]].

Definition deaths_columns : list string :=
  ["index"; "Country code"; "Period"; "0-4"; "5-9"; "95+"; "iso3"].

Definition deaths_rows_MNG : list (list cell) :=
  [[CInt 0; CInt 496; CStr "1950-1955"; CFloat 30.0; CFloat 4.0; CFloat 0.25;
    CStr "MNG"]].

Definition locations_columns : list string :=
  ["index"; "Location code"; "ISO3 Alpha-code"].

(** Two countries, a region without an alpha code, and a row without a
    numeric code (which makes the codes a column of floats). *)
Definition locations_rows : list (list cell) :=
  [[CInt 0; CFloat 496.0; CStr "MNG"];
   [CInt 1; CFloat 4.0; CStr "AFG"];
   [CInt 2; CFloat 900.0; CNone];
   [CInt 3; CFloat nan; CStr "ZZZ"]].

Definition crude_birth_rate_columns : list string :=
  ["Variant"; "Index"; "Country code"; "1980-1984"; "1985-1989"].

(** Mongolia, and the world (code 900), which the crosswalk does not map. *)
Definition crude_birth_rate_rows : list (list cell) :=
  [[CStr "Estimates"; CInt 1; CInt 900; CFloat 27.5; CFloat 26.0];
   [CStr "Estimates"; CInt 2; CInt 496; CFloat 34.2; CFloat 20.0]].

Definition example_store : Prepared :=
  [("Select * from BCG Where ISO_code = 'MNG'",
    mkFrame bcg_columns [bcg_row_MNG]);
   ("Select * from BCG Where ISO_code = 'ATA'", mkFrame bcg_columns []);
   ("Select * from crude_birth_rate_mapped Where iso3 = 'MNG'",
    mkFrame birth_rate_columns [birth_rate_row_MNG]);
   ("Select * from crude_birth_rate_mapped Where iso3 = 'ATA'",
    mkFrame birth_rate_columns []);
   ("Select * from total_population_mapped Where iso3 = 'MNG'",
    mkFrame population_columns population_rows_MNG);
   ("Select * from total_population_mapped Where iso3 = 'ATA'",
    mkFrame population_columns []);
   ("Select * from absolute_deaths_mapped Where iso3 = 'MNG'",
    mkFrame deaths_columns deaths_rows_MNG);
   ("Select * from un_iso3_map", mkFrame locations_columns locations_rows);
   ("Select * from crude_birth_rate",
    mkFrame crude_birth_rate_columns crude_birth_rate_rows)].

Definition example_db : InputDB Prepared := mkInputDB example_store None.

(** Tables that hold two rows for Mongolia, the first with a NULL (1980, and
    1980-1984) where the second has a number. *)
Definition coverage_columns : list string :=
  ["index"; "ISO_code"; "Cname"; "1980"; "1981"].

Definition coverage_record_first : list cell :=
  [CInt 0; CStr "MNG"; CStr "Mongolia"; CNone; CFloat 70.0].

Definition coverage_record_second : list cell :=
  [CInt 1; CStr "MNG"; CStr "Mongolia"; CFloat 55.0; CFloat 60.0].

Definition births_record_first : list cell :=
  [CInt 0; CStr "Estimates"; CInt 496; CNone; CFloat 20.0;
   CFloat 496.0; CStr "MNG"].

Definition births_record_second : list cell :=
  [CInt 1; CStr "Medium"; CInt 496; CFloat 11.0; CFloat 12.0;
   CFloat 496.0; CStr "MNG"].

Definition two_rows_db : InputDB Prepared :=
  mkInputDB
    (("Select * from BCG Where ISO_code = 'MNG'",
      from_records coverage_columns
        [coverage_record_first; coverage_record_second])
     :: ("Select * from crude_birth_rate_mapped Where iso3 = 'MNG'",
         from_records birth_rate_columns
           [births_record_first; births_record_second])
     :: example_store)
    None.

(** The same tables with a third row for Mongolia, which leaves the first
    row of each answer as it is. *)
Definition three_rows_db : InputDB Prepared :=
  mkInputDB
    [("Select * from BCG Where ISO_code = 'MNG'",
      from_records coverage_columns
        [coverage_record_first; coverage_record_second;
         [CInt 2; CStr "MNG"; CStr "Mongolia"; CNone; CFloat 1.0]]);
     ("Select * from crude_birth_rate_mapped Where iso3 = 'MNG'",
      from_records birth_rate_columns
        [births_record_first; births_record_second;
         [CInt 2; CStr "High"; CInt 496; CFloat 13.0; CNone;
          CFloat 496.0; CStr "MNG"]])]
    None.

(** The same tables with the first row alone. *)
Definition first_row_db : InputDB Prepared :=
  mkInputDB
    [("Select * from BCG Where ISO_code = 'MNG'",
      from_records coverage_columns [coverage_record_first]);
     ("Select * from crude_birth_rate_mapped Where iso3 = 'MNG'",
      from_records birth_rate_columns [births_record_first])]
    None.

(** Tables with an open top band ["95+"] among their columns. *)
Definition open_band_db : InputDB Prepared :=
  mkInputDB
    [("Select * from BCG Where ISO_code = 'MNG'",
      mkFrame ["index"; "ISO_code"; "95+"] [[CInt 0; CStr "MNG"; CFloat 10.0]]);
     ("Select * from crude_birth_rate_mapped Where iso3 = 'MNG'",
      mkFrame ["index"; "95+"; "iso3"] [[CInt 0; CFloat 10.0; CStr "MNG"]])]
    None.


(** A locations table that lists Mongolia twice. *)
Definition listed_twice_db : InputDB Prepared :=
  mkInputDB
    [("Select * from un_iso3_map",
      mkFrame locations_columns
        [[CInt 0; CInt 496; CStr "MNG"]; [CInt 1; CInt 496; CStr "MNG"]]);
     ("Select * from crude_birth_rate",
      mkFrame crude_birth_rate_columns
        [[CStr "Estimates"; CInt 2; CInt 496; CFloat 34.2; CFloat 20.0]])]
    None.

(** A coverage table with text under the label ["1981"], and a birth-rate
    table with [None] under ["1985-1989"]. *)
Definition unusable_db : InputDB Prepared :=
  mkInputDB
    [("Select * from BCG Where ISO_code = 'MNG'",
      mkFrame bcg_columns
        [[CInt 0; CStr "MNG"; CStr "Mongolia"; CFloat 87.0; CStr "n/a"; CInt 90]]);
     ("Select * from crude_birth_rate_mapped Where iso3 = 'MNG'",
      mkFrame birth_rate_columns
        [[CInt 0; CStr "Estimates"; CInt 496; CFloat 34.2; CNone;
          CFloat 496.0; CStr "MNG"]])]
    None.

(** A deaths table without its period column, and one with a label that has
    no int before its hyphen. *)
Definition bad_labels_db : InputDB Prepared :=
  mkInputDB
    [("Select * from absolute_deaths_mapped Where iso3 = 'MNG'",
      mkFrame ["index"; "Country code"; "0-4"; "iso3"]
        [[CInt 0; CInt 496; CFloat 30.0; CStr "MNG"]]);
     ("Select * from total_population_mapped Where iso3 = 'MNG'",
      mkFrame ["index"; "Period"; "0-4"; "under-5"]
        [[CInt 0; CInt 1950; CFloat 120.5; CFloat 120.5]])]
    None.

(** A store with the coverage table under the names the extraction functions
    ask for, and the crosswalk of an earlier call still in the object. *)
Definition coverage_db : InputDB Prepared :=
  mkInputDB
    (("Select ISO_code from bcg",
      mkFrame ["ISO_code"] [[CStr "MNG"]; [CStr "AFG"]; [CStr "MNG"]])
     :: ("Select * from bcg",
         mkFrame ["index"; "ISO_code"; "1980"]
           [[CInt 0; CStr "MNG"; CFloat 87.0]; [CInt 1; CStr "AFG"; CFloat nan];
            [CInt 2; CStr "MNG"; CFloat 88.0]])
     :: example_store)
    (Some (mkFrame ["Location code"; "ISO3 Alpha-code"]
             [[CFloat 1.0; CStr "OLD"]])).

(** *** Worked files *)

(** A folder on a system whose paths are written with [/]: one CSV file and
    three workbooks, one of them not listed in [__init__].  A workbook is
    given by the cells of its tabs, row by row; the cells of a header row are
    text. *)
Definition Workbook : Type := list (string * list (list cell)).

(** What a file gives when read: a frame with the row numbers pandas gives
    by default, or with one of the columns read as its index. *)
Inductive Sheet : Type :=
| RangeIndexed (frame : DataFrame string)
| IndexedBy (name : string) (index : list cell) (frame : DataFrame string).

Definition notifications_csv : DataFrame string :=
  mkFrame ["iso3"; "year"; "c_newinc"] [[CStr "MNG"; CInt 2015; CInt 4685]].

Definition coverage_workbook : Workbook :=
  [("BCG", [[CStr "ISO_code"; CStr "Cname"; CStr "1980"];
            [CStr "MNG"; CStr "Mongolia"; CFloat 87.0]]);
   ("DTP1", [[CStr "ISO_code"; CStr "Cname"; CStr "1980"];
             [CStr "MNG"; CStr "Mongolia"; CFloat 80.0]])].

(** Sixteen rows of titles stand above the header row of this tab. *)
Definition locations_workbook : Workbook :=
  [("Location",
    (repeat [CStr "United Nations"] 16
     ++ [[CStr "Index"; CStr "Region"; CStr "Location code";
          CStr "ISO3 Alpha-code"];
         [CInt 1; CStr "Mongolia"; CInt 496; CStr "MNG"]])%list)].

Definition unlisted_workbook : Workbook :=
  [("Sheet1", [[CStr "a"; CStr "b"]; [CInt 1; CInt 2]])].

Definition example_workbooks : list (string * Workbook) :=
  [("../xls/coverage_estimates_series.xlsx", coverage_workbook);
   ("../xls/WPP2019_F01_LOCATIONS.xlsx", locations_workbook);
   ("../xls/unlisted.xlsx", unlisted_workbook)].

Definition example_glob (pattern : string) : list string :=
  if String.eqb pattern "../xls/*.csv" then ["../xls/notifications.csv"]
  else if String.eqb pattern "../xls/*.xlsx" then map fst example_workbooks
  else [].

Definition example_read_csv (path : string) : attempt Sheet :=
  if String.eqb path "../xls/notifications.csv"
  then Done (RangeIndexed notifications_csv)
  else Failed (Other "FileNotFoundError").

Definition example_ExcelFile (path : string) : attempt Workbook :=
  match List.find (fun entry => String.eqb (fst entry) path) example_workbooks with
  | Some entry => Done (snd entry)
  | None => Failed (Other "FileNotFoundError")
  end.

Definition header_label (v : cell) : string :=
  match v with CStr s => s | _ => "" end.

Fixpoint without {A : Type} (j : nat) (l : list A) : list A :=
  match j, l with
  | _, [] => []
  | O, _ :: rest => rest
  | S j', x :: rest => x :: without j' rest
  end.

(** Reading a tab: the rows above the header row are skipped, the header row
    gives the labels, and the column at [index_col] becomes the index, under
    its label.  A tab the workbook has not, and a header row the tab has
    not, raise [ValueError]. *)
Definition example_read_excel (book : Workbook) (header index_col : Z)
    (sheet_name : string) : attempt Sheet :=
  match List.find (fun entry => String.eqb (fst entry) sheet_name) book with
  | None => Failed (Raised ValueError)
  | Some entry =>
      match skipn (Z.to_nat header) (snd entry) with
      | [] => Failed (Raised ValueError)
      | labels :: data =>
          let j := Z.to_nat index_col in
          if Nat.ltb j (List.length labels)
          then Done (IndexedBy (header_label (nth j labels CNone))
                       (map (fun r => nth j r CNone) data)
                       (mkFrame (map header_label (without j labels))
                          (map (without j) data)))
          else Failed IndexError
      end
  end.

(** Writing a sheet: the index goes first, under its name, or under
    ["index"] when it is the row numbers. *)
Definition example_to_sql (sheet : Sheet) (name : string) (store : Prepared)
    : attempt Prepared :=
  match sheet with
  | RangeIndexed frame => lift (prepared_store frame name store)
  | IndexedBy index_name index frame =>
      Done (("Select * from " ++ name,
             mkFrame (index_name :: columns frame)
               (map (fun ir => fst ir :: snd ir) (combine index (rows frame))))
            :: store)
  end.

#[global] Instance example_folder : Files Prepared Workbook Sheet :=
  {| create_engine := fun _ => [];
     glob := example_glob;
     read_csv := example_read_csv;
     ExcelFile := example_ExcelFile;
     read_excel := example_read_excel;
     sheet_to_sql := example_to_sql |}.

(* ================================================================== *)
(** ** Properties of the run-time model *)
(* ================================================================== *)

Lemma bind_Ok {A B : Type} (m : result A) (k : A -> result B) (b : B) :
  Py.bind m k = Ok b -> exists a, m = Ok a /\ k a = Ok b.
Proof.
  destruct m as [a|e]; simpl; intros Hk; [exists a; auto | discriminate].
Qed.

Ltac inv_bind H :=
  let a := fresh "a" in
  let Ha := fresh "Ha" in
  apply bind_Ok in H; destruct H as (a & Ha & H).

Tactic Notation "bind_inv" hyp(H) "as" ident(a) ident(Ha) :=
  apply bind_Ok in H; destruct H as (a & Ha & H).

Ltac ascii_cases c :=
  destruct c as [[] [] [] [] [] [] [] []]; vm_compute; try reflexivity;
  try discriminate; try congruence.

Lemma is_digit_not_space (c : ascii) : is_digit c = true -> is_space c = false.
Proof. ascii_cases c. Qed.

Lemma is_digit_not_underscore (c : ascii) :
  is_digit c = true -> Ascii.eqb c "_" = false.
Proof. ascii_cases c. Qed.

Lemma is_digit_not_hyphen (c : ascii) :
  is_digit c = true -> c <> "-"%char.
Proof. ascii_cases c. Qed.

Lemma is_digit_not_plus (c : ascii) :
  is_digit c = true -> c <> "+"%char.
Proof. ascii_cases c. Qed.

Lemma isdigit_all_digits (s : string) : isdigit s = true -> all_digits s = true.
Proof. destruct s; simpl; [discriminate | auto]. Qed.

Lemma rstrip_digits (s : string) : all_digits s = true -> rstrip s = s.
Proof.
  induction s as [|c s IH]; simpl; [reflexivity|].
  intros Hd. apply andb_true_iff in Hd. destruct Hd as [Hc Hs].
  rewrite (IH Hs). destruct s; [|reflexivity].
  now rewrite (is_digit_not_space _ Hc).
Qed.

Lemma strip_digits (s : string) : all_digits s = true -> strip s = s.
Proof.
  intros Hd. unfold strip. rewrite (rstrip_digits _ Hd).
  destruct s as [|c s]; simpl; [reflexivity|].
  simpl in Hd. apply andb_true_iff in Hd. destruct Hd as [Hc _].
  now rewrite (is_digit_not_space _ Hc).
Qed.

Lemma parse_digits_all_digits (s : string) (acc : Z) :
  isdigit s = true -> parse_digits acc s = Some (digits_value_from acc s).
Proof.
  revert acc. induction s as [|c s IH]; intros acc Hd; [discriminate|].
  simpl in Hd. apply andb_true_iff in Hd. destruct Hd as [Hc Hs].
  cbn [parse_digits digits_value_from]. rewrite Hc.
  destruct s as [|c' s']; [reflexivity|].
  assert (Hc' : is_digit c' = true).
  { simpl in Hs. apply andb_true_iff in Hs. tauto. }
  rewrite (is_digit_not_underscore _ Hc').
  apply IH. exact Hs.
Qed.

(** [int] of a digit string is the number the digits spell. *)
Lemma int_of_str_digits (s : string) :
  isdigit s = true -> int_of_str s = Ok (digits_value s).
Proof.
  intros Hd. unfold int_of_str.
  rewrite (strip_digits _ (isdigit_all_digits _ Hd)).
  destruct s as [|c s]; [discriminate|].
  assert (Hc : is_digit c = true).
  { simpl in Hd. apply andb_true_iff in Hd. tauto. }
  assert (Hparsed :
    match String c s with
    | String "+" r => parse_digits 0 r
    | String "-" r => option_map Z.opp (parse_digits 0 r)
    | _ => parse_digits 0 (String c s)
    end = parse_digits 0 (String c s)).
  { pose proof (is_digit_not_plus _ Hc) as Hp.
    pose proof (is_digit_not_hyphen _ Hc) as Hh.
    clear Hd Hc.
    destruct c as [[] [] [] [] [] [] [] []]; try reflexivity; congruence. }
  rewrite Hparsed, (parse_digits_all_digits _ _ Hd). reflexivity.
Qed.

(** *** Splitting a string at its first hyphen *)

Lemma index_hyphen_cons (c : ascii) (s : string) :
  index 0 "-" (String c s)
  = if Ascii.eqb c "-" then Some 0
    else match index 0 "-" s with Some n => Some (S n) | None => None end.
Proof.
  cbn [index prefix]. destruct (ascii_dec "-" c) as [<-|Hne].
  - destruct s; reflexivity.
  - destruct (Ascii.eqb_spec c "-") as [->|_]; [congruence | reflexivity].
Qed.

(** A string with a hyphen is a hyphen-free head, the hyphen, and a tail;
    [find] gives the length of the head and the slice gives the head. *)
Lemma hyphen_split (s : string) :
  contains "-" s = true ->
  exists head tail,
    s = head ++ "-" ++ tail /\ contains "-" head = false
    /\ slice_to s (str_find "-" s) = head.
Proof.
  unfold contains, str_find, slice_to.
  induction s as [|c s IH]; [discriminate|].
  rewrite index_hyphen_cons.
  destruct (Ascii.eqb_spec c "-") as [->|Hne].
  - intros _. exists "", s. repeat split.
  - destruct (index 0 "-" s) as [n|] eqn:Hi; [|discriminate].
    intros _. destruct (IH eq_refl) as (head & tail & Hs & Hhead & Hslice).
    exists (String c head), tail. split; [|split].
    + simpl. now rewrite Hs.
    + rewrite index_hyphen_cons.
      destruct (Ascii.eqb_spec c "-") as [->|_]; [congruence|].
      destruct (index 0 "-" head); [discriminate | reflexivity].
    + assert (H0 : (0 <=? Z.of_nat n)%Z = true) by (apply Z.leb_le; lia).
      assert (H1 : (0 <=? Z.of_nat (S n))%Z = true) by (apply Z.leb_le; lia).
      rewrite H0 in Hslice. rewrite H1.
      rewrite Nat2Z.id in *. simpl. now rewrite Hslice.
Qed.

Lemma contains_hyphen_app (head tail : string) :
  contains "-" (head ++ "-" ++ tail) = true.
Proof.
  unfold contains. induction head as [|c head IH]; cbn [append] in *.
  - rewrite index_hyphen_cons. reflexivity.
  - rewrite index_hyphen_cons. destruct (Ascii.eqb c "-"); [reflexivity|].
    destruct (index 0 "-" (head ++ String "-" tail)); [reflexivity | discriminate].
Qed.

Lemma all_digits_no_hyphen (s : string) :
  all_digits s = true -> contains "-" s = false.
Proof.
  unfold contains. induction s as [|c s IH]; [reflexivity|].
  intros Hd. cbn [all_digits] in Hd.
  apply andb_true_iff in Hd. destruct Hd as [Hc Hs].
  rewrite index_hyphen_cons.
  destruct (Ascii.eqb_spec c "-") as [->|_].
  - now apply is_digit_not_hyphen in Hc.
  - specialize (IH Hs). destruct (index 0 "-" s); [discriminate | reflexivity].
Qed.

(** The head before the first hyphen is what the slice returns. *)
Lemma slice_before_hyphen (head tail : string) :
  contains "-" head = false ->
  slice_to (head ++ "-" ++ tail) (str_find "-" (head ++ "-" ++ tail)) = head.
Proof.
  intros Hhead.
  destruct (hyphen_split _ (contains_hyphen_app head tail))
    as (h & t & Heq & Hh & Hslice).
  rewrite Hslice. clear Hslice.
  revert h Heq Hh. induction head as [|c head IH]; intros h Heq Hh.
  - destruct h as [|c' h]; [reflexivity|].
    simpl in Heq. injection Heq as <- _.
    unfold contains in Hh. rewrite index_hyphen_cons in Hh. discriminate.
  - unfold contains in Hhead. rewrite index_hyphen_cons in Hhead.
    destruct (Ascii.eqb_spec c "-") as [->|Hne]; [discriminate|].
    destruct h as [|c' h].
    + simpl in Heq. injection Heq as -> _. congruence.
    + simpl in Heq. injection Heq as <- Heq.
      f_equal. apply IH.
      * unfold contains. destruct (index 0 "-" head); [discriminate|reflexivity].
      * exact Heq.
      * unfold contains in Hh |- *. rewrite index_hyphen_cons in Hh.
        destruct (Ascii.eqb c "-"); [discriminate|].
        destruct (index 0 "-" h); [discriminate | reflexivity].
Qed.

(* ================================================================== *)
(** ** Properties of lists and list comprehensions *)
(* ================================================================== *)

Lemma list_comprehension_app {A B : Type} (f : A -> result B) (xs ys : list A) :
  list_comprehension f (xs ++ ys)%list
  = (us <- list_comprehension f xs ;;
     vs <- list_comprehension f ys ;;
     Ok (us ++ vs)%list).
Proof.
  induction xs as [|x xs IH]; simpl.
  - destruct (list_comprehension f ys); reflexivity.
  - destruct (f x) as [y|e]; simpl; [|reflexivity].
    rewrite IH. destruct (list_comprehension f xs) as [us|e]; simpl; [|reflexivity].
    destruct (list_comprehension f ys); reflexivity.
Qed.

Lemma list_comprehension_Forall2 {A B : Type} (f : A -> result B)
    (xs : list A) (ys : list B) :
  list_comprehension f xs = Ok ys <-> Forall2 (fun x y => f x = Ok y) xs ys.
Proof.
  revert ys. induction xs as [|x xs IH]; intros ys; simpl.
  - split.
    + intros [= <-]. constructor.
    + intros Hf. inversion Hf. reflexivity.
  - split.
    + intros Hc. inv_bind Hc. inv_bind Hc. injection Hc as <-.
      constructor; [assumption | now apply IH].
    + intros Hf. inversion Hf as [|? y ? ys' Hx Hrest]; subst.
      rewrite Hx. simpl. apply IH in Hrest. rewrite Hrest. reflexivity.
Qed.

Lemma Forall2_In_right {A B : Type} (R : A -> B -> Prop) (xs : list A)
    (ys : list B) (y : B) :
  Forall2 R xs ys -> In y ys -> exists x, In x xs /\ R x y.
Proof.
  induction 1 as [|x y' xs ys Hxy _ IH]; simpl; [contradiction|].
  intros [<-|Hin].
  - exists x. auto.
  - destruct (IH Hin) as (x' & Hx' & HR). exists x'. auto.
Qed.

Lemma Forall2_length_eq {A B : Type} (R : A -> B -> Prop) (xs : list A)
    (ys : list B) :
  Forall2 R xs ys -> List.length xs = List.length ys.
Proof. induction 1; simpl; congruence. Qed.

Lemma Forall2_nth_error_left {A B : Type} (R : A -> B -> Prop) (xs : list A)
    (ys : list B) (i : nat) (x : A) :
  Forall2 R xs ys -> nth_error xs i = Some x ->
  exists y, nth_error ys i = Some y /\ R x y.
Proof.
  intros HF. revert i. induction HF as [|x' y' xs ys Hxy _ IH]; intros i.
  - destruct i; discriminate.
  - destruct i as [|i]; simpl.
    + intros [= <-]. exists y'. auto.
    + apply IH.
Qed.

Lemma map_combine_series {X R S : Type} (row : X -> R) (series : R -> S)
    (g : R -> S -> R) (xs : list X) :
  map (fun rv => g (fst rv) (snd rv))
    (combine (map row xs) (map series (map row xs)))
  = map (fun x => g (row x) (series (row x))) xs.
Proof. induction xs as [|x xs IH]; simpl; [reflexivity | now rewrite IH]. Qed.

Lemma sum_of_at_most_one {A : Type} (f : A -> nat) (xs : list A) :
  (forall x, In x xs -> f x <= 1) ->
  list_sum (map f xs) <= List.length xs
  /\ (list_sum (map f xs) = List.length xs <-> forall x, In x xs -> f x = 1).
Proof.
  induction xs as [|x xs IH]; intros Hle; simpl.
  - split; [lia|]. split; [intros _ y [] | reflexivity].
  - assert (Hx : f x <= 1) by (apply Hle; now left).
    destruct IH as [IHle IHeq]; [intros y Hy; apply Hle; now right|].
    split; [lia|]. split.
    + intros Hsum y [<-|Hy]; [lia|]. apply IHeq; [lia | exact Hy].
    + intros Hall. rewrite (Hall x (or_introl eq_refl)).
      assert (list_sum (map f xs) = List.length xs).
      { apply IHeq. intros y Hy. apply Hall. now right. }
      lia.
Qed.

(* ================================================================== *)
(** ** Properties of the frame operations *)
(* ================================================================== *)

Section FrameFacts.
Context {L : Type} `{Label L}.

Lemma label_eqb_refl (l : L) : label_eqb l l = true.
Proof. now apply label_eqb_eq. Qed.

Lemma has_label_In (l : L) (cols : list L) : has_label l cols = true <-> In l cols.
Proof.
  unfold has_label. rewrite existsb_exists. split.
  - intros (c & Hin & Heq). apply label_eqb_eq in Heq. now subst.
  - intros Hin. exists l. split; [exact Hin | apply label_eqb_refl].
Qed.

Lemma unique_labels_NoDup (cols : list L) : unique_labels cols = true <-> NoDup cols.
Proof.
  induction cols as [|c cs IH]; simpl.
  - split; [constructor | reflexivity].
  - rewrite andb_true_iff, negb_true_iff, IH. split.
    + intros [Hc Hcs]. constructor; [|exact Hcs].
      intros Hin. apply has_label_In in Hin. congruence.
    + intros Hnd. inversion Hnd as [|? ? Hnotin Hcs]; subst. split; [|exact Hcs].
      destruct (has_label c cs) eqn:Hh; [|reflexivity].
      apply has_label_In in Hh. contradiction.
Qed.

Lemma cell_at_head (c : L) (cs : list L) (v : cell) (vs : list cell) :
  cell_at c (c :: cs) (v :: vs) = v.
Proof. unfold cell_at. simpl. now rewrite label_eqb_refl. Qed.

Lemma cell_at_tail (l c : L) (cs : list L) (v : cell) (vs : list cell) :
  l <> c -> cell_at l (c :: cs) (v :: vs) = cell_at l cs vs.
Proof.
  intros Hne. unfold cell_at. simpl.
  destruct (label_eqb c l) eqn:Heq; [|reflexivity].
  apply label_eqb_eq in Heq. congruence.
Qed.

(** Reading a row under the labels a predicate keeps gives the cells whose
    label the predicate keeps. *)
Lemma combine_kept_cells (p : L -> bool) (cols : list L) (r : list cell) :
  NoDup cols -> List.length r = List.length cols ->
  combine (filter p cols) (map (fun l => cell_at l cols r) (filter p cols))
  = filter (fun kv => p (fst kv)) (combine cols r).
Proof.
  intros Hnd. revert r. induction Hnd as [|c cs Hnotin Hnd IH]; intros r Hlen.
  - reflexivity.
  - destruct r as [|v vs]; [discriminate|]. simpl in Hlen.
    assert (Htail :
      map (fun l => cell_at l (c :: cs) (v :: vs)) (filter p cs)
      = map (fun l => cell_at l cs vs) (filter p cs)).
    { apply map_ext_in. intros l Hl. apply filter_In in Hl. destruct Hl as [Hl _].
      apply cell_at_tail. intros ->. contradiction. }
    simpl. destruct (p c); simpl.
    + rewrite cell_at_head, Htail, IH by lia. reflexivity.
    + rewrite Htail, IH by lia. reflexivity.
Qed.

Lemma filter_has_label_kept (p : L -> bool) (cols : list L) :
  filter (fun r => has_label r cols) (filter p cols) = filter p cols.
Proof.
  apply forallb_filter_id. apply forallb_forall. intros l Hl.
  apply filter_In in Hl. now apply has_label_In.
Qed.
Lemma loc_columns_Ok (labels : list L) (df : DataFrame L) :
  forallb (fun l => has_label l (columns df)) labels = true ->
  loc_columns labels df = Ok (reindex labels df).
Proof. unfold loc_columns. now intros ->. Qed.

Lemma has_label_app (l : L) (xs ys : list L) :
  has_label l (xs ++ ys)%list = has_label l xs || has_label l ys.
Proof. unfold has_label. apply existsb_app. Qed.

Lemma cell_at_last (l : L) (labels : list L)
    (cells : list cell) (v : cell) :
  ~ In l labels -> List.length cells = List.length labels ->
  cell_at l (labels ++ [l])%list (cells ++ [v])%list = v.
Proof.
  revert cells. induction labels as [|c labels IH]; intros cells Hnotin Hlen.
  - destruct cells; [|discriminate]. apply cell_at_head.
  - destruct cells as [|x cells]; [discriminate|]. simpl.
    rewrite cell_at_tail.
    + apply IH; [|simpl in Hlen; lia]. intros Hin. apply Hnotin. now right.
    + intros ->. apply Hnotin. now left.
Qed.

Lemma set_cell_last (l : L) (labels : list L)
    (cells : list cell) (v w : cell) :
  ~ In l labels -> List.length cells = List.length labels ->
  set_cell l (labels ++ [l])%list (cells ++ [v])%list w = (cells ++ [w])%list.
Proof.
  revert cells. induction labels as [|c labels IH]; intros cells Hnotin Hlen.
  - destruct cells; [|discriminate]. simpl. now rewrite label_eqb_refl.
  - destruct cells as [|x cells]; [discriminate|]. simpl.
    destruct (label_eqb c l) eqn:Heq.
    + apply label_eqb_eq in Heq. subst. exfalso. apply Hnotin. now left.
    + f_equal. apply IH; [|simpl in Hlen; lia].
      intros Hin. apply Hnotin. now right.
Qed.

Lemma drop_columns_nrows (labels : list L)
    (df out : DataFrame L) :
  drop_columns labels df = Ok out -> nrows out = nrows df.
Proof.
  unfold drop_columns.
  destruct (forallb (fun l => has_label l (columns df)) labels); [|discriminate].
  intros [= <-]. unfold nrows. cbn [rows]. apply length_map.
Qed.

End FrameFacts.

Lemma merge_nrows (left right merged : DataFrame string)
    (left_on right_on : string) :
  merge left right left_on right_on = Ok merged ->
  nrows merged
  = list_sum
      (map (fun l =>
              List.length
                (filter
                   (fun r => key_matches (cell_at left_on (columns left) l)
                               (cell_at right_on (columns right) r))
                   (rows right)))
           (rows left)).
Proof.
  unfold merge.
  destruct (has_label left_on (columns left)
            && has_label right_on (columns right)); [|discriminate].
  intros [= <-]. unfold nrows. cbn [rows].
  rewrite length_flat_map. f_equal. apply map_ext. intros l.
  now rewrite length_map.
Qed.

(* ================================================================== *)
(** ** Properties of dictionaries and comprehensions *)
(* ================================================================== *)

Section Comprehension.
Context {A K V : Type}.
Variable keq : K -> K -> bool.
Variable cond : A -> bool.
Variable key : A -> result K.
Variable val : A -> result V.

Local Abbreviation comp := (dict_comprehension keq cond key val).

Lemma comprehension_app (pre post : list A) (d : dict K V) :
  comp (pre ++ post)%list d = (d1 <- comp pre d ;; comp post d1).
Proof.
  revert d. induction pre as [|x pre IH]; intros d; simpl; [reflexivity|].
  destruct (cond x); [|apply IH].
  destruct (key x) as [k|e]; simpl; [|reflexivity].
  destruct (val x) as [v|e]; simpl; [apply IH | reflexivity].
Qed.

(** The comprehension returns as soon as no accepted item raises. *)
Lemma comprehension_returns (items : list A) (d : dict K V) :
  (forall x, In x items -> cond x = true ->
     is_ok (key x) = true /\ is_ok (val x) = true) ->
  exists d', comp items d = Ok d'.
Proof.
  revert d. induction items as [|x items IH]; intros d Hok; simpl.
  - now exists d.
  - assert (Hrest : forall y, In y items -> cond y = true ->
                      is_ok (key y) = true /\ is_ok (val y) = true).
    { intros y Hy. apply Hok. now right. }
    destruct (cond x) eqn:Hc; [|now apply IH].
    destruct (Hok x (or_introl eq_refl) Hc) as [Hk Hv].
    destruct (key x) as [k|e]; [|discriminate].
    destruct (val x) as [v|e]; [|discriminate].
    simpl. now apply IH.
Qed.



Lemma dict_set_keys (k k' : K) (v : V) (d : dict K V) :
  In k (map fst (dict_set keq k' v d)) -> k = k' \/ In k (map fst d).
Proof.
  induction d as [|[k1 v1] d IH]; simpl.
  - intros [<-|[]]. now left.
  - destruct (keq k1 k'); simpl.
    + intros [<-|Hin]; right; [now left | now right].
    + intros [<-|Hin]; [right; now left|].
      destruct (IH Hin) as [->|Hd]; [now left | right; now right].
Qed.

(** Every key of the result was computed from an accepted item, or was
    there from the start. *)
Lemma comprehension_keys (items : list A) (d d' : dict K V) (k : K) :
  comp items d = Ok d' -> In k (map fst d') ->
  (exists x, In x items /\ cond x = true /\ key x = Ok k) \/ In k (map fst d).
Proof.
  revert d. induction items as [|x items IH]; intros d; simpl.
  - intros [= <-] Hin. now right.
  - destruct (cond x) eqn:Hc.
    + intros Hcomp Hin. inv_bind Hcomp. inv_bind Hcomp.
      destruct (IH _ Hcomp Hin) as [(y & Hy & Hcy & Hky)|Hset].
      * left. exists y. repeat split; auto.
      * apply dict_set_keys in Hset. destruct Hset as [->|Hd]; [|now right].
        left. exists x. repeat split; auto.
    + intros Hcomp Hin.
      destruct (IH _ Hcomp Hin) as [(y & Hy & Hcy & Hky)|Hd]; [|now right].
      left. exists y. repeat split; auto.
Qed.

Lemma dict_set_keeps_key (k k' : K) (v : V) (d : dict K V) :
  In k' (map fst d) -> In k' (map fst (dict_set keq k v d)).
Proof.
  induction d as [|[k1 v1] d IH]; simpl; [contradiction|].
  destruct (keq k1 k); simpl; intros [<-|Hin]; auto.
Qed.

Lemma dict_set_has_key (k : K) (v : V) (d : dict K V) :
  exists k', In k' (map fst (dict_set keq k v d))
             /\ (k' = k \/ keq k' k = true).
Proof.
  induction d as [|[k1 v1] d IH]; simpl.
  - exists k. auto.
  - destruct (keq k1 k) eqn:Hk; simpl.
    + exists k1. auto.
    + destruct IH as (k' & Hin & Hk'). exists k'. auto.
Qed.

Lemma comprehension_keeps_key (k' : K) (items : list A) (d d' : dict K V) :
  comp items d = Ok d' -> In k' (map fst d) -> In k' (map fst d').
Proof.
  revert d. induction items as [|x items IH]; intros d; simpl.
  - now intros [= <-].
  - destruct (cond x); [|apply IH].
    intros Hcomp Hin. inv_bind Hcomp. inv_bind Hcomp.
    apply (IH _ Hcomp). now apply dict_set_keeps_key.
Qed.

(** When the comprehension returns, every accepted item gave a key and a
    value, and left its key, or an earlier key equal to it, in the result. *)
Lemma comprehension_item (items : list A) (d d' : dict K V) (x : A) :
  comp items d = Ok d' -> In x items -> cond x = true ->
  exists k v k',
    key x = Ok k /\ val x = Ok v /\ In k' (map fst d')
    /\ (k' = k \/ keq k' k = true).
Proof.
  revert d. induction items as [|y items IH]; intros d; simpl; [contradiction|].
  intros Hcomp [->|Hin] Hc.
  - rewrite Hc in Hcomp. inv_bind Hcomp. inv_bind Hcomp.
    destruct (dict_set_has_key a a0 d) as (k' & Hk' & Heq).
    exists a, a0, k'. repeat split; auto.
    exact (comprehension_keeps_key _ _ _ _ Hcomp Hk').
  - destruct (cond y).
    + inv_bind Hcomp. inv_bind Hcomp. exact (IH _ Hcomp Hin Hc).
    + exact (IH _ Hcomp Hin Hc).
Qed.

(** With keys compared by equality, as ints are. *)
Hypothesis keq_eq : forall a b, keq a b = true <-> a = b.

Lemma keq_refl (k : K) : keq k k = true.
Proof. now apply keq_eq. Qed.

Lemma dict_get_key (k : K) (v : V) (d : dict K V) :
  dict_get keq k d = Some v -> In k (map fst d).
Proof.
  induction d as [|[k1 v1] d IH]; simpl; [discriminate|].
  destruct (keq k1 k) eqn:Hk.
  - apply keq_eq in Hk. now left.
  - intros Hget. right. now apply IH.
Qed.

Lemma dict_get_set (k k' : K) (v : V) (d : dict K V) :
  dict_get keq k (dict_set keq k' v d)
  = if keq k' k then Some v else dict_get keq k d.
Proof.
  induction d as [|[k1 v1] d IH]; simpl; [reflexivity|].
  destruct (keq k1 k') eqn:H1; simpl.
  - apply keq_eq in H1. subst k1. destruct (keq k' k); reflexivity.
  - rewrite IH. destruct (keq k1 k) eqn:H2; [|reflexivity].
    destruct (keq k' k) eqn:H3; [|reflexivity].
    apply keq_eq in H2, H3. subst. rewrite keq_refl in H1. discriminate.
Qed.




(** An accepted item that produces key [k] leaves [k] in the result. *)
Lemma comprehension_retains (k : K) (items : list A) (d d' : dict K V) (x : A) :
  comp items d = Ok d' -> In x items -> cond x = true -> key x = Ok k ->
  exists v, dict_get keq k d' = Some v.
Proof.
  revert d. induction items as [|y items IH]; intros d; simpl; [contradiction|].
  intros Hcomp Hin Hc Hk.
  assert (Hkeep : forall d1, comp items d1 = Ok d' ->
            (exists v, dict_get keq k d1 = Some v) ->
            exists v, dict_get keq k d' = Some v).
  { clear - keq_eq. revert d'. induction items as [|z items IH]; intros d' d1; simpl.
    - intros [= <-] Hv. exact Hv.
    - destruct (cond z).
      + intros Hcomp Hv. inv_bind Hcomp. inv_bind Hcomp.
        apply (IH _ _ Hcomp). rewrite dict_get_set.
        destruct (keq a k); [eexists; reflexivity | exact Hv].
      + apply IH. }
  destruct Hin as [->|Hin].
  - rewrite Hc, Hk in Hcomp. simpl in Hcomp. inv_bind Hcomp.
    apply (Hkeep _ Hcomp). rewrite dict_get_set, keq_refl. eexists; reflexivity.
  - destruct (cond y).
    + inv_bind Hcomp. inv_bind Hcomp. now apply (IH _ Hcomp).
    + now apply (IH _ Hcomp).
Qed.
End Comprehension.

(* ================================================================== *)
(** ** Properties of [db.py] *)
(* ================================================================== *)

Section DbFacts.
Context {E : Type} `{SqlEngine E} `{FloatText}.

(** *** Queries *)

(** C10.  [db_query] filters only when the filter column and the value are
    both non-empty: with an empty value, or an empty column name, the
    statement sent is that of the unfiltered call, whose answer is returned;
    with both non-empty the statement carries the [Where] clause. *)
Theorem db_query_filters_only_with_both (self : InputDB E)
    (table_name is_filter value column : string) :
  db_query self table_name is_filter "" column
  = db_query self table_name "" "" column
  /\ db_query self table_name "" value column
     = db_query self table_name "" "" column
  /\ db_query self table_name "" "" column
     = read_sql_query ("Select " ++ column ++ " from " ++ table_name) (engine self)
  /\ (is_filter <> "" -> value <> "" ->
      db_query self table_name is_filter value column
      = read_sql_query
          (("Select " ++ column ++ " from " ++ table_name)
           ++ " Where " ++ is_filter ++ " = '" ++ value ++ "'")
          (engine self)).
Proof.
  unfold db_query. repeat split.
  - destruct is_filter; reflexivity.
  - intros Hf Hv. destruct is_filter; [congruence|]. destruct value; [congruence|].
    reflexivity.
Qed.

(** *** The crosswalk *)

(** C9.  [get_un_iso_map] reads the locations table, keeps the columns
    ["Location code"] and ["ISO3 Alpha-code"] and, of their rows, those in
    which neither cell is missing; the mapping depends on the stored data
    only, so building it again gives the same mapping. *)
Theorem get_un_iso_map_builds_crosswalk (self : InputDB E)
    (locations : DataFrame string) :
  db_query self "un_iso3_map" "" "" "*" = Ok locations ->
  unique_labels (columns locations) = true ->
  has_label "Location code" (columns locations) = true ->
  has_label "ISO3 Alpha-code" (columns locations) = true ->
  exists crosswalk,
    get_un_iso_map self = (mkInputDB (engine self) (Some crosswalk), Ok tt)
    /\ columns crosswalk = ["Location code"; "ISO3 Alpha-code"]
    /\ rows crosswalk
       = filter
           (fun pair => forallb (fun v => negb (isna v)) pair)
           (map (fun r => [cell_at "Location code" (columns locations) r;
                           cell_at "ISO3 Alpha-code" (columns locations) r])
                (rows locations))
    /\ (forall pair, In pair (rows crosswalk) <->
          exists r code iso,
            In r (rows locations)
            /\ code = cell_at "Location code" (columns locations) r
            /\ iso = cell_at "ISO3 Alpha-code" (columns locations) r
            /\ pair = [code; iso] /\ isna code = false /\ isna iso = false)
    /\ get_un_iso_map (fst (get_un_iso_map self)) = get_un_iso_map self
    /\ (forall other : InputDB E, engine other = engine self ->
          get_un_iso_map other = get_un_iso_map self).
Proof.
  intros Hq _ Hcode Hiso.
  assert (Hbuild : forall other : InputDB E, engine other = engine self ->
            get_un_iso_map other
            = (mkInputDB (engine self)
                 (Some (dropna (reindex ["Location code"; "ISO3 Alpha-code"]
                                  locations))), Ok tt)).
  { intros other He. unfold get_un_iso_map, db_query in *. simpl in *.
    rewrite He, Hq. simpl.
    rewrite loc_columns_Ok; [reflexivity|].
    simpl. now rewrite Hcode, Hiso. }
  eexists. split; [apply Hbuild; reflexivity|].
  split; [reflexivity|]. split; [reflexivity|].
  split; [|split].
  - intros pair. simpl. rewrite filter_In, in_map_iff. split.
    + intros [(r & <- & Hr) Hna]. simpl in Hna.
      apply andb_true_iff in Hna. destruct Hna as [Hc Hna].
      apply andb_true_iff in Hna. destruct Hna as [Hi _].
      apply negb_true_iff in Hc, Hi.
      exists r, (cell_at "Location code" (columns locations) r),
        (cell_at "ISO3 Alpha-code" (columns locations) r).
      repeat split; auto.
    + intros (r & code & iso & Hr & -> & -> & -> & Hc & Hi). split.
      * exists r. split; [reflexivity | exact Hr].
      * simpl. now rewrite Hc, Hi.
  - rewrite (Hbuild self eq_refl). cbn [fst]. now apply Hbuild.
  - intros other He. now rewrite (Hbuild other He), (Hbuild self eq_refl).
Qed.

(** *** The demographic reshape *)

Lemma age_band_label_is_int (column : string) (l : label) :
  contains "-" column = true -> age_band_label column = Ok l ->
  exists n, l = LInt n.
Proof.
  unfold age_band_label. intros ->. intros Hl. inv_bind Hl.
  injection Hl as <-. now exists a.
Qed.

(** [extract_demo_data] returns whenever the renamed frame has a ["Period"]
    column and an int stands before the hyphen of every hyphenated label;
    the frame it returns has the relabelled hyphenated columns and, last,
    the period column with its values reduced by the lambda of line 218. *)
Lemma extract_demo_data_returns (database : InputDB E)
    (data_type country_iso_code : string) (df : DataFrame string)
    (labels : list label) :
  db_query database data_type "iso3" country_iso_code "*" = Ok df ->
  has_label "Period" (demo_renamed df) = true ->
  list_comprehension age_band_label (filter (contains "-") (demo_renamed df))
  = Ok labels ->
  extract_demo_data database data_type country_iso_code
  = Ok (mkFrame (labels ++ [LStr "Period"])%list
          (map (fun r =>
                  (map (fun l => cell_at l (demo_renamed df) r)
                     (filter (contains "-") (demo_renamed df))
                   ++ [period_year (cell_at "Period" (demo_renamed df) r)])%list)
               (rows df))).
Proof.
  intros Hq Hperiod Hlabels.
  unfold extract_demo_data. rewrite Hq. simpl Py.bind.
  change (columns (rename demo_column_names df)) with (demo_renamed df).
  set (hyph := filter (contains "-") (demo_renamed df)) in *.
  rewrite loc_columns_Ok.
  2:{ change (columns (rename demo_column_names df)) with (demo_renamed df).
      rewrite forallb_app. simpl forallb at 2.
      rewrite Hperiod, andb_true_r. apply forallb_forall.
      intros l Hl. apply has_label_In. apply filter_In in Hl. tauto. }
  cbn [Py.bind reindex columns rows rename].
  change (map (rename_label demo_column_names) (columns df))
    with (demo_renamed df).
  fold hyph. rewrite list_comprehension_app, Hlabels. simpl Py.bind.
  apply list_comprehension_Forall2 in Hlabels.
  assert (Hnotin : ~ In (LStr "Period") labels).
  { intros Hin.
    destruct (Forall2_In_right _ _ _ _ Hlabels Hin) as (c & Hc & Hlabel).
    apply filter_In in Hc. destruct Hc as [_ Hc].
    destruct (age_band_label_is_int _ _ Hc Hlabel) as (n & Hn). discriminate. }
  pose proof (Forall2_length_eq _ _ _ Hlabels) as Hlen.
  change (list_comprehension age_band_label ["Period"]) with (Ok [LStr "Period"]).
  simpl Py.bind.
  assert (Hhas : has_label (LStr "Period") (labels ++ [LStr "Period"])%list
                 = true).
  { rewrite has_label_app. simpl. apply orb_true_r. }
  unfold get_column. cbn [columns rows]. rewrite Hhas.
  cbn [Py.bind]. unfold set_column. cbn [columns rows]. rewrite Hhas.
  do 2 f_equal.
  rewrite (map_map (cell_at (LStr "Period") (labels ++ [LStr "Period"])%list)
             period_year).
  rewrite (map_combine_series
             (fun r => map (fun l => cell_at l (demo_renamed df) r)
                         (hyph ++ ["Period"])%list)
             (fun r => period_year
                         (cell_at (LStr "Period")
                            (labels ++ [LStr "Period"])%list r))
             (fun r v => set_cell (LStr "Period")
                           (labels ++ [LStr "Period"])%list r v)).
  apply map_ext. intros r. rewrite map_app.
  change (map (fun l => cell_at l (demo_renamed df) r) ["Period"])
    with [cell_at "Period" (demo_renamed df) r].
  rewrite cell_at_last, set_cell_last; auto; rewrite length_map; congruence.
Qed.

(** *** Series extraction reads row 0 *)

Lemma well_formed_row (df : DataFrame string) (r : list cell) :
  well_formed df = true -> In r (rows df) ->
  NoDup (columns df) /\ List.length r = List.length (columns df).
Proof.
  unfold well_formed, rectangular. intros Hwf Hr.
  apply andb_true_iff in Hwf. destruct Hwf as [Hu Hrect]. split.
  - now apply unique_labels_NoDup.
  - rewrite forallb_forall in Hrect. apply Nat.eqb_eq. now apply Hrect.
Qed.

(** On a frame with a first row, [get_bcg_coverage] is the comprehension of
    lines 23-24 over the digit-labelled cells of that row. *)
Lemma get_bcg_coverage_row0 (database : InputDB E) (country_iso_code : string)
    (df : DataFrame string) (r0 : list cell) (rest : list (list cell)) :
  db_query database "BCG" "ISO_code" country_iso_code "*" = Ok df ->
  well_formed df = true -> rows df = r0 :: rest ->
  get_bcg_coverage database country_iso_code
  = dict_comprehension Z.eqb
      (fun kv => is_not_None (snd kv))
      (fun kv => int_of_str (fst kv))
      (fun kv => truediv (snd kv) 1e2)
      (filter (fun kv => isdigit (fst kv)) (combine (columns df) r0)) [].
Proof.
  intros Hq Hwf Hrows.
  destruct (well_formed_row df r0 Hwf) as [Hnd Hlen].
  { rewrite Hrows. now left. }
  unfold get_bcg_coverage. rewrite Hq. cbn [Py.bind].
  unfold filter_items, reindex, loc_row0. cbn [columns rows].
  rewrite filter_has_label_kept, Hrows. cbn [map Py.bind].
  now rewrite (combine_kept_cells isdigit (columns df) r0 Hnd Hlen).
Qed.

(** On a frame with a first row, [get_crude_birth_rate] is the comprehension
    of lines 56-57 over the cells of that row. *)
Lemma get_crude_birth_rate_row0 (database : InputDB E)
    (country_iso_code : string) (df : DataFrame string) (r0 : list cell)
    (rest : list (list cell)) :
  db_query database "crude_birth_rate_mapped" "iso3" country_iso_code "*"
  = Ok df ->
  rows df = r0 :: rest ->
  get_crude_birth_rate database country_iso_code
  = dict_comprehension PrimFloat.eqb
      (fun kv => contains "-" (fst kv))
      (fun kv =>
         start <- float_of_str (slice_to (fst kv) (str_find "-" (fst kv))) ;;
         Ok (start + 2.5)%float)
      (fun kv => x <- float_of_cell (snd kv) ;; Ok (x / 1e3)%float)
      (combine (columns df) r0) [].
Proof.
  intros Hq Hrows. unfold get_crude_birth_rate. rewrite Hq. cbn [Py.bind].
  unfold loc_row0. rewrite Hrows. reflexivity.
Qed.

(** C1 (as amended).  When the filtered query returns no row,
    [get_bcg_coverage] and [get_crude_birth_rate] raise [KeyError]: row 0,
    which they read, does not exist.  [extract_demo_data] returns a table
    with its columns and no row, provided the frame has a period column and
    an int before the hyphen of each hyphenated label. *)
Theorem no_row_raises_KeyError (database : InputDB E) (country_iso_code : string) :
  (forall df,
      db_query database "BCG" "ISO_code" country_iso_code "*" = Ok df ->
      unique_labels (columns df) = true ->
      rows df = [] ->
      get_bcg_coverage database country_iso_code = Raise KeyError)
  /\ (forall df,
      db_query database "crude_birth_rate_mapped" "iso3" country_iso_code "*"
      = Ok df ->
      rows df = [] ->
      get_crude_birth_rate database country_iso_code = Raise KeyError)
  /\ (forall data_type df labels,
      db_query database data_type "iso3" country_iso_code "*" = Ok df ->
      unique_labels (demo_renamed df) = true ->
      rows df = [] ->
      has_label "Period" (demo_renamed df) = true ->
      list_comprehension age_band_label
        (filter (contains "-") (demo_renamed df)) = Ok labels ->
      extract_demo_data database data_type country_iso_code
      = Ok (mkFrame (labels ++ [LStr "Period"])%list [])).
Proof.
  split; [|split].
  - intros df Hq _ Hrows. unfold get_bcg_coverage. rewrite Hq. cbn [Py.bind].
    unfold filter_items, reindex, loc_row0. cbn [rows]. now rewrite Hrows.
  - intros df Hq Hrows. unfold get_crude_birth_rate. rewrite Hq. cbn [Py.bind].
    unfold loc_row0. now rewrite Hrows.
  - intros data_type df labels Hq _ Hrows Hperiod Hlabels.
    rewrite (extract_demo_data_returns _ _ _ _ _ Hq Hperiod Hlabels).
    now rewrite Hrows.
Qed.

(** C2 (as amended).  When the filtered query returns several rows, no error
    is raised on their account and one row is taken without notice:
    [get_bcg_coverage] and [get_crude_birth_rate] use the labels and row 0 of
    the frame read and nothing else of it, so they return or raise the same
    on any two frames with the same labels and the same row 0, whatever the
    other rows hold; and [extract_demo_data] returns one row for each row of
    the query.  (Row 0 is the row of the frame: what it holds for a NULL,
    [None] or NaN, comes from the types pandas gives the columns.) *)
Theorem extra_rows_are_ignored (database other : InputDB E)
    (country_iso_code : string) :
  (forall df df' r0 rest rest',
      db_query database "BCG" "ISO_code" country_iso_code "*" = Ok df ->
      unique_labels (columns df) = true ->
      rows df = r0 :: rest ->
      db_query other "BCG" "ISO_code" country_iso_code "*" = Ok df' ->
      columns df' = columns df ->
      rows df' = r0 :: rest' ->
      get_bcg_coverage database country_iso_code
      = get_bcg_coverage other country_iso_code)
  /\ (forall df df' r0 rest rest',
      db_query database "crude_birth_rate_mapped" "iso3" country_iso_code "*"
      = Ok df ->
      rows df = r0 :: rest ->
      db_query other "crude_birth_rate_mapped" "iso3" country_iso_code "*"
      = Ok df' ->
      columns df' = columns df ->
      rows df' = r0 :: rest' ->
      get_crude_birth_rate database country_iso_code
      = get_crude_birth_rate other country_iso_code)
  /\ (forall data_type df labels,
      db_query database data_type "iso3" country_iso_code "*" = Ok df ->
      unique_labels (demo_renamed df) = true ->
      has_label "Period" (demo_renamed df) = true ->
      list_comprehension age_band_label
        (filter (contains "-") (demo_renamed df)) = Ok labels ->
      exists out,
        extract_demo_data database data_type country_iso_code = Ok out
        /\ nrows out = nrows df).
Proof.
  split; [|split].
  - intros df df' r0 rest rest' Hq _ Hrows Hother Hcolumns Hrows'.
    unfold get_bcg_coverage. rewrite Hq, Hother. cbn [Py.bind].
    unfold filter_items, reindex, loc_row0. cbn [columns rows].
    now rewrite Hcolumns, Hrows, Hrows'.
  - intros df df' r0 rest rest' Hq Hrows Hother Hcolumns Hrows'.
    unfold get_crude_birth_rate. rewrite Hq, Hother. cbn [Py.bind].
    unfold loc_row0. now rewrite Hcolumns, Hrows, Hrows'.
  - intros data_type df labels Hq _ Hperiod Hlabels.
    eexists. split; [exact (extract_demo_data_returns _ _ _ _ _ Hq Hperiod Hlabels)|].
    unfold nrows. cbn [rows]. now rewrite length_map.
Qed.

(** *** The coverage series *)

Lemma is_not_None_true (v : cell) : is_not_None v = true <-> v <> CNone.
Proof. destruct v; simpl; split; congruence. Qed.



(** *** Unit conversion *)


(** *** Period keys *)

(** C3 (as amended).  The keys of a coverage series come from the labels by
    fixed rules.  In [get_bcg_coverage] the keys are the ints the digit-only
    labels spell (["1980"] gives 1980), and each such label whose value is
    not [None] gives its key.  In [get_crude_birth_rate] each key is the
    float read before the first hyphen of a hyphenated label, plus 2.5
    (["1980-1984"] gives 1982.5), and the call returns when digits stand
    before each hyphen and every value under a hyphenated label has a float.
    The label ["95+"] gives no key in either: it is neither digit-only nor
    hyphenated, and only [extract_demo_data] renames it, to the label 95. *)
Theorem coverage_period_keys (database : InputDB E) (country_iso_code : string) :
  (forall df r0 rest series,
      db_query database "BCG" "ISO_code" country_iso_code "*" = Ok df ->
      well_formed df = true -> rows df = r0 :: rest ->
      get_bcg_coverage database country_iso_code = Ok series ->
      (forall year, In year (map fst series) ->
         exists label v,
           In (label, v) (combine (columns df) r0) /\ isdigit label = true
           /\ year = digits_value label /\ label <> "95+")
      /\ (forall label v, In (label, v) (combine (columns df) r0) ->
            isdigit label = true -> v <> CNone ->
            In (digits_value label) (map fst series)))
  /\ (forall df r0 rest,
      db_query database "crude_birth_rate_mapped" "iso3" country_iso_code "*"
      = Ok df ->
      rows df = r0 :: rest ->
      ((forall label v, In (label, v) (combine (columns df) r0) ->
          contains "-" label = true ->
          (exists head tail, label = head ++ "-" ++ tail /\ isdigit head = true)
          /\ is_ok (float_of_cell v) = true) ->
       exists series, get_crude_birth_rate database country_iso_code = Ok series)
      /\ forall series,
          get_crude_birth_rate database country_iso_code = Ok series ->
          forall period, In period (map fst series) ->
            exists label v head tail start,
              In (label, v) (combine (columns df) r0)
              /\ label = head ++ "-" ++ tail /\ contains "-" head = false
              /\ float_of_str head = Ok start
              /\ period = (start + 2.5)%float /\ label <> "95+")
  /\ (forall head, isdigit head = true ->
        float_of_str head = Ok (float_of_Z (digits_value head)))
  /\ digits_value "1980" = 1980%Z
  /\ (float_of_Z (digits_value "1980") + 2.5)%float = 1982.5%float
  /\ isdigit "95+" = false /\ contains "-" "95+" = false
  /\ age_band_label (rename_label demo_column_names "95+") = Ok (LInt 95).
Proof.
  split; [|split; [|split; [apply float_of_str_digits | repeat split]]].
  - intros df r0 rest series Hq Hwf Hrows Hseries.
    rewrite (get_bcg_coverage_row0 _ _ _ _ _ Hq Hwf Hrows) in Hseries. split.
    + intros year Hin.
      destruct (comprehension_keys _ _ _ _ _ _ _ _ Hseries Hin)
        as [([label v] & Hitem & _ & Hkey)|[]].
      apply filter_In in Hitem. destruct Hitem as [Hitem Hd]. cbn [fst] in *.
      rewrite (int_of_str_digits _ Hd) in Hkey. injection Hkey as <-.
      exists label, v. repeat split; auto.
      intros ->. discriminate.
    + intros label v Hin Hd Hv.
      destruct (comprehension_retains Z.eqb _ _ _ Z.eqb_eq
                  (digits_value label) _ _ _ (label, v) Hseries) as (x & Hx).
      * apply filter_In. split; [exact Hin | exact Hd].
      * now apply is_not_None_true.
      * now apply int_of_str_digits.
      * exact (dict_get_key Z.eqb Z.eqb_eq _ _ _ Hx).
  - intros df r0 rest Hq Hrows.
    rewrite (get_crude_birth_rate_row0 _ _ _ _ _ Hq Hrows). split.
    + intros Hshape. apply comprehension_returns.
      intros [label v] Hin Hc. cbn [fst snd] in *.
      destruct (Hshape label v Hin Hc) as [(head & tail & -> & Hd) Hfloat].
      split.
      * rewrite slice_before_hyphen
          by (apply all_digits_no_hyphen; now apply isdigit_all_digits).
        now rewrite (float_of_str_digits _ Hd).
      * destruct (float_of_cell v); [reflexivity | discriminate].
    + intros series Hseries period Hin.
      destruct (comprehension_keys _ _ _ _ _ _ _ _ Hseries Hin)
        as [([label v] & Hitem & Hc & Hkey)|[]].
      cbn [fst snd] in *.
      destruct (hyphen_split _ Hc) as (head & tail & Hlabel & Hhead & Hslice).
      rewrite Hslice in Hkey. inv_bind Hkey. injection Hkey as <-.
      exists label, v, head, tail, a. repeat split; auto.
      intros ->. discriminate.
Qed.

(** *** Labels that give the same key *)


(** *** The reshape of population and deaths tables *)

Lemma age_band_label_split (column : string) (band : label) :
  contains "-" column = true -> age_band_label column = Ok band ->
  exists head tail n,
    column = head ++ "-" ++ tail /\ contains "-" head = false
    /\ int_of_str head = Ok n /\ band = LInt n.
Proof.
  intros Hc Hband. unfold age_band_label in Hband. rewrite Hc in Hband.
  destruct (hyphen_split _ Hc) as (head & tail & Hcol & Hhead & Hslice).
  rewrite Hslice in Hband. inv_bind Hband. injection Hband as <-.
  exists head, tail, a. auto.
Qed.

Lemma period_year_plain (x : cell) :
  contains "-" (str_of_cell x) = false -> period_year x = CStr (str_of_cell x).
Proof. unfold period_year. now intros ->. Qed.

Lemma period_year_leading (x : cell) (head tail : string) :
  str_of_cell x = head ++ "-" ++ tail -> contains "-" head = false ->
  period_year x = CStr head.
Proof.
  intros Hstr Hhead. unfold period_year.
  rewrite Hstr, contains_hyphen_app, (slice_before_hyphen _ _ Hhead).
  reflexivity.
Qed.

(** C6.  [extract_demo_data] renames ["95+"] to ["95-"] and the reference
    date column to ["Period"], keeps the hyphenated columns, in their order,
    followed by the period column, relabels each hyphenated column with the
    int before its hyphen (so ["95+"] becomes 95), and replaces each period
    value by the string of it up to its first hyphen.  It returns this table
    whenever the frame has a period column and an int before the hyphen of
    each hyphenated label. *)
Theorem demographic_reshape (database : InputDB E)
    (data_type country_iso_code : string) (df : DataFrame string)
    (labels : list label) :
  db_query database data_type "iso3" country_iso_code "*" = Ok df ->
  unique_labels (demo_renamed df) = true ->
  has_label "Period" (demo_renamed df) = true ->
  list_comprehension age_band_label (filter (contains "-") (demo_renamed df))
  = Ok labels ->
  exists out,
    extract_demo_data database data_type country_iso_code = Ok out
    /\ demo_renamed df
       = map (fun column =>
                if String.eqb column "95+" then "95-"
                else if String.eqb column "Reference date (as of 1 July)"
                     then "Period" else column)
           (columns df)
    /\ columns out = (labels ++ [LStr "Period"])%list
    /\ Forall2
         (fun column band =>
            exists head tail n,
              column = head ++ "-" ++ tail /\ contains "-" head = false
              /\ int_of_str head = Ok n /\ band = LInt n)
         (filter (contains "-") (demo_renamed df)) labels
    /\ rows out
       = map (fun r =>
                (map (fun column => cell_at column (demo_renamed df) r)
                   (filter (contains "-") (demo_renamed df))
                 ++ [period_year (cell_at "Period" (demo_renamed df) r)])%list)
           (rows df)
    /\ (forall x, contains "-" (str_of_cell x) = false ->
          period_year x = CStr (str_of_cell x))
    /\ (forall x head tail,
          str_of_cell x = head ++ "-" ++ tail -> contains "-" head = false ->
          period_year x = CStr head)
    /\ (In "95+" (columns df) -> In (LInt 95) (columns out)).
Proof.
  intros Hq _ Hperiod Hlabels.
  eexists. split; [exact (extract_demo_data_returns _ _ _ _ _ Hq Hperiod Hlabels)|].
  cbn [columns rows].
  apply list_comprehension_Forall2 in Hlabels.
  split; [|split; [reflexivity|split; [|split; [reflexivity|split;
    [exact period_year_plain | split; [exact period_year_leading|]]]]]].
  - unfold demo_renamed. apply map_ext. intros column.
    unfold rename_label, demo_column_names. cbn [List.find fst snd label_eqb string_Label].
    rewrite (String.eqb_sym "95+" column).
    destruct (String.eqb column "95+"); [reflexivity|].
    rewrite (String.eqb_sym "Reference date (as of 1 July)" column).
    destruct (String.eqb column "Reference date (as of 1 July)"); reflexivity.
  - assert (Hhy : Forall (fun column => contains "-" column = true)
                    (filter (contains "-") (demo_renamed df))).
    { apply Forall_forall. intros column Hin. apply filter_In in Hin. tauto. }
    revert Hhy. induction Hlabels as [|column band cs bs Hband _ IH];
      intros Hhy; constructor.
    + inversion Hhy; subst. now apply age_band_label_split.
    + inversion Hhy; subst. now apply IH.
  - intros Hin. apply in_or_app. left.
    assert (Hkept : In "95-" (filter (contains "-") (demo_renamed df))).
    { apply filter_In. split; [|reflexivity].
      unfold demo_renamed. apply in_map_iff. exists "95+". split; [reflexivity|exact Hin]. }
    apply In_nth_error in Hkept. destruct Hkept as (i & Hi).
    destruct (Forall2_nth_error_left _ _ _ _ _ Hlabels Hi) as (band & Hb & Hband).
    vm_compute in Hband. injection Hband as <-.
    exact (nth_error_In _ _ Hb).
Qed.

(** *** Joining a table to the crosswalk *)

(** The table [add_iso_to_table] stores holds, for each row of the table it
    read, one row per crosswalk entry of that row. *)
Lemma add_iso_to_table_stores (self self' : InputDB E) (table_name : string) :
  add_iso_to_table self table_name = (self', Ok tt) ->
  exists table crosswalk mapped,
    db_query self table_name "" "" "*" = Ok table
    /\ get_un_iso_map self = (mkInputDB (engine self) (Some crosswalk), Ok tt)
    /\ to_sql mapped (table_name ++ "_mapped") (engine self) = Ok (engine self')
    /\ nrows mapped
       = list_sum
           (map (fun r => List.length (crosswalk_entries crosswalk table r))
                (rows table)).
Proof.
  unfold add_iso_to_table. intros Hadd.
  assert (Hcross : (exists crosswalk,
            get_un_iso_map self
            = (mkInputDB (engine self) (Some crosswalk), Ok tt))
          \/ exists e, get_un_iso_map self = (self, Raise e)).
  { unfold get_un_iso_map.
    destruct (locations <- db_query self "un_iso3_map" "" "" "*" ;;
              loc_columns ["Location code"; "ISO3 Alpha-code"] locations)
      as [pairs|e]; [left | right]; eexists; reflexivity. }
  destruct Hcross as [(crosswalk & Hbuilt)|(e & Hbuilt)];
    rewrite Hbuilt in Hadd; [|discriminate].
  cbn [engine map_df] in Hadd.
  destruct (mapped <- table_with_iso
                        (mkInputDB (engine self) (Some crosswalk)) table_name ;;
            to_sql mapped (table_name ++ "_mapped") (engine self))
    as [stored|e] eqn:Hstored; [|discriminate].
  injection Hadd as <-. cbn [engine].
  bind_inv Hstored as mapped Hmapped.
  unfold table_with_iso in Hmapped. bind_inv Hmapped as table Htable.
  cbn [map_df Py.bind] in Hmapped. bind_inv Hmapped as merged Hmerged.
  exists table, crosswalk, mapped. repeat split; auto.
  apply merge_nrows in Hmerged.
  assert (Hn : nrows mapped = nrows merged).
  { destruct (has_label "Index"
                (columns (rename [("ISO3 Alpha-code", "iso3")] merged))).
    - now apply drop_columns_nrows in Hmapped.
    - now injection Hmapped as <-. }
  rewrite Hn, Hmerged. reflexivity.
Qed.

(** C7 (as amended).  The table [add_iso_to_table] stores under
    [table_name + "_mapped"] has, for each row of the table it read, one row
    per crosswalk entry whose location code matches the row's country code.
    Provided no row's code has more than one entry, it has at most as many
    rows as the table read, and as many exactly when every row's code has an
    entry; rows whose code has none are left out. *)
Theorem add_iso_to_table_row_count (self self' : InputDB E)
    (table_name : string) :
  add_iso_to_table self table_name = (self', Ok tt) ->
  exists table crosswalk mapped,
    db_query self table_name "" "" "*" = Ok table
    /\ get_un_iso_map self = (mkInputDB (engine self) (Some crosswalk), Ok tt)
    /\ to_sql mapped (table_name ++ "_mapped") (engine self) = Ok (engine self')
    /\ nrows mapped
       = list_sum
           (map (fun r => List.length (crosswalk_entries crosswalk table r))
                (rows table))
    /\ ((forall r, In r (rows table) ->
           List.length (crosswalk_entries crosswalk table r) <= 1) ->
        nrows mapped <= nrows table
        /\ (nrows mapped = nrows table <->
            forall r, In r (rows table) ->
              crosswalk_entries crosswalk table r <> [])).
Proof.
  intros Hadd.
  destruct (add_iso_to_table_stores _ _ _ Hadd)
    as (table & crosswalk & mapped & Hq & Hmap & Hstore & Hn).
  exists table, crosswalk, mapped.
  split; [exact Hq|]. split; [exact Hmap|]. split; [exact Hstore|].
  split; [exact Hn|]. intros Hone. rewrite Hn.
  destruct (sum_of_at_most_one
              (fun r => List.length (crosswalk_entries crosswalk table r))
              (rows table) Hone) as [Hle Heq].
  unfold nrows. split; [exact Hle|]. rewrite Heq. split.
  - intros Hall r Hr Hnil. specialize (Hall r Hr).
    rewrite Hnil in Hall. discriminate.
  - intros Hall r Hr. specialize (Hone r Hr). specialize (Hall r Hr).
    destruct (crosswalk_entries crosswalk table r) as [|e [|e' es]];
      [congruence | reflexivity | simpl in Hone; lia].
Qed.
End DbFacts.

(* ================================================================== *)
(** ** Further properties of [db.py] *)
(* ================================================================== *)

(** *** More on comprehensions *)

Section ComprehensionOrder.
Context {A K V : Type}.
Variable keq : K -> K -> bool.
Variable cond : A -> bool.
Variable key : A -> result K.
Variable val : A -> result V.

Local Abbreviation comp := (dict_comprehension keq cond key val).
Local Abbreviation apart :=
  (fun a b : K * V => keq (fst a) (fst b) = false).

Lemma dict_set_new_or_old (k : K) (v : V) (d : dict K V) :
  (Forall (fun a => keq (fst a) k = false) d
   /\ dict_set keq k v d = (d ++ [(k, v)])%list)
  \/ (Exists (fun a => keq (fst a) k = true) d
      /\ List.length (dict_set keq k v d) = List.length d).
Proof.
  induction d as [|[k' v'] d IH]; simpl.
  - left. split; [constructor | reflexivity].
  - destruct (keq k' k) eqn:Hk.
    + right. split; [now constructor | reflexivity].
    + destruct IH as [[Hall ->]|[Hex Hlen]].
      * left. split; [now constructor | reflexivity].
      * right. split; [now apply Exists_cons_tl | simpl; now rewrite Hlen].
Qed.

Lemma dict_set_apart_head (k0 k : K) (v : V) (d : dict K V) :
  keq k0 k = false ->
  Forall (fun b => keq k0 (fst b) = false) d ->
  Forall (fun b => keq k0 (fst b) = false) (dict_set keq k v d).
Proof.
  intros Hk. induction d as [|[k' v'] d IH]; simpl; intros Hall.
  - now constructor.
  - inversion Hall as [|? ? Hhead Htail]; subst. cbn [fst] in Hhead.
    destruct (keq k' k); constructor; auto.
Qed.

(** Assignments never leave two keys that compare equal, the earlier with
    the later. *)
Lemma dict_set_apart (k : K) (v : V) (d : dict K V) :
  ForallOrdPairs apart d -> ForallOrdPairs apart (dict_set keq k v d).
Proof.
  induction d as [|[k' v'] d IH]; simpl; intros Hd.
  - constructor; constructor.
  - inversion Hd as [|? ? Hhead Htail]; subst.
    destruct (keq k' k) eqn:Hk.
    + constructor; [exact Hhead | exact Htail].
    + constructor; [|now apply IH].
      now apply dict_set_apart_head.
Qed.

Lemma comprehension_apart (items : list A) (d d' : dict K V) :
  comp items d = Ok d' -> ForallOrdPairs apart d -> ForallOrdPairs apart d'.
Proof.
  revert d. induction items as [|x items IH]; simpl; intros d Hcomp Hd.
  - now injection Hcomp as <-.
  - destruct (cond x); [|now apply (IH d)].
    bind_inv Hcomp as k Hk. bind_inv Hcomp as v Hv.
    apply (IH _ Hcomp). now apply dict_set_apart.
Qed.

Lemma dict_set_length (k : K) (v : V) (d : dict K V) :
  List.length d <= List.length (dict_set keq k v d) <= S (List.length d).
Proof.
  destruct (dict_set_new_or_old k v d) as [[_ ->]|[_ ->]].
  - rewrite length_app. simpl. lia.
  - lia.
Qed.

(** The result has at most one more entry per accepted item. *)
Lemma comprehension_length (items : list A) (d d' : dict K V) :
  comp items d = Ok d' ->
  List.length d <= List.length d'
  <= List.length d + List.length (filter cond items).
Proof.
  revert d. induction items as [|x items IH]; simpl; intros d Hcomp.
  - injection Hcomp as <-. lia.
  - destruct (cond x).
    + bind_inv Hcomp as k Hk. bind_inv Hcomp as v Hv.
      specialize (IH _ Hcomp). pose proof (dict_set_length k v d). simpl. lia.
    + exact (IH _ Hcomp).
Qed.

(** When every accepted item added an entry, the entries are those of the
    accepted items, in their order. *)
Lemma comprehension_in_order (items : list A) (d d' : dict K V) :
  comp items d = Ok d' ->
  List.length d' = List.length d + List.length (filter cond items) ->
  exists entries,
    d' = (d ++ entries)%list
    /\ Forall2 (fun x entry => key x = Ok (fst entry) /\ val x = Ok (snd entry))
         (filter cond items) entries.
Proof.
  revert d. induction items as [|x items IH]; simpl; intros d Hcomp Hlen.
  - injection Hcomp as <-. exists []. split; [now rewrite app_nil_r | constructor].
  - destruct (cond x) eqn:Hc.
    + bind_inv Hcomp as k Hk. bind_inv Hcomp as v Hv.
      pose proof (comprehension_length _ _ _ Hcomp) as Hbound.
      simpl in Hlen.
      destruct (dict_set_new_or_old k v d) as [[_ Hnew]|[_ Hold]]; [|lia].
      rewrite Hnew in Hcomp.
      destruct (IH _ Hcomp) as (entries & -> & Hall).
      { rewrite Hlen, length_app. simpl. lia. }
      exists ((k, v) :: entries). split.
      * now rewrite <- app_assoc.
      * constructor; auto.
    + exact (IH _ Hcomp Hlen).
Qed.

(** Keys that are new to the dictionary and pairwise apart each add an
    entry. *)
Lemma comprehension_all_new (items : list A) (d d' : dict K V) :
  comp items d = Ok d' ->
  (forall a x k, In a d -> In x items -> cond x = true -> key x = Ok k ->
     keq (fst a) k = false) ->
  ForallOrdPairs
    (fun x y => forall k k', key x = Ok k -> key y = Ok k' -> keq k k' = false)
    (filter cond items) ->
  List.length d' = List.length d + List.length (filter cond items).
Proof.
  revert d. induction items as [|x items IH]; simpl; intros d Hcomp Hd Hitems.
  - injection Hcomp as <-. lia.
  - destruct (cond x) eqn:Hc.
    + bind_inv Hcomp as k Hk. bind_inv Hcomp as v Hv.
      inversion Hitems as [|? ? Hhead Htail]; subst.
      destruct (dict_set_new_or_old k v d) as [[_ Hnew]|[Hold _]].
      * rewrite Hnew in Hcomp. rewrite (IH _ Hcomp); auto.
        -- rewrite length_app. simpl. lia.
        -- intros a y k' Ha Hy Hcy Hky. apply in_app_or in Ha.
           destruct Ha as [Ha|[<-|[]]]; [eauto|]. cbn [fst].
           rewrite Forall_forall in Hhead.
           apply (Hhead y); auto. apply filter_In. auto.
      * exfalso. apply Exists_exists in Hold. destruct Hold as (a & Ha & Heq).
        rewrite (Hd a x k Ha (or_introl eq_refl) Hc Hk) in Heq. discriminate.
    + apply (IH _ Hcomp); [|exact Hitems].
      intros a y k Ha Hy. apply (Hd a y k Ha). now right.
Qed.

(** The first accepted item whose key or value raises ends the
    comprehension with its exception. *)
Lemma comprehension_raises (pre post : list A) (x : A) (d : dict K V) (e : exn) :
  (forall y, In y pre -> cond y = true ->
     is_ok (key y) = true /\ is_ok (val y) = true) ->
  cond x = true ->
  key x = Raise e \/ (is_ok (key x) = true /\ val x = Raise e) ->
  comp (pre ++ x :: post)%list d = Raise e.
Proof.
  intros Hpre Hc Hx. rewrite comprehension_app.
  destruct (comprehension_returns keq cond key val pre d Hpre) as (d1 & ->).
  cbn [Py.bind dict_comprehension]. rewrite Hc.
  destruct Hx as [->|[Hk ->]]; [reflexivity|].
  destruct (key x); [reflexivity | discriminate].
Qed.
End ComprehensionOrder.

(** The first item whose element expression raises ends a list
    comprehension with its exception. *)
Lemma list_comprehension_raises {A B : Type} (f : A -> result B)
    (pre post : list A) (x : A) (e : exn) :
  (forall y, In y pre -> is_ok (f y) = true) -> f x = Raise e ->
  list_comprehension f (pre ++ x :: post)%list = Raise e.
Proof.
  intros Hpre Hx. induction pre as [|y pre IH]; simpl.
  - now rewrite Hx.
  - assert (Hy : is_ok (f y) = true) by (apply Hpre; now left).
    destruct (f y); [|discriminate]. cbn [Py.bind].
    rewrite IH; [reflexivity|]. intros z Hz. apply Hpre. now right.
Qed.

(** A list comprehension returns exactly when no element raises; when one
    does and every element can only raise [e], it raises [e]. *)
Lemma list_comprehension_outcome {A B : Type} (f : A -> result B)
    (items : list A) :
  (Forall (fun x => is_ok (f x) = true) items
   /\ exists ys, list_comprehension f items = Ok ys)
  \/ (exists pre x post e,
        items = (pre ++ x :: post)%list /\ f x = Raise e
        /\ list_comprehension f items = Raise e).
Proof.
  induction items as [|x items IH]; simpl.
  - left. split; [constructor | now exists []].
  - destruct (f x) as [y|e] eqn:Hx.
    + destruct IH as [[Hall (ys & ->)]|(pre & z & post & e & -> & Hz & ->)].
      * left. split; [constructor; [now rewrite Hx | exact Hall]|].
        now exists (y :: ys).
      * right. exists (x :: pre), z, post, e. auto.
    + right. exists [], x, items, e. auto.
Qed.

(** *** More on lists *)

Lemma filter_filter {A : Type} (f g : A -> bool) (l : list A) :
  filter f (filter g l) = filter (fun x => g x && f x) l.
Proof.
  induction l as [|x l IH]; simpl; [reflexivity|].
  destruct (g x); simpl; [|exact IH]. destruct (f x); now rewrite IH.
Qed.

Lemma map_flat_map {A B C : Type} (f : B -> C) (g : A -> list B)
    (l : list A) :
  map f (flat_map g l) = flat_map (fun x => map f (g x)) l.
Proof.
  induction l as [|x l IH]; [reflexivity|].
  cbn [flat_map]. now rewrite map_app, IH.
Qed.

Lemma Forall2_refine {A B : Type} (P : A -> Prop) (R R' : A -> B -> Prop)
    (l : list A) (l' : list B) :
  Forall P l -> Forall2 R l l' ->
  (forall x y, P x -> R x y -> R' x y) -> Forall2 R' l l'.
Proof.
  intros HP HR Himp. induction HR as [|x y l l' Hxy _ IH]; constructor.
  - inversion HP; subst. auto.
  - inversion HP; subst. auto.
Qed.

Lemma apart_NoDup {V : Type} (d : dict Z V) :
  ForallOrdPairs (fun a b => Z.eqb (fst a) (fst b) = false) d ->
  NoDup (map fst d).
Proof.
  induction 1 as [|a d Hhead _ IH]; simpl; constructor; [|exact IH].
  intros Hin. apply in_map_iff in Hin. destruct Hin as (b & Heq & Hb).
  rewrite Forall_forall in Hhead. specialize (Hhead b Hb).
  rewrite Heq, Z.eqb_refl in Hhead. discriminate.
Qed.

Lemma NoDup_map_apart {A : Type} (g : A -> Z) (key : A -> result Z)
    (l : list A) :
  (forall x, In x l -> key x = Ok (g x)) -> NoDup (map g l) ->
  ForallOrdPairs
    (fun x y => forall k k', key x = Ok k -> key y = Ok k' -> Z.eqb k k' = false)
    l.
Proof.
  induction l as [|x l IH]; simpl; intros Hkey Hnd; [constructor|].
  inversion Hnd as [|? ? Hnotin Hrest]; subst. constructor.
  - apply Forall_forall. intros y Hy k k' Hk Hk'.
    rewrite (Hkey x (or_introl eq_refl)) in Hk. injection Hk as <-.
    rewrite (Hkey y (or_intror Hy)) in Hk'. injection Hk' as <-.
    apply Z.eqb_neq. intros Heq. apply Hnotin. rewrite Heq.
    now apply in_map.
  - apply IH; auto.
Qed.

(** *** More on frames *)

Section FrameLookups.
Context {L : Type} `{Label L}.

Lemma lookup_cell_no_cells (l : L) (cols : list L) : lookup_cell l cols [] = None.
Proof. now destruct cols. Qed.

Lemma lookup_cell_app_left (l : L) (lc rc : list L) (r e : list cell) :
  has_label l lc = true -> List.length r = List.length lc ->
  lookup_cell l (lc ++ rc)%list (r ++ e)%list = lookup_cell l lc r.
Proof.
  revert r. induction lc as [|c cs IH]; intros [|v vs] Hl Hlen;
    try discriminate.
  cbn [app lookup_cell]. cbn [has_label existsb] in Hl.
  destruct (label_eqb c l); [reflexivity|].
  apply IH; [exact Hl | now injection Hlen].
Qed.

Lemma lookup_cell_app_right (l : L) (lc rc : list L) (r e : list cell) :
  has_label l lc = false -> List.length r = List.length lc ->
  lookup_cell l (lc ++ rc)%list (r ++ e)%list = lookup_cell l rc e.
Proof.
  revert r. induction lc as [|c cs IH]; intros [|v vs] Hl Hlen;
    try discriminate; [reflexivity|].
  cbn [app lookup_cell]. cbn [has_label existsb] in Hl.
  apply orb_false_iff in Hl. destruct Hl as [-> Hl].
  apply IH; [exact Hl | now injection Hlen].
Qed.

(** Dropping columns leaves the cells under the other labels. *)
Lemma lookup_cell_drop (l : L) (labels cols : list L) (r : list cell) :
  has_label l labels = false ->
  lookup_cell l (filter (fun c => negb (has_label c labels)) cols)
    (drop_cells labels cols r)
  = lookup_cell l cols r.
Proof.
  intros Hl. revert r. induction cols as [|c cs IH]; intros [|v vs];
    cbn [filter drop_cells lookup_cell]; try reflexivity.
  - apply lookup_cell_no_cells.
  - destruct (has_label c labels) eqn:Hc; cbn [negb].
    + destruct (label_eqb c l) eqn:Heq; [|apply IH].
      apply label_eqb_eq in Heq. subst c. congruence.
    + cbn [lookup_cell]. destruct (label_eqb c l); [reflexivity | apply IH].
Qed.

Lemma has_label_dropped (l : L) (cols : list L) :
  has_label l (filter (fun c => negb (has_label c [l])) cols) = false.
Proof.
  destruct (has_label l (filter (fun c => negb (has_label c [l])) cols))
    eqn:Hl; [|reflexivity].
  apply has_label_In, filter_In in Hl. destruct Hl as [_ Hl].
  cbn [has_label existsb] in Hl. now rewrite label_eqb_refl in Hl.
Qed.
End FrameLookups.

Section MoreDbFacts.
Context {E : Type} `{SqlEngine E} `{FloatText}.

(** *** What a failed call leaves behind *)

Lemma get_un_iso_map_outcome (self : InputDB E) :
  (exists crosswalk,
     get_un_iso_map self = (mkInputDB (engine self) (Some crosswalk), Ok tt))
  \/ (exists e, get_un_iso_map self = (self, Raise e)).
Proof.
  unfold get_un_iso_map.
  destruct (locations <- db_query self "un_iso3_map" "" "" "*" ;;
            loc_columns ["Location code"; "ISO3 Alpha-code"] locations)
    as [pairs|e]; [left | right]; eexists; reflexivity.
Qed.

(** X7. [add_iso_to_table] is not undone when it raises.  Once the crosswalk
    has been built, whatever raises next leaves the new crosswalk in the
    object, in place of the old one; the old one stays only when building the
    crosswalk raised, and then the call raises the same.  So a table without
    a ["Country code"] column raises [KeyError] and still replaces the
    crosswalk. *)
Theorem failed_mapping_keeps_the_new_crosswalk (self : InputDB E)
    (table_name : string) :
  (forall self' e,
      add_iso_to_table self table_name = (self', Raise e) ->
      (snd (get_un_iso_map self) = Raise e /\ map_df self' = map_df self)
      \/ (exists crosswalk,
            get_un_iso_map self
            = (mkInputDB (engine self) (Some crosswalk), Ok tt)
            /\ map_df self' = Some crosswalk))
  /\ (forall e,
        snd (get_un_iso_map self) = Raise e ->
        snd (add_iso_to_table self table_name) = Raise e
        /\ map_df (fst (add_iso_to_table self table_name)) = map_df self)
  /\ (forall table crosswalk,
        get_un_iso_map self = (mkInputDB (engine self) (Some crosswalk), Ok tt) ->
        db_query self table_name "" "" "*" = Ok table ->
        has_label "Country code" (columns table) = false ->
        snd (add_iso_to_table self table_name) = Raise KeyError
        /\ map_df (fst (add_iso_to_table self table_name)) = Some crosswalk).
Proof.
  split; [|split].
  - intros self' e Hraise. unfold add_iso_to_table in Hraise.
    destruct (get_un_iso_map_outcome self) as [(crosswalk & Hok)|(e' & Hfail)].
    + right. exists crosswalk. split; [exact Hok|].
      rewrite Hok in Hraise. cbn [engine map_df] in Hraise.
      destruct (mapped <- table_with_iso
                            (mkInputDB (engine self) (Some crosswalk))
                            table_name ;;
                to_sql mapped (table_name ++ "_mapped") (engine self))
        as [stored|e1]; [discriminate|].
      now injection Hraise as <- _.
    + left. rewrite Hfail in *. injection Hraise as <- <-. auto.
  - intros e Hfail. unfold add_iso_to_table.
    destruct (get_un_iso_map_outcome self) as [(crosswalk & Hok)|(e' & Hraise)].
    + rewrite Hok in Hfail. discriminate.
    + rewrite Hraise in *. cbn [snd] in Hfail. injection Hfail as ->. auto.
  - intros table crosswalk Hbuilt Htable Hcode. unfold add_iso_to_table.
    rewrite Hbuilt. unfold table_with_iso.
    assert (Hq : db_query (mkInputDB (engine self) (Some crosswalk))
                   table_name "" "" "*" = Ok table) by exact Htable.
    rewrite Hq. cbn [Py.bind map_df]. unfold merge. rewrite Hcode.
    split; reflexivity.
Qed.

(** X8. Neither [get_un_iso_map] nor [add_iso_to_table] uses the crosswalk
    the object held before the call: what they raise or return, and on
    success the object after the call, are the same whatever [map_df] was;
    so building the crosswalk a second time changes nothing. *)
Theorem add_iso_to_table_ignores_old_crosswalk (db : E)
    (old other : option (DataFrame string)) (table_name : string) :
  snd (get_un_iso_map (mkInputDB db old))
  = snd (get_un_iso_map (mkInputDB db other))
  /\ (snd (get_un_iso_map (mkInputDB db old)) = Ok tt ->
      get_un_iso_map (mkInputDB db old) = get_un_iso_map (mkInputDB db other))
  /\ get_un_iso_map (fst (get_un_iso_map (mkInputDB db old)))
     = get_un_iso_map (mkInputDB db old)
  /\ snd (add_iso_to_table (mkInputDB db old) table_name)
     = snd (add_iso_to_table (mkInputDB db other) table_name)
  /\ (snd (add_iso_to_table (mkInputDB db old) table_name) = Ok tt ->
      add_iso_to_table (mkInputDB db old) table_name
      = add_iso_to_table (mkInputDB db other) table_name).
Proof.
  unfold add_iso_to_table, get_un_iso_map, db_query. cbn [engine].
  destruct (locations <- read_sql_query _ db ;;
            loc_columns ["Location code"; "ISO3 Alpha-code"] locations)
    as [pairs|e] eqn:Hpairs; cbn [engine map_df fst snd].
  - rewrite Hpairs.
    destruct (mapped <- table_with_iso (mkInputDB db (Some (dropna pairs)))
                          table_name ;;
              to_sql mapped (table_name ++ "_mapped") db) as [stored|e];
      repeat split; discriminate.
  - rewrite Hpairs. repeat split; discriminate.
Qed.

(** *** The order and the number of a series' entries *)

Lemma series_empty_iff {A K V : Type} (keq : K -> K -> bool)
    (cond : A -> bool) (key : A -> result K) (val : A -> result V)
    (items : list A) (series : dict K V) :
  dict_comprehension keq cond key val items [] = Ok series ->
  (series = [] <-> filter cond items = []).
Proof.
  intros Hseries. split.
  - intros ->. destruct (filter cond items) as [|x kept] eqn:Hkept; [reflexivity|].
    assert (Hx : In x (filter cond items)) by (rewrite Hkept; now left).
    apply filter_In in Hx. destruct Hx as [Hin Hc].
    destruct (comprehension_item _ _ _ _ _ _ _ x Hseries Hin Hc)
      as (k & v & k' & _ & _ & [] & _).
  - intros Hkept. pose proof (comprehension_length _ _ _ _ _ _ _ Hseries) as Hlen.
    rewrite Hkept in Hlen. simpl in Hlen.
    destruct series; [reflexivity | simpl in Hlen; lia].
Qed.

(** X1. A coverage series holds each year once and has at most one entry per
    digit-labelled value of row 0 that is not [None]; it is empty exactly when
    there is no such value. When the labels of these values spell pairwise
    different years, the entries are these values' in the order of the
    columns: each label's year with the value divided by 100. *)
Theorem coverage_series_in_column_order (database : InputDB E)
    (country_iso_code : string) (df : DataFrame string) (r0 : list cell)
    (rest : list (list cell)) (series : dict Z float) :
  db_query database "BCG" "ISO_code" country_iso_code "*" = Ok df ->
  well_formed df = true -> rows df = r0 :: rest ->
  get_bcg_coverage database country_iso_code = Ok series ->
  let kept :=
    filter (fun kv => isdigit (fst kv) && is_not_None (snd kv))
      (combine (columns df) r0) in
  NoDup (map fst series)
  /\ List.length series <= List.length kept
  /\ (series = [] <-> kept = [])
  /\ (NoDup (map (fun kv => digits_value (fst kv)) kept) ->
      Forall2
        (fun kv entry =>
           fst entry = digits_value (fst kv)
           /\ truediv (snd kv) 1e2 = Ok (snd entry))
        kept series).
Proof.
  intros Hq Hwf Hrows Hseries kept.
  rewrite (get_bcg_coverage_row0 _ _ _ _ _ Hq Hwf Hrows) in Hseries.
  assert (Hkept : filter (fun kv : string * cell => is_not_None (snd kv))
                    (filter (fun kv => isdigit (fst kv))
                       (combine (columns df) r0)) = kept)
    by apply filter_filter.
  pose proof (comprehension_length _ _ _ _ _ _ _ Hseries) as Hlen.
  rewrite Hkept in Hlen. simpl in Hlen.
  split; [|split; [lia|split]].
  - apply apart_NoDup.
    apply (comprehension_apart _ _ _ _ _ _ _ Hseries). constructor.
  - rewrite <- Hkept. exact (series_empty_iff _ _ _ _ _ _ Hseries).
  - intros Hyears.
    assert (Hdigits : Forall (fun kv : string * cell => isdigit (fst kv) = true)
                        kept).
    { apply Forall_forall. intros kv Hin. apply filter_In in Hin.
      destruct Hin as [_ Hc]. apply andb_true_iff in Hc. tauto. }
    assert (Hall : List.length series = 0 + List.length kept).
    { rewrite <- Hkept.
      apply (comprehension_all_new _ _ _ _ _ _ _ Hseries);
        [intros a x k []|].
      rewrite Hkept.
      apply (NoDup_map_apart (fun kv => digits_value (fst kv))); [|exact Hyears].
      intros kv Hin. rewrite Forall_forall in Hdigits.
      now apply int_of_str_digits, Hdigits. }
    rewrite <- Hkept in Hall.
    destruct (comprehension_in_order _ _ _ _ _ _ _ Hseries Hall)
      as (entries & -> & Hentries).
    rewrite Hkept in Hentries. cbn [app].
    apply (Forall2_refine _ _ _ _ _ Hdigits Hentries).
    intros kv entry Hd [Hkey Hval]. split; [|exact Hval].
    rewrite (int_of_str_digits _ Hd) in Hkey. now injection Hkey.
Qed.

(** X2. A birth-rate series never holds two periods that compare equal, and
    has at most one entry per hyphenated label; it is empty exactly when no
    label has a hyphen. When it has one entry per hyphenated label, the
    entries are the labels' in the order of the columns: the float before the
    hyphen plus 2.5, with the float of the value divided by 1000. *)
Theorem birth_rate_series_in_column_order (database : InputDB E)
    (country_iso_code : string) (df : DataFrame string) (r0 : list cell)
    (rest : list (list cell)) (series : dict float float) :
  db_query database "crude_birth_rate_mapped" "iso3" country_iso_code "*"
  = Ok df ->
  rows df = r0 :: rest ->
  get_crude_birth_rate database country_iso_code = Ok series ->
  let kept :=
    filter (fun kv => contains "-" (fst kv)) (combine (columns df) r0) in
  ForallOrdPairs (fun a b => PrimFloat.eqb (fst a) (fst b) = false) series
  /\ List.length series <= List.length kept
  /\ (series = [] <-> kept = [])
  /\ (List.length series = List.length kept ->
      Forall2
        (fun kv entry =>
           exists start raw,
             float_of_str (slice_to (fst kv) (str_find "-" (fst kv))) = Ok start
             /\ fst entry = (start + 2.5)%float
             /\ float_of_cell (snd kv) = Ok raw
             /\ snd entry = (raw / 1e3)%float)
        kept series).
Proof.
  intros Hq Hrows Hseries kept.
  rewrite (get_crude_birth_rate_row0 _ _ _ _ _ Hq Hrows) in Hseries.
  pose proof (comprehension_length _ _ _ _ _ _ _ Hseries) as Hlen.
  simpl in Hlen.
  split; [|split; [exact (proj2 Hlen)|split]].
  - apply (comprehension_apart _ _ _ _ _ _ _ Hseries). constructor.
  - exact (series_empty_iff _ _ _ _ _ _ Hseries).
  - intros Hall.
    destruct (comprehension_in_order _ _ _ _ _ _ _ Hseries Hall)
      as (entries & -> & Hentries).
    cbn [app]. eapply Forall2_impl; [|exact Hentries].
    intros kv entry [Hkey Hval]. cbn beta in Hkey, Hval.
    bind_inv Hkey as start Hstart. bind_inv Hval as raw Hraw.
    exists start, raw. repeat split; congruence.
Qed.

(** *** Missing values *)


(** *** Values a series cannot take *)

(** X3. The first value that cannot be converted ends the call with its
    exception: text under a digit-only label makes [get_bcg_coverage] raise
    [TypeError], and [None] under a hyphenated label makes
    [get_crude_birth_rate] raise [TypeError]. A coverage series is returned
    only when every digit-labelled value of row 0 is [None], an int or a
    float. *)
Theorem unusable_values_raise_TypeError (database : InputDB E)
    (country_iso_code : string) :
  (forall df r0 rest pre post label s,
      db_query database "BCG" "ISO_code" country_iso_code "*" = Ok df ->
      well_formed df = true -> rows df = r0 :: rest ->
      combine (columns df) r0 = (pre ++ (label, CStr s) :: post)%list ->
      isdigit label = true ->
      (forall label' v, In (label', v) pre -> isdigit label' = true ->
         v <> CNone -> is_ok (truediv v 1e2) = true) ->
      get_bcg_coverage database country_iso_code = Raise TypeError)
  /\ (forall df r0 rest pre post label head tail,
      db_query database "crude_birth_rate_mapped" "iso3" country_iso_code "*"
      = Ok df ->
      rows df = r0 :: rest ->
      combine (columns df) r0 = (pre ++ (label, CNone) :: post)%list ->
      label = head ++ "-" ++ tail -> isdigit head = true ->
      (forall label' v, In (label', v) pre -> contains "-" label' = true ->
         is_ok (float_of_str (slice_to label' (str_find "-" label'))) = true
         /\ is_ok (float_of_cell v) = true) ->
      get_crude_birth_rate database country_iso_code = Raise TypeError)
  /\ (forall df r0 rest series,
      db_query database "BCG" "ISO_code" country_iso_code "*" = Ok df ->
      well_formed df = true -> rows df = r0 :: rest ->
      get_bcg_coverage database country_iso_code = Ok series ->
      forall label v, In (label, v) (combine (columns df) r0) ->
        isdigit label = true ->
        v = CNone \/ (exists n, v = CInt n) \/ (exists x, v = CFloat x)).
Proof.
  split; [|split].
  - intros df r0 rest pre post label s Hq Hwf Hrows Hsplit Hd Hpre.
    rewrite (get_bcg_coverage_row0 _ _ _ _ _ Hq Hwf Hrows).
    rewrite Hsplit, filter_app. cbn [filter fst]. rewrite Hd.
    apply comprehension_raises.
    + intros [label' v] Hin Hc. apply filter_In in Hin.
      destruct Hin as [Hin Hd']. cbn [fst snd] in *. split.
      * now rewrite (int_of_str_digits _ Hd').
      * apply (Hpre label' v Hin Hd'). now apply is_not_None_true.
    + reflexivity.
    + right. cbn [fst snd]. rewrite (int_of_str_digits _ Hd). auto.
  - intros df r0 rest pre post label head tail Hq Hrows Hsplit -> Hd Hpre.
    rewrite (get_crude_birth_rate_row0 _ _ _ _ _ Hq Hrows), Hsplit.
    apply comprehension_raises.
    + intros [label' v] Hin Hc. cbn [fst snd] in *.
      destruct (Hpre label' v Hin Hc) as [Hkey Hval]. split.
      * destruct (float_of_str (slice_to label' (str_find "-" label')));
          [reflexivity | discriminate].
      * destruct (float_of_cell v); [reflexivity | discriminate].
    + cbn [fst]. apply contains_hyphen_app.
    + right. cbn [fst snd].
      rewrite slice_before_hyphen
        by (apply all_digits_no_hyphen; now apply isdigit_all_digits).
      rewrite (float_of_str_digits _ Hd). auto.
  - intros df r0 rest series Hq Hwf Hrows Hseries label v Hin Hd.
    rewrite (get_bcg_coverage_row0 _ _ _ _ _ Hq Hwf Hrows) in Hseries.
    destruct v as [|n|x|s]; eauto. exfalso.
    assert (Hitem : In (label, CStr s)
                      (filter (fun kv => isdigit (fst kv))
                         (combine (columns df) r0))).
    { apply filter_In. auto. }
    destruct (comprehension_item _ _ _ _ _ _ _ _ Hseries Hitem eq_refl)
      as (k & x & k' & _ & Hval & _). discriminate.
Qed.

(** *** When the reshape fails, and what it always returns *)

Lemma age_band_label_raises (column : string) (e : exn) :
  age_band_label column = Raise e ->
  e = ValueError /\ contains "-" column = true
  /\ is_ok (int_of_str (slice_to column (str_find "-" column))) = false.
Proof.
  unfold age_band_label. destruct (contains "-" column); [|discriminate].
  unfold int_of_str.
  destruct (match strip (slice_to column (str_find "-" column)) with
            | String "+" r => parse_digits 0 r
            | String "-" r => option_map Z.opp (parse_digits 0 r)
            | _ => parse_digits 0 (strip (slice_to column (str_find "-" column)))
            end); cbn [Py.bind]; [discriminate|].
  intros [= <-]. auto.
Qed.

Lemma extract_demo_data_without_period (database : InputDB E)
    (data_type country_iso_code : string) (df : DataFrame string) :
  db_query database data_type "iso3" country_iso_code "*" = Ok df ->
  has_label "Period" (demo_renamed df) = false ->
  extract_demo_data database data_type country_iso_code = Raise KeyError.
Proof.
  intros Hq Hperiod. unfold extract_demo_data. rewrite Hq. simpl Py.bind.
  change (columns (rename demo_column_names df)) with (demo_renamed df).
  unfold loc_columns.
  change (columns (rename demo_column_names df)) with (demo_renamed df).
  rewrite forallb_app. simpl forallb at 2.
  rewrite Hperiod. cbn [andb]. rewrite andb_false_r. reflexivity.
Qed.

Lemma extract_demo_data_bad_label (database : InputDB E)
    (data_type country_iso_code : string) (df : DataFrame string) (e : exn) :
  db_query database data_type "iso3" country_iso_code "*" = Ok df ->
  has_label "Period" (demo_renamed df) = true ->
  list_comprehension age_band_label (filter (contains "-") (demo_renamed df))
  = Raise e ->
  extract_demo_data database data_type country_iso_code = Raise e.
Proof.
  intros Hq Hperiod Hlabels.
  unfold extract_demo_data. rewrite Hq. simpl Py.bind.
  change (columns (rename demo_column_names df)) with (demo_renamed df).
  rewrite loc_columns_Ok.
  2:{ change (columns (rename demo_column_names df)) with (demo_renamed df).
      rewrite forallb_app. simpl forallb at 2.
      rewrite Hperiod, andb_true_r. apply forallb_forall.
      intros l Hl. apply has_label_In. apply filter_In in Hl. tauto. }
  cbn [Py.bind reindex columns rows rename].
  change (map (rename_label demo_column_names) (columns df))
    with (demo_renamed df).
  rewrite list_comprehension_app, Hlabels. reflexivity.
Qed.

(** What a returned reshape says of the table it read. *)
Lemma extract_demo_data_Ok (database : InputDB E)
    (data_type country_iso_code : string) (df : DataFrame string)
    (out : DataFrame label) :
  db_query database data_type "iso3" country_iso_code "*" = Ok df ->
  extract_demo_data database data_type country_iso_code = Ok out ->
  has_label "Period" (demo_renamed df) = true
  /\ exists labels,
       list_comprehension age_band_label
         (filter (contains "-") (demo_renamed df)) = Ok labels.
Proof.
  intros Hq Hout.
  destruct (has_label "Period" (demo_renamed df)) eqn:Hperiod.
  - split; [reflexivity|].
    destruct (list_comprehension age_band_label
                (filter (contains "-") (demo_renamed df))) as [labels|e]
      eqn:Hlabels; [eauto|].
    rewrite (extract_demo_data_bad_label _ _ _ _ _ Hq Hperiod Hlabels) in Hout.
    discriminate.
  - rewrite (extract_demo_data_without_period _ _ _ _ Hq Hperiod) in Hout.
    discriminate.
Qed.

(** X5. [extract_demo_data] raises [KeyError] when the table has no period
    column, whatever its other labels are; with a period column, it raises
    [ValueError] when some hyphenated label has no int before its hyphen. It
    returns in no other case than a period column and an int before the hyphen
    of every hyphenated label. *)
Theorem extract_demo_data_failures (database : InputDB E)
    (data_type country_iso_code : string) (df : DataFrame string) :
  db_query database data_type "iso3" country_iso_code "*" = Ok df ->
  (has_label "Period" (demo_renamed df) = false ->
   extract_demo_data database data_type country_iso_code = Raise KeyError)
  /\ (has_label "Period" (demo_renamed df) = true ->
      forall column,
        In column (demo_renamed df) -> contains "-" column = true ->
        is_ok (int_of_str (slice_to column (str_find "-" column))) = false ->
        extract_demo_data database data_type country_iso_code
        = Raise ValueError)
  /\ (forall out,
        extract_demo_data database data_type country_iso_code = Ok out ->
        has_label "Period" (demo_renamed df) = true
        /\ forall column,
             In column (demo_renamed df) -> contains "-" column = true ->
             exists n,
               int_of_str (slice_to column (str_find "-" column)) = Ok n).
Proof.
  intros Hq. split; [|split].
  - exact (extract_demo_data_without_period _ _ _ _ Hq).
  - intros Hperiod column Hin Hc Hbad.
    assert (Hkept : In column (filter (contains "-") (demo_renamed df))).
    { apply filter_In. auto. }
    destruct (list_comprehension_outcome age_band_label
                (filter (contains "-") (demo_renamed df)))
      as [[Hall _]|(pre & x & post & e & _ & Hx & Hraise)].
    + rewrite Forall_forall in Hall. specialize (Hall column Hkept).
      unfold age_band_label in Hall. rewrite Hc in Hall.
      destruct (int_of_str (slice_to column (str_find "-" column)));
        discriminate.
    + destruct (age_band_label_raises _ _ Hx) as (-> & _).
      exact (extract_demo_data_bad_label _ _ _ _ _ Hq Hperiod Hraise).
  - intros out Hout.
    destruct (extract_demo_data_Ok _ _ _ _ _ Hq Hout)
      as (Hperiod & labels & Hlabels).
    split; [exact Hperiod|]. intros column Hin Hc.
    apply list_comprehension_Forall2 in Hlabels.
    assert (Hkept : In column (filter (contains "-") (demo_renamed df))).
    { apply filter_In. auto. }
    apply In_nth_error in Hkept. destruct Hkept as (i & Hi).
    destruct (Forall2_nth_error_left _ _ _ _ _ Hlabels Hi) as (band & _ & Hband).
    unfold age_band_label in Hband. rewrite Hc in Hband.
    bind_inv Hband as n Hn. now exists n.
Qed.

Lemma period_year_has_no_hyphen (x : cell) :
  exists s, period_year x = CStr s /\ contains "-" s = false.
Proof.
  unfold period_year.
  destruct (contains "-" (str_of_cell x)) eqn:Hc.
  - destruct (hyphen_split _ Hc) as (head & tail & _ & Hhead & ->).
    now exists head.
  - now exists (str_of_cell x).
Qed.

(** X6. Every table [extract_demo_data] returns, from a table whose renamed
    labels are distinct, has the rows of the table it read, one cell per
    column in each; its labels are ints followed by the one label ["Period"];
    and its period column holds strings without a hyphen. *)
Theorem reshaped_table_is_regular (database : InputDB E)
    (data_type country_iso_code : string) (df : DataFrame string)
    (out : DataFrame label) :
  db_query database data_type "iso3" country_iso_code "*" = Ok df ->
  unique_labels (demo_renamed df) = true ->
  extract_demo_data database data_type country_iso_code = Ok out ->
  nrows out = nrows df
  /\ (forall r, In r (rows out) ->
        List.length r = List.length (columns out))
  /\ (exists bands, columns out = (map LInt bands ++ [LStr "Period"])%list)
  /\ exists period,
       get_column (LStr "Period") out = Ok period
       /\ List.length period = nrows out
       /\ Forall (fun v => exists s, v = CStr s /\ contains "-" s = false)
            period.
Proof.
  intros Hq _ Hout.
  destruct (extract_demo_data_Ok _ _ _ _ _ Hq Hout)
    as (Hperiod & labels & Hlabels).
  rewrite (extract_demo_data_returns _ _ _ _ _ Hq Hperiod Hlabels) in Hout.
  injection Hout as <-. cbn [columns rows]. unfold nrows. cbn [rows].
  apply list_comprehension_Forall2 in Hlabels.
  pose proof (Forall2_length_eq _ _ _ Hlabels) as Hlen.
  assert (Hbands : exists bands, labels = map LInt bands).
  { assert (Hhy : Forall (fun column => contains "-" column = true)
                    (filter (contains "-") (demo_renamed df))).
    { apply Forall_forall. intros column Hin. apply filter_In in Hin. tauto. }
    revert Hhy. clear Hlen.
    induction Hlabels as [|column band cs bs Hband _ IH]; intros Hhy.
    - now exists [].
    - inversion Hhy as [|? ? Hhead Htail]; subst.
      destruct (age_band_label_is_int _ _ Hhead Hband) as (n & ->).
      destruct (IH Htail) as (bands & ->). now exists (n :: bands). }
  destruct Hbands as (bands & Hbands).
  assert (Hnotin : ~ In (LStr "Period") labels).
  { rewrite Hbands. intros Hin. apply in_map_iff in Hin.
    destruct Hin as (n & Hn & _). discriminate. }
  split; [now rewrite length_map|]. split; [|split].
  - intros r Hr. apply in_map_iff in Hr. destruct Hr as (r' & <- & _).
    rewrite !length_app, length_map. simpl. lia.
  - exists bands. now rewrite Hbands.
  - unfold get_column. cbn [columns rows].
    rewrite has_label_app. cbn [has_label existsb label_eqb label_Label label_beq].
    rewrite String.eqb_refl, orb_true_r. eexists. split; [reflexivity|].
    split; [now rewrite !length_map|].
    apply Forall_forall. intros v Hv. rewrite map_map in Hv.
    apply in_map_iff in Hv. destruct Hv as (r & <- & _).
    rewrite cell_at_last; [apply period_year_has_no_hyphen | exact Hnotin|].
    rewrite length_map. congruence.
Qed.

(** *** The codes of the coverage table *)

(** X4. [get_all_iso3_from_bcg] sends one query, for the one column of the
    whole table, and returns one code per row of the frame it gets (its labels
    distinct), in the order of the rows, with nothing left out; what the query
    raises it raises, and a frame without the column raises [KeyError]. *)
Theorem get_all_iso3_from_bcg_lists_every_row (database : InputDB E) :
  (forall e,
      read_sql_query "Select ISO_code from bcg" (engine database) = Raise e ->
      get_all_iso3_from_bcg database = Raise e)
  /\ (forall df,
      read_sql_query "Select ISO_code from bcg" (engine database) = Ok df ->
      unique_labels (columns df) = true ->
      (has_label "ISO_code" (columns df) = false ->
       get_all_iso3_from_bcg database = Raise KeyError)
      /\ (has_label "ISO_code" (columns df) = true ->
          exists codes,
            get_all_iso3_from_bcg database = Ok codes
            /\ List.length codes = nrows df
            /\ Forall2 (fun r code => code = cell_at "ISO_code" (columns df) r)
                 (rows df) codes)).
Proof.
  unfold get_all_iso3_from_bcg.
  change (db_query database "bcg" "" "" "ISO_code")
    with (read_sql_query "Select ISO_code from bcg" (engine database)).
  split.
  - intros e ->. reflexivity.
  - intros df -> _. cbn [Py.bind]. unfold get_column. split; intros ->.
    + reflexivity.
    + eexists. split; [reflexivity|]. split; [apply length_map|].
      induction (rows df) as [|r rs IH]; simpl; constructor; auto.
Qed.

(** *** The columns and cells of a mapped table *)

Ltac frame_of H :=
  match type of H with
  | Ok ?f = Ok ?m =>
      let Heq := fresh "Heq" in
      assert (Heq : m = f) by congruence; clear H; subst m
  end.

(** What a successful [add_iso_to_table] went through. *)
Lemma add_iso_to_table_Ok (self self' : InputDB E) (table_name : string) :
  add_iso_to_table self table_name = (self', Ok tt) ->
  exists locations table merged mapped,
    db_query self "un_iso3_map" "" "" "*" = Ok locations
    /\ get_un_iso_map self
       = (mkInputDB (engine self)
            (Some (dropna (reindex ["Location code"; "ISO3 Alpha-code"]
                             locations))), Ok tt)
    /\ db_query self table_name "" "" "*" = Ok table
    /\ merge table
         (dropna (reindex ["Location code"; "ISO3 Alpha-code"] locations))
         "Country code" "Location code" = Ok merged
    /\ (if has_label "Index"
             (columns (rename [("ISO3 Alpha-code", "iso3")] merged))
        then drop_columns ["Index"]
               (rename [("ISO3 Alpha-code", "iso3")] merged)
        else Ok (rename [("ISO3 Alpha-code", "iso3")] merged)) = Ok mapped
    /\ to_sql mapped (table_name ++ "_mapped") (engine self)
       = Ok (engine self').
Proof.
  unfold add_iso_to_table, get_un_iso_map. intros Hadd.
  destruct (db_query self "un_iso3_map" "" "" "*") as [locations|e] eqn:Hloc;
    cbn [Py.bind] in *; [|discriminate].
  destruct (loc_columns ["Location code"; "ISO3 Alpha-code"] locations)
    as [pairs|e] eqn:Hpairs; [|discriminate].
  assert (Hre : pairs = reindex ["Location code"; "ISO3 Alpha-code"] locations).
  { unfold loc_columns in Hpairs.
    destruct (forallb _ _); [now injection Hpairs | discriminate]. }
  subst pairs. cbn [engine map_df] in Hadd.
  destruct (mapped <- table_with_iso _ table_name ;;
            to_sql mapped (table_name ++ "_mapped") (engine self))
    as [stored|e] eqn:Hstored; [|discriminate].
  injection Hadd as <-. cbn [engine].
  bind_inv Hstored as mapped Hmapped.
  unfold table_with_iso in Hmapped. bind_inv Hmapped as table Htable.
  cbn [map_df Py.bind] in Hmapped. bind_inv Hmapped as merged Hmerged.
  exists locations, table, merged, mapped. repeat split; auto.
Qed.

(** X9. The table [add_iso_to_table] stores never has an ["Index"] column.
    When the table it read is well formed and has no column named as one of
    the crosswalk's, the stored table has its columns, ["Index"] apart,
    followed by ["Location code"] and ["iso3"]; and each stored row joins a
    row of the table read with one of its crosswalk entries: it has the row's
    cells under the row's labels, and under ["iso3"] the entry's ISO3 code. *)
Theorem mapped_table_carries_the_codes (self self' : InputDB E)
    (table_name : string) :
  add_iso_to_table self table_name = (self', Ok tt) ->
  exists table crosswalk mapped,
    db_query self table_name "" "" "*" = Ok table
    /\ get_un_iso_map self = (mkInputDB (engine self) (Some crosswalk), Ok tt)
    /\ to_sql mapped (table_name ++ "_mapped") (engine self) = Ok (engine self')
    /\ has_label "Country code" (columns table) = true
    /\ columns crosswalk = ["Location code"; "ISO3 Alpha-code"]
    /\ has_label "Index" (columns mapped) = false
    /\ (well_formed table = true ->
        has_label "Location code" (columns table) = false ->
        has_label "ISO3 Alpha-code" (columns table) = false ->
        columns mapped
        = (filter (fun c => negb (String.eqb c "Index")) (columns table)
           ++ ["Location code"; "iso3"])%list
        /\ (has_label "iso3" (columns table) = false ->
            exists join,
              rows mapped
              = flat_map
                  (fun r => map (join r) (crosswalk_entries crosswalk table r))
                  (rows table)
              /\ forall r entry,
                   In r (rows table) -> In entry (rows crosswalk) ->
                   (forall c, In c (columns table) -> c <> "Index" ->
                      cell_at c (columns mapped) (join r entry)
                      = cell_at c (columns table) r)
                   /\ cell_at "iso3" (columns mapped) (join r entry)
                      = cell_at "ISO3 Alpha-code" (columns crosswalk) entry
                   /\ cell_at "Location code" (columns mapped) (join r entry)
                      = cell_at "Location code" (columns crosswalk) entry)).
Proof.
  intros Hadd.
  destruct (add_iso_to_table_Ok _ _ _ Hadd)
    as (locations & table & merged & mapped
        & Hloc & Hbuilt & Htable & Hmerged & Hmapped & Hstore).
  set (crosswalk := dropna (reindex ["Location code"; "ISO3 Alpha-code"]
                              locations)) in *.
  exists table, crosswalk, mapped.
  split; [exact Htable|]. split; [exact Hbuilt|]. split; [exact Hstore|].
  assert (Hdropped : has_label "Index" (columns mapped) = false).
  { destruct (has_label "Index"
                (columns (rename [("ISO3 Alpha-code", "iso3")] merged)))
      eqn:Hindex.
    - unfold drop_columns in Hmapped.
      destruct (forallb _ _); [|discriminate].
      frame_of Hmapped. cbn [columns]. apply has_label_dropped.
    - frame_of Hmapped. exact Hindex. }
  unfold merge in Hmerged.
  destruct (has_label "Country code" (columns table)) eqn:Hcode;
    [|discriminate].
  change (has_label "Location code" (columns crosswalk)) with true in Hmerged.
  cbn [andb] in Hmerged.
  change (columns crosswalk) with ["Location code"; "ISO3 Alpha-code"]
    in Hmerged.
  frame_of Hmerged.
  split; [reflexivity|]. split; [reflexivity|]. split; [exact Hdropped|].
  clear Hdropped. intros Hwf Hno_lc Hno_ia.
  assert (Hrect : rectangular table = true).
  { unfold well_formed in Hwf. apply andb_true_iff in Hwf. tauto. }
  clear Hwf.
  assert (Hleft : map (with_suffix "_x" ["Location code"; "ISO3 Alpha-code"])
                    (columns table) = columns table).
  { rewrite <- (map_id (columns table)) at 2. apply map_ext_in.
    intros c Hc. unfold with_suffix.
    destruct (has_label c ["Location code"; "ISO3 Alpha-code"]) eqn:Hin;
      [|reflexivity].
    exfalso. apply has_label_In in Hin.
    destruct Hin as [<-|[<-|[]]]; apply has_label_In in Hc; congruence. }
  assert (Hright : map (with_suffix "_y" (columns table))
                     ["Location code"; "ISO3 Alpha-code"]
                   = ["Location code"; "ISO3 Alpha-code"]).
  { cbn [map]. unfold with_suffix. now rewrite Hno_lc, Hno_ia. }
  assert (Hrenamed : map (rename_label [("ISO3 Alpha-code", "iso3")])
                       (columns table ++ ["Location code"; "ISO3 Alpha-code"])%list
                     = (columns table ++ ["Location code"; "iso3"])%list).
  { rewrite map_app. f_equal.
    rewrite <- (map_id (columns table)) at 2. apply map_ext_in.
    intros c Hc. unfold rename_label. cbn [List.find fst snd label_eqb string_Label].
    destruct (String.eqb "ISO3 Alpha-code" c) eqn:Heq; [|reflexivity].
    apply String.eqb_eq in Heq. subst c.
    apply has_label_In in Hc. congruence. }
  cbn [rename columns rows] in Hmapped.
  rewrite Hleft, Hright, Hrenamed in Hmapped.
  assert (Hfilter : forall cols : list string,
            filter (fun c => negb (has_label c ["Index"])) cols
            = filter (fun c => negb (String.eqb c "Index")) cols).
  { intros cols. apply filter_ext. intros c.
    cbn [has_label existsb label_eqb string_Label].
    now rewrite orb_false_r, String.eqb_sym. }
  assert (Hentry : forall entry, In entry (rows crosswalk) ->
            exists a b, entry = [a; b]).
  { intros entry Hin. unfold crosswalk, dropna, reindex in Hin.
    cbn [rows columns] in Hin. apply filter_In in Hin. destruct Hin as [Hin _].
    apply in_map_iff in Hin. destruct Hin as (r & <- & _). cbn [map]. eauto. }
  rewrite has_label_app in Hmapped.
  replace (has_label "Index" ["Location code"; "iso3"]) with false in Hmapped
    by reflexivity.
  rewrite orb_false_r in Hmapped.
  destruct (has_label "Index" (columns table)) eqn:Hindex.
  - unfold drop_columns in Hmapped. cbn [rename columns rows] in Hmapped.
    rewrite ?Hrenamed in Hmapped.
    destruct (forallb _ _); [|discriminate].
    frame_of Hmapped. cbn [columns rows].
    rewrite Hfilter, filter_app. split; [reflexivity|].
    intros Hno_iso3.
    exists (fun r entry =>
              drop_cells ["Index"]
                (columns table ++ ["Location code"; "iso3"])%list
                (r ++ entry)%list).
    split.
    + unfold crosswalk_entries. rewrite map_flat_map.
      apply flat_map_ext. intros r. now rewrite map_map.
    + intros r entry Hr Hin.
      destruct (Hentry entry Hin) as (a & b & ->).
      assert (Hlen : List.length r = List.length (columns table)).
      { unfold rectangular in Hrect. rewrite forallb_forall in Hrect.
        now apply Nat.eqb_eq, Hrect. }
      rewrite <- filter_app, <- Hfilter. unfold cell_at.
      split; [|split].
      * intros c Hc Hne. rewrite lookup_cell_drop.
        -- rewrite lookup_cell_app_left; [reflexivity| |exact Hlen].
           now apply has_label_In.
        -- cbn [has_label existsb label_eqb string_Label].
           rewrite orb_false_r. apply String.eqb_neq. congruence.
      * rewrite lookup_cell_drop by reflexivity.
        rewrite lookup_cell_app_right by assumption. reflexivity.
      * rewrite lookup_cell_drop by reflexivity.
        rewrite lookup_cell_app_right by assumption. reflexivity.
  - frame_of Hmapped. cbn [rename columns rows]. rewrite Hrenamed. split.
    + f_equal. rewrite <- Hfilter. symmetry.
      apply forallb_filter_id. apply forallb_forall. intros c Hc.
      destruct (has_label c ["Index"]) eqn:Hci; [|reflexivity].
      apply has_label_In in Hci. destruct Hci as [<-|[]].
      apply has_label_In in Hc. congruence.
    + intros Hno_iso3.
      exists (fun r entry => (r ++ entry)%list). split; [reflexivity|].
      intros r entry Hr Hin.
      destruct (Hentry entry Hin) as (a & b & ->).
      assert (Hlen : List.length r = List.length (columns table)).
      { unfold rectangular in Hrect. rewrite forallb_forall in Hrect.
        now apply Nat.eqb_eq, Hrect. }
      unfold cell_at. split; [|split].
      * intros c Hc _.
        rewrite lookup_cell_app_left; [reflexivity| |exact Hlen].
        now apply has_label_In.
      * rewrite lookup_cell_app_right by assumption. reflexivity.
      * rewrite lookup_cell_app_right by assumption. reflexivity.
Qed.

End MoreDbFacts.

(* ================================================================== *)
(** ** Properties of slices and [split] *)
(* ================================================================== *)

Lemma length_append (a b : string) :
  String.length (a ++ b) = String.length a + String.length b.
Proof. induction a as [|c a IH]; simpl; [reflexivity | now rewrite IH]. Qed.

Lemma substring_all (s t : string) :
  substring 0 (String.length s) (s ++ t) = s.
Proof. induction s as [|c s IH]; simpl; [now destruct t | now rewrite IH]. Qed.

Lemma substring_skip (a s : string) (n : nat) :
  substring (String.length a) n (a ++ s) = substring 0 n s.
Proof. induction a as [|c a IH]; simpl; [reflexivity | exact IH]. Qed.

(** A slice that drops as many characters as a head and a tail have returns
    what stands between them. *)
Lemma slice_middle (head middle tail : string) :
  tail <> "" ->
  slice (head ++ middle ++ tail)
    (Z.of_nat (String.length head)) (- Z.of_nat (String.length tail))
  = middle.
Proof.
  intros Htail. unfold slice, clamp. rewrite !length_append.
  destruct tail as [|c tail]; [congruence|]. clear Htail.
  set (h := String.length head). set (m := String.length middle).
  set (t := String.length (String c tail)).
  assert (Ht : t = S (String.length tail)) by reflexivity.
  replace (Z.of_nat h <? 0)%Z with false by (symmetry; apply Z.ltb_ge; lia).
  replace (- Z.of_nat t <? 0)%Z with true by (symmetry; apply Z.ltb_lt; lia).
  replace (Z.min (Z.of_nat h) (Z.of_nat (h + (m + t)))) with (Z.of_nat h) by lia.
  replace (Z.max 0 (Z.of_nat (h + (m + t)) + - Z.of_nat t))
    with (Z.of_nat (h + m)) by lia.
  destruct (Z.of_nat h <? Z.of_nat (h + m))%Z eqn:Hlt.
  - replace (Z.of_nat (h + m) - Z.of_nat h)%Z with (Z.of_nat m) by lia.
    rewrite !Nat2Z.id. unfold h, m. rewrite substring_skip.
    apply substring_all.
  - apply Z.ltb_ge in Hlt. assert (m = 0) by lia.
    unfold m in *. destruct middle; [reflexivity | discriminate].
Qed.

(** On a string too short to have both, the slice is empty. *)
Lemma slice_short (s : string) (a b : nat) :
  String.length s <= a + b ->
  slice s (Z.of_nat a) (- Z.of_nat b) = "".
Proof.
  intros Hlen. unfold slice, clamp.
  destruct (Z.min_spec (Z.of_nat a) (Z.of_nat (String.length s))) as [[_ ->]|[_ ->]];
  destruct (- Z.of_nat b <? 0)%Z eqn:Hb;
  destruct (Z.of_nat a <? 0)%Z eqn:Ha;
  try (apply Z.ltb_lt in Ha; lia);
  match goal with
  | |- (if (?x <? ?y)%Z then _ else _) = _ =>
      replace (x <? y)%Z with false; [reflexivity|];
      symmetry; apply Z.ltb_ge; try apply Z.ltb_ge in Hb; lia
  end.
Qed.

Lemma split_not_nil (sep : ascii) (s : string) : split sep s <> [].
Proof.
  induction s as [|c s IH]; simpl; [discriminate|].
  destruct (Ascii.eqb c sep); [discriminate|].
  destruct (split sep s); [contradiction | discriminate].
Qed.

(** Without the separator there is one piece, the string. *)
Lemma split_lacks (sep : ascii) (s : string) :
  lacks sep s = true -> split sep s = [s].
Proof.
  induction s as [|c s IH]; simpl; [reflexivity|].
  intros Hl. apply andb_true_iff in Hl. destruct Hl as [Hc Hs].
  apply negb_true_iff in Hc. rewrite Hc, (IH Hs). reflexivity.
Qed.

(** A head without the separator joins the first piece of what follows. *)
Lemma split_app_lacks (sep : ascii) (a s : string) :
  lacks sep a = true ->
  split sep (a ++ s)
  = match split sep s with
    | piece :: pieces => (a ++ piece) :: pieces
    | [] => [a]
    end.
Proof.
  induction a as [|c a IH]; simpl.
  - intros _. destruct (split sep s) eqn:Hs; [|reflexivity].
    now apply split_not_nil in Hs.
  - intros Hl. apply andb_true_iff in Hl. destruct Hl as [Hc Ha].
    apply negb_true_iff in Hc. rewrite Hc, (IH Ha).
    destruct (split sep s); reflexivity.
Qed.

Lemma split_at_sep (sep : ascii) (a s : string) :
  lacks sep a = true ->
  split sep (a ++ String sep s) = a :: split sep s.
Proof.
  intros Ha. rewrite (split_app_lacks _ _ _ Ha). simpl.
  rewrite Ascii.eqb_refl.
  assert (Hnil : a ++ "" = a).
  { clear. induction a as [|c a IH]; simpl; [reflexivity | now rewrite IH]. }
  now rewrite Hnil.
Qed.

(* ================================================================== *)
(** ** Properties of the loaders *)
(* ================================================================== *)

Lemma dict_get_In {V : Type} (k : string) (v : V) (d : dict string V) :
  dict_get String.eqb k d = Some v -> In (k, v) d.
Proof.
  induction d as [|[k' v'] d IH]; simpl; [discriminate|].
  destruct (String.eqb_spec k' k) as [->|_].
  - intros [= ->]. now left.
  - intros Hget. right. now apply IH.
Qed.

Lemma getitem_Ok {V : Type} (k : string) (v : V) (d : dict string V) :
  getitem k d = Ok v -> dict_get String.eqb k d = Some v.
Proof. unfold getitem. destruct (dict_get String.eqb k d); congruence. Qed.

Section LoaderFacts.
Context {E Book Sheet : Type} `{Files E Book Sheet}.

(** *** Table names of the CSV files *)

Lemma csv_table_name_IndexError (filename : string) :
  lacks "\" filename = true -> csv_table_name filename = Failed IndexError.
Proof.
  intros Hl. unfold csv_table_name. now rewrite (split_lacks _ _ Hl).
Qed.

(** *** What a loader leaves alone *)

Lemma update_csv_read_map_df (self : InputDB E) (filename : string) :
  map_df (fst (update_csv_read self filename)) = map_df self.
Proof.
  unfold update_csv_read.
  destruct (and_then (read_csv filename) _); reflexivity.
Qed.

Lemma update_xl_read_map_df (settings : Settings) (self : InputDB E)
    (available_file : string) :
  map_df (fst (fst (update_xl_read settings self available_file)))
  = map_df self.
Proof.
  unfold update_xl_read.
  destruct (and_then (ExcelFile (xlsx_filename available_file)) _)
    as [[frame printed]|e]; [|reflexivity].
  destruct (sheet_to_sql frame _ (engine self)); reflexivity.
Qed.
(** X10. Both loaders leave the crosswalk of the object as it was: after a
    table is loaded again, [map_df] still holds what [get_un_iso_map] built
    from the old table. *)
Theorem loaders_keep_the_crosswalk (settings : Settings) (self : InputDB E)
    (input_path : string) (sheets_to_read : list string) :
  map_df (fst (update_csv_reads self input_path)) = map_df self
  /\ map_df (fst (fst (update_xl_reads settings self sheets_to_read)))
     = map_df self.
Proof.
  split.
  - unfold update_csv_reads. generalize (glob input_path) as files.
    intros files. revert self.
    induction files as [|f files IH]; intros self; simpl; [reflexivity|].
    pose proof (update_csv_read_map_df self f) as Hf.
    destruct (update_csv_read self f) as [self1 [[]|e]]; simpl in *.
    + now rewrite IH.
    + exact Hf.
  - revert self. induction sheets_to_read as [|f files IH]; intros self;
      simpl; [reflexivity|].
    pose proof (update_xl_read_map_df settings self f) as Hf.
    destruct (update_xl_read settings self f) as [[self1 printed] [[]|e]];
      simpl in *.
    + specialize (IH self1).
      destruct (update_xl_reads settings self1 files) as [[self2 more] outcome].
      simpl in *. congruence.
    + exact Hf.
Qed.

(** X11. The table name [update_csv_reads] gives a file is the text between
    the first backslash of its path and the next backslash or dot: the file's
    stem when the path has one backslash, before the file name, and the name
    of a folder when a backslash follows. A path without a backslash raises
    [IndexError]. *)
Theorem csv_table_name_is_second_component :
  (forall dir name tail,
      lacks "\" dir = true -> lacks "\" name = true -> lacks "." name = true ->
      (tail = ""
       \/ exists c rest, tail = String c rest /\ (c = "\"%char \/ c = "."%char)) ->
      csv_table_name (dir ++ String "\" (name ++ tail)) = Done name)
  /\ (forall filename,
      lacks "\" filename = true -> csv_table_name filename = Failed IndexError).
Proof.
  split; [|exact csv_table_name_IndexError].
  intros dir name tail Hdir Hname Hdot Htail. unfold csv_table_name.
  rewrite (split_at_sep _ _ _ Hdir).
  assert (Hsecond : exists second pieces,
            split "\" (name ++ tail) = second :: pieces
            /\ exists others, split "." second = name :: others).
  { rewrite (split_app_lacks _ _ _ Hname).
    destruct Htail as [->|(c & rest & -> & [->| ->])].
    - exists name, []. split.
      + simpl. f_equal. clear. induction name as [|c n IH]; simpl; congruence.
      + exists []. apply split_lacks, Hdot.
    - simpl. exists name, (split "\" rest). split.
      + f_equal. clear. induction name as [|c n IH]; simpl; congruence.
      + exists []. apply split_lacks, Hdot.
    - simpl. destruct (split "\" rest) as [|piece pieces] eqn:Hrest;
        [now apply split_not_nil in Hrest|].
      exists (name ++ String "." piece), pieces. split; [reflexivity|].
      exists (split "." piece). apply split_at_sep, Hdot. }
  destruct Hsecond as (second & pieces & Hsplit & others & Hname').
  rewrite Hsplit. simpl. unfold item. rewrite Hname'. reflexivity.
Qed.

(** X12. When no path that [glob] returns has a backslash, [update_csv_reads]
    stores nothing: the first file is read and then the call raises,
    [IndexError] unless reading the file raised. *)
Theorem update_csv_reads_without_backslash (self : InputDB E)
    (input_path : string) :
  (forall filename, In filename (glob input_path) ->
     lacks "\" filename = true) ->
  fst (update_csv_reads self input_path) = self
  /\ (glob input_path = [] -> snd (update_csv_reads self input_path) = Done tt)
  /\ (forall filename rest, glob input_path = filename :: rest ->
        snd (update_csv_reads self input_path)
        = match read_csv filename with
          | Done _ => Failed IndexError
          | Failed e => Failed e
          end).
Proof.
  intros Hlacks. unfold update_csv_reads.
  destruct (glob input_path) as [|first others]; simpl.
  - repeat split. intros filename rest [=].
  - assert (Hf : lacks "\" first = true) by (apply Hlacks; now left).
    unfold update_csv_read. rewrite (csv_table_name_IndexError _ Hf).
    destruct (read_csv first) as [frame|e] eqn:Hread; simpl;
      (split; [reflexivity|]; split; [discriminate|]);
      intros filename rest [= <- <-]; now rewrite Hread.
Qed.

(** *** Workbooks *)

(** X13. The file name [update_xl_reads] works with keeps the path without its
    first 7 and last 5 characters, whatever they are, between ["../xls/"] and
    [".xlsx"]: a path of that form is kept as it is, a path written with other
    separators or another case of the extension is brought to that form, and a
    path of at most 12 characters becomes ["../xls/.xlsx"]. *)
Theorem xlsx_filename_keeps_the_stem :
  (forall head stem tail,
      String.length head = 7 -> String.length tail = 5 ->
      xlsx_filename (head ++ stem ++ tail) = "../xls/" ++ stem ++ ".xlsx")
  /\ (forall stem,
      xlsx_filename ("../xls/" ++ stem ++ ".xlsx") = "../xls/" ++ stem ++ ".xlsx")
  /\ (forall path,
      String.length path <= 12 -> xlsx_filename path = "../xls/.xlsx").
Proof.
  assert (Hkeep : forall head stem tail,
            String.length head = 7 -> String.length tail = 5 ->
            xlsx_filename (head ++ stem ++ tail) = "../xls/" ++ stem ++ ".xlsx").
  { intros head stem tail Hhead Htail. unfold xlsx_filename.
    pose proof (slice_middle head stem tail) as Hslice.
    rewrite Hhead, Htail in Hslice.
    change (Z.of_nat 7) with 7%Z in Hslice.
    change (- Z.of_nat 5)%Z with (-5)%Z in Hslice.
    rewrite Hslice; [reflexivity|].
    intros ->. discriminate. }
  split; [exact Hkeep|]. split.
  - intros stem. exact (Hkeep "../xls/" stem ".xlsx" eq_refl eq_refl).
  - intros path Hlen. unfold xlsx_filename.
    pose proof (slice_short path 7 5 Hlen) as Hslice.
    change (Z.of_nat 7) with 7%Z in Hslice.
    change (- Z.of_nat 5)%Z with (-5)%Z in Hslice.
    now rewrite Hslice.
Qed.

Lemma update_xl_read_unknown (settings : Settings) (self : InputDB E)
    (available_file : string) (book : Book) :
  ExcelFile (xlsx_filename available_file) = Done book ->
  dict_get String.eqb (xlsx_filename available_file) (tab_of_interest settings)
  = None ->
  update_xl_read settings self available_file
  = (self, [], Failed (Raised KeyError)).
Proof.
  intros Hbook Htab. unfold update_xl_read, getitem.
  rewrite Hbook, Htab. reflexivity.
Qed.

(** X14. A workbook that has no entry in [tab_of_interest] ends the run with
    [KeyError] once it has been opened: it is not read, no line is printed for
    it and nothing is stored for it or for the files after it; what the files
    before it stored and printed stays. *)
Theorem update_xl_reads_stops_at_unknown_file (settings : Settings)
    (self loaded : InputDB E) (before after : list string)
    (available_file : string) (printed : list string) (book : Book) :
  update_xl_reads settings self before = (loaded, printed, Done tt) ->
  ExcelFile (xlsx_filename available_file) = Done book ->
  dict_get String.eqb (xlsx_filename available_file) (tab_of_interest settings)
  = None ->
  update_xl_reads settings self (before ++ available_file :: after)%list
  = (loaded, printed, Failed (Raised KeyError)).
Proof.
  intros Hbefore Hbook Htab. revert self printed Hbefore.
  induction before as [|f before IH]; intros self printed Hbefore.
  - injection Hbefore as <- <-. simpl.
    now rewrite (update_xl_read_unknown settings self _ _ Hbook Htab).
  - simpl in *.
    destruct (update_xl_read settings self f) as [[self1 printed1] [[]|e]];
      [|discriminate].
    destruct (update_xl_reads settings self1 before)
      as [[self2 more] outcome] eqn:Hrest.
    injection Hbefore as <- <- ->.
    now rewrite (IH self1 more Hrest).
Qed.

(** X15. With the attributes [__init__] sets, a workbook that loads is stored
    under the output name listed for its file name, never under the file name
    itself, and is read from the tab listed for it with header row 16, 3 or 0.
    *)
Theorem update_xl_read_uses_the_listed_name (database_name : string)
    (is_verbose : bool) (self self' : InputDB E) (available_file : string)
    (printed : list string) :
  update_xl_read (attributes database_name is_verbose) self available_file
  = (self', printed, Done tt) ->
  exists book tab header title sheet,
    In (xlsx_filename available_file, tab)
      (tab_of_interest (attributes database_name is_verbose))
    /\ In (xlsx_filename available_file, title)
         (output_name (attributes database_name is_verbose))
    /\ title <> xlsx_filename available_file
    /\ (header = 16 \/ header = 3 \/ header = 0)%Z
    /\ ExcelFile (xlsx_filename available_file) = Done book
    /\ read_excel book header 1 tab = Done sheet
    /\ sheet_to_sql sheet title (engine self) = Done (engine self').
Proof.
  unfold update_xl_read. intros Hread.
  remember (xlsx_filename available_file) as filename eqn:Hfilename.
  destruct (ExcelFile filename) as [book|e] eqn:Hbook; [|discriminate].
  cbn [and_then] in Hread.
  destruct (getitem filename
              (tab_of_interest (attributes database_name is_verbose)))
    as [tab|e] eqn:Htab; [|discriminate].
  cbn [and_then lift] in Hread.
  apply getitem_Ok, dict_get_In in Htab.
  simpl in Htab.
  remember (@read_excel E Book Sheet _) as read eqn:Hreader.
  remember (@sheet_to_sql E Book Sheet _) as store eqn:Hstorer.
  remember (engine self) as db eqn:Hdb.
  remember (map_df self) as crosswalk eqn:Hcrosswalk.
  repeat (destruct Htab as [Htab|Htab];
          [injection Htab as Hname <-; rewrite <- Hname in *;
           vm_compute in Hread;
           match type of Hread with
           | context [read book ?h _ ?t] =>
               let sheet := fresh "sheet" in
               destruct (read book h 1%Z t) as [sheet|?] eqn:Hsheet;
               [|discriminate];
               match type of Hread with
               | context [store sheet ?n db] =>
                   destruct (store sheet n db) as [?|?] eqn:Hstore;
                   [|discriminate]
               end
           end;
           injection Hread as <- _;
           do 5 eexists;
           repeat split;
           try exact Hsheet; try exact Hstore;
           try (simpl; tauto); try discriminate; auto
          |]).
  contradiction.
Qed.

(** *** Progress lines *)

Lemma update_xl_read_prints (settings : Settings) (self self' : InputDB E)
    (available_file : string) (printed : list string) (outcome : attempt unit) :
  update_xl_read settings self available_file = (self', printed, outcome) ->
  (verbose settings = false -> printed = [])
  /\ (verbose settings = true -> outcome = Done tt ->
      exists tab,
        dict_get String.eqb (xlsx_filename available_file)
          (tab_of_interest settings) = Some tab
        /\ printed = ["now reading '" ++ tab ++ "' tab of '"
                      ++ xlsx_filename available_file ++ "' file"]).
Proof.
  unfold update_xl_read, output_to_user, getitem.
  destruct (ExcelFile (xlsx_filename available_file)) as [book|e];
    cbn [and_then lift];
    [|intros [= <- <- <-]; split; [reflexivity | discriminate]].
  destruct (dict_get String.eqb (xlsx_filename available_file)
              (tab_of_interest settings)) as [tab|];
    cbn [and_then lift];
    [|intros [= <- <- <-]; split; [reflexivity | discriminate]].
  destruct (read_excel book _ 1%Z tab) as [sheet|e];
    cbn [and_then lift];
    [|intros [= <- <- <-]; split; [reflexivity | discriminate]].
  destruct (sheet_to_sql sheet _ (engine self)) as [stored|e];
    intros [= <- <- <-]; (split; [now intros ->|]).
  - intros -> _. exists tab. split; reflexivity.
  - discriminate.
Qed.

(** X16. With [verbose] off [update_xl_reads] prints nothing. With [verbose]
    on, a run that ends well has printed one line for each file, in their
    order, naming the tab and the file; the line of a file is printed before
    its sheet is stored, so it is there also when storing raises. *)
Theorem update_xl_reads_prints_when_verbose (settings : Settings)
    (self : InputDB E) (sheets_to_read : list string) :
  (verbose settings = false ->
   snd (fst (update_xl_reads settings self sheets_to_read)) = [])
  /\ (verbose settings = true ->
      snd (update_xl_reads settings self sheets_to_read) = Done tt ->
      Forall2
        (fun available_file line =>
           exists tab,
             dict_get String.eqb (xlsx_filename available_file)
               (tab_of_interest settings) = Some tab
             /\ line = "now reading '" ++ tab ++ "' tab of '"
                       ++ xlsx_filename available_file ++ "' file")
        sheets_to_read
        (snd (fst (update_xl_reads settings self sheets_to_read))))
  /\ (forall available_file book tab sheet e,
      verbose settings = true ->
      ExcelFile (xlsx_filename available_file) = Done book ->
      dict_get String.eqb (xlsx_filename available_file)
        (tab_of_interest settings) = Some tab ->
      read_excel book
        (match dict_get String.eqb (xlsx_filename available_file)
                 (headers_lookup settings) with
         | Some row => row
         | None => 0%Z
         end) 1 tab = Done sheet ->
      sheet_to_sql sheet
        (match dict_get String.eqb (xlsx_filename available_file)
                 (output_name settings) with
         | Some title => title
         | None => xlsx_filename available_file
         end) (engine self) = Failed e ->
      update_xl_read settings self available_file
      = (self,
         ["now reading '" ++ tab ++ "' tab of '"
          ++ xlsx_filename available_file ++ "' file"],
         Failed e)).
Proof.
  split; [|split].
  - intros Hquiet. revert self.
    induction sheets_to_read as [|f files IH]; intros self; simpl;
      [reflexivity|].
    destruct (update_xl_read settings self f) as [[self1 printed] outcome] eqn:Hf.
    destruct (update_xl_read_prints _ _ _ _ _ _ Hf) as [Hnone _].
    rewrite (Hnone Hquiet).
    destruct outcome as [[]|e]; [|reflexivity].
    specialize (IH self1).
    destruct (update_xl_reads settings self1 files) as [[self2 more] outcome].
    simpl in *. exact IH.
  - intros Hverbose. revert self.
    induction sheets_to_read as [|f files IH]; intros self; simpl;
      [constructor|].
    destruct (update_xl_read settings self f) as [[self1 printed] outcome] eqn:Hf.
    destruct (update_xl_read_prints _ _ _ _ _ _ Hf) as [_ Hline].
    destruct outcome as [[]|e]; [|discriminate].
    destruct (Hline Hverbose eq_refl) as (tab & Htab & ->).
    specialize (IH self1).
    destruct (update_xl_reads settings self1 files) as [[self2 more] outcome].
    simpl in *. intros Hok. constructor; [|exact (IH Hok)].
    exists tab. split; [exact Htab | reflexivity].
  - intros available_file book tab sheet e Hverbose Hbook Htab Hsheet Hstore.
    unfold update_xl_read, output_to_user, getitem, has_key.
    rewrite Hbook, Htab, Hverbose. cbn [and_then lift].
    destruct (dict_get String.eqb (xlsx_filename available_file)
                (headers_lookup settings)) as [row|];
      rewrite Hsheet; cbn [and_then lift];
      destruct (dict_get String.eqb (xlsx_filename available_file)
                  (output_name settings)) as [title|];
      rewrite Hstore; reflexivity.
Qed.

End LoaderFacts.

(* ================================================================== *)
(** ** The properties on the worked data *)
(* ================================================================== *)

(** [db_query] with a column and a value sends the filtered statement. *)
Lemma db_query_filters_only_with_both_witness :
  "ISO_code" <> "" /\ "MNG" <> ""
  /\ db_query example_db "BCG" "ISO_code" "MNG" "*"
     = read_sql_query "Select * from BCG Where ISO_code = 'MNG'"
         (engine example_db).
Proof.
  assert (Hf : "ISO_code" <> "") by discriminate.
  assert (Hv : "MNG" <> "") by discriminate.
  destruct (db_query_filters_only_with_both example_db "BCG" "ISO_code" "MNG" "*")
    as (_ & _ & _ & Hboth).
  split; [exact Hf|]. split; [exact Hv|]. exact (Hboth Hf Hv).
Defined.

(** The crosswalk of the worked locations table: its two mapped countries. *)
Lemma get_un_iso_map_builds_crosswalk_witness :
  exists crosswalk,
    get_un_iso_map example_db
    = (mkInputDB example_store (Some crosswalk), Ok tt)
    /\ columns crosswalk = ["Location code"; "ISO3 Alpha-code"]
    /\ rows crosswalk = [[CFloat 496.0; CStr "MNG"]; [CFloat 4.0; CStr "AFG"]].
Proof.
  destruct (get_un_iso_map_builds_crosswalk example_db
              (mkFrame locations_columns locations_rows))
    as (crosswalk & Hbuilt & Hcolumns & Hrows & _); [reflexivity ..|].
  exists crosswalk. split; [exact Hbuilt|]. split; [exact Hcolumns|].
  rewrite Hrows. reflexivity.
Defined.

(** Antarctica has no row: the two series raise, the reshape is empty. *)
Lemma no_row_raises_KeyError_witness :
  get_bcg_coverage example_db "ATA" = Raise KeyError
  /\ get_crude_birth_rate example_db "ATA" = Raise KeyError
  /\ extract_demo_data example_db "total_population_mapped" "ATA"
     = Ok (mkFrame [LInt 0; LInt 5; LInt 95; LStr "Period"] []).
Proof.
  destruct (no_row_raises_KeyError example_db "ATA") as (Hbcg & Hbirth & Hdemo).
  split; [|split].
  - apply (Hbcg (mkFrame bcg_columns [])); reflexivity.
  - apply (Hbirth (mkFrame birth_rate_columns [])); reflexivity.
  - apply (Hdemo "total_population_mapped" (mkFrame population_columns [])
             [LInt 0; LInt 5; LInt 95]); reflexivity.
Defined.

(** C1, the claim as stated: with no row for Antarctica the coverage and
    birth-rate extractions raise, they do not return an empty series. *)
Lemma no_row_is_not_an_empty_series :
  db_query example_db "BCG" "ISO_code" "ATA" "*" = Ok (mkFrame bcg_columns [])
  /\ get_bcg_coverage example_db "ATA" = Raise KeyError
  /\ get_bcg_coverage example_db "ATA" <> Ok []
  /\ db_query example_db "crude_birth_rate_mapped" "iso3" "ATA" "*"
     = Ok (mkFrame birth_rate_columns [])
  /\ get_crude_birth_rate example_db "ATA" = Raise KeyError
  /\ get_crude_birth_rate example_db "ATA" <> Ok [].
Proof. repeat split; discriminate. Qed.

(** Mongolia with two rows and with three: the same first row, the same
    series, and no error; the reshape has a row for each row. *)
Lemma extra_rows_are_ignored_witness :
  get_bcg_coverage two_rows_db "MNG" = get_bcg_coverage three_rows_db "MNG"
  /\ get_crude_birth_rate two_rows_db "MNG"
     = get_crude_birth_rate three_rows_db "MNG"
  /\ exists out,
       extract_demo_data two_rows_db "total_population_mapped" "MNG" = Ok out
       /\ nrows out = 2.
Proof.
  destruct (extra_rows_are_ignored two_rows_db three_rows_db "MNG")
    as (Hbcg & Hbirth & Hdemo).
  split; [|split].
  - eapply (Hbcg (from_records coverage_columns
                    [coverage_record_first; coverage_record_second]));
      reflexivity.
  - eapply (Hbirth (from_records birth_rate_columns
                      [births_record_first; births_record_second]));
      reflexivity.
  - destruct (Hdemo "total_population_mapped"
                (mkFrame population_columns population_rows_MNG)
                [LInt 0; LInt 5; LInt 95]) as (out & Hout & Hrows);
      [reflexivity ..|].
    exists out. split; [exact Hout | exact Hrows].
Defined.

(** C2, the claim as stated: the query returns two rows for Mongolia, and
    the extractions return the series of the first row of the frame,
    raising nothing.  The NULL of that row is NaN beside the number of the
    second row and stays in the series; had the row come alone it would be
    [None]. *)
Lemma two_rows_raise_nothing :
  db_query two_rows_db "BCG" "ISO_code" "MNG" "*"
  = Ok (mkFrame coverage_columns
          [[CInt 0; CStr "MNG"; CStr "Mongolia"; CFloat nan; CFloat 70.0];
           [CInt 1; CStr "MNG"; CStr "Mongolia"; CFloat 55.0; CFloat 60.0]])
  /\ get_bcg_coverage two_rows_db "MNG"
     = Ok [(1980%Z, nan); (1981%Z, 0.7%float)]
  /\ db_query two_rows_db "crude_birth_rate_mapped" "iso3" "MNG" "*"
     = Ok (mkFrame birth_rate_columns
             [[CInt 0; CStr "Estimates"; CInt 496; CFloat nan; CFloat 20.0;
               CFloat 496.0; CStr "MNG"];
              [CInt 1; CStr "Medium"; CInt 496; CFloat 11.0; CFloat 12.0;
               CFloat 496.0; CStr "MNG"]])
  /\ get_crude_birth_rate two_rows_db "MNG"
     = Ok [(1982.5%float, nan); (1987.5%float, 0.02%float)]
  /\ db_query first_row_db "BCG" "ISO_code" "MNG" "*"
     = Ok (mkFrame coverage_columns
             [[CInt 0; CStr "MNG"; CStr "Mongolia"; CNone; CFloat 70.0]])
  /\ get_bcg_coverage first_row_db "MNG" = Ok [(1981%Z, 0.7%float)]
  /\ get_crude_birth_rate first_row_db "MNG" = Raise TypeError.
Proof. repeat split. Qed.

(** The keys of Mongolia's series: the years 1980 and 1982 (1981 holds
    [None]), and the midpoints 1982.5 and 1987.5. *)
Lemma coverage_period_keys_witness :
  (exists series,
     get_bcg_coverage example_db "MNG" = Ok series
     /\ In 1980%Z (map fst series) /\ In 1982%Z (map fst series))
  /\ (exists series,
        get_crude_birth_rate example_db "MNG" = Ok series
        /\ map fst series = [1982.5%float; 1987.5%float]).
Proof.
  destruct (coverage_period_keys example_db "MNG") as (Hbcg & Hbirth & _).
  split.
  - exists [(1980%Z, 0.87%float); (1982%Z, 0.9%float)].
    destruct (Hbcg (mkFrame bcg_columns [bcg_row_MNG]) bcg_row_MNG []
                [(1980%Z, 0.87%float); (1982%Z, 0.9%float)])
      as [_ Hkeys]; [reflexivity ..|].
    split; [reflexivity|]. split.
    + apply (Hkeys "1980" (CFloat 87.0)); [simpl; tauto | reflexivity | discriminate].
    + apply (Hkeys "1982" (CInt 90)); [simpl; tauto | reflexivity | discriminate].
  - destruct (Hbirth (mkFrame birth_rate_columns [birth_rate_row_MNG])
                birth_rate_row_MNG []) as [Hreturns _]; [reflexivity ..|].
    destruct Hreturns as (series & Hseries).
    + intros label v Hin Hhyphen. simpl in Hin.
      repeat (destruct Hin as [[= <- <-]|Hin]; try discriminate Hhyphen).
      * split; [exists "1980", "1984"; split; reflexivity | reflexivity].
      * split; [exists "1985", "1989"; split; reflexivity | reflexivity].
      * contradiction.
    + exists series. split; [exact Hseries|].
      vm_compute in Hseries. injection Hseries as <-. reflexivity.
Defined.

(** C3, the claim as stated: a column labelled ["95+"] gives no key at all
    in either coverage series, so no key 97.5. *)
Lemma open_band_has_no_coverage_key :
  db_query open_band_db "crude_birth_rate_mapped" "iso3" "MNG" "*"
  = Ok (mkFrame ["index"; "95+"; "iso3"] [[CInt 0; CFloat 10.0; CStr "MNG"]])
  /\ get_crude_birth_rate open_band_db "MNG" = Ok []
  /\ db_query open_band_db "BCG" "ISO_code" "MNG" "*"
     = Ok (mkFrame ["index"; "ISO_code"; "95+"]
             [[CInt 0; CStr "MNG"; CFloat 10.0]])
  /\ get_bcg_coverage open_band_db "MNG" = Ok [].
Proof. repeat split. Qed.



(** Mongolia's population table reshaped: the age bands 0, 5 and 95, then
    the period, one row per reference date; and its deaths table, whose
    period ["1950-1955"] becomes ["1950"]. *)
Lemma demographic_reshape_witness :
  (exists out,
     extract_demo_data example_db "total_population_mapped" "MNG" = Ok out
     /\ columns out = [LInt 0; LInt 5; LInt 95; LStr "Period"]
     /\ rows out
        = [[CFloat 120.5; CFloat 98.0; CFloat 0.5; CStr "1950"];
           [CFloat 140.0; CFloat 110.5; CFloat 1.0; CStr "1955"]]
     /\ In (LInt 95) (columns out))
  /\ (exists out,
        extract_demo_data example_db "absolute_deaths_mapped" "MNG" = Ok out
        /\ columns out = [LInt 0; LInt 5; LInt 95; LStr "Period"]
        /\ rows out = [[CFloat 30.0; CFloat 4.0; CFloat 0.25; CStr "1950"]]).
Proof.
  split.
  - destruct (demographic_reshape example_db "total_population_mapped" "MNG"
                (mkFrame population_columns population_rows_MNG)
                [LInt 0; LInt 5; LInt 95])
      as (out & Hout & _ & Hcolumns & _ & Hrows & _ & _ & Hband);
      [reflexivity ..|].
    exists out. split; [exact Hout|]. split; [exact Hcolumns|]. split.
    + rewrite Hrows. reflexivity.
    + apply Hband. simpl. tauto.
  - destruct (demographic_reshape example_db "absolute_deaths_mapped" "MNG"
                (mkFrame deaths_columns deaths_rows_MNG)
                [LInt 0; LInt 5; LInt 95])
      as (out & Hout & _ & Hcolumns & _ & Hrows & _);
      [reflexivity ..|].
    exists out. split; [exact Hout|]. split; [exact Hcolumns|].
    rewrite Hrows. reflexivity.
Defined.

(** Mapping the worked birth-rate table: the world's row has no crosswalk
    entry and is left out, Mongolia's row stays. *)
Lemma add_iso_to_table_row_count_witness :
  exists self' table crosswalk mapped,
    add_iso_to_table example_db "crude_birth_rate" = (self', Ok tt)
    /\ db_query example_db "crude_birth_rate" "" "" "*" = Ok table
    /\ get_un_iso_map example_db
       = (mkInputDB (engine example_db) (Some crosswalk), Ok tt)
    /\ to_sql mapped "crude_birth_rate_mapped" (engine example_db)
       = Ok (engine self')
    /\ nrows table = 2 /\ nrows mapped = 1 /\ nrows mapped <= nrows table.
Proof.
  destruct (add_iso_to_table example_db "crude_birth_rate")
    as [self' [[]|e]] eqn:Hadd; [|discriminate Hadd].
  destruct (add_iso_to_table_row_count example_db self' "crude_birth_rate" Hadd)
    as (table & crosswalk & mapped & Hq & Hmap & Hstore & Hn & Hbound).
  exists self', table, crosswalk, mapped.
  assert (Htable : table = mkFrame crude_birth_rate_columns crude_birth_rate_rows).
  { vm_compute in Hq. now injection Hq as <-. }
  assert (Hcross : crosswalk
                   = mkFrame ["Location code"; "ISO3 Alpha-code"]
                       [[CFloat 496.0; CStr "MNG"]; [CFloat 4.0; CStr "AFG"]]).
  { vm_compute in Hmap. now injection Hmap as <-. }
  split; [reflexivity|]. split; [exact Hq|]. split; [exact Hmap|].
  split; [exact Hstore|]. split; [now rewrite Htable|].
  split; [rewrite Hn, Htable, Hcross; reflexivity|].
  apply Hbound. rewrite Htable, Hcross. intros r Hr. simpl in Hr.
  destruct Hr as [<-|[<-|[]]]; vm_compute; lia.
Defined.

(** C7, the claim as stated: with Mongolia listed twice in the locations
    table, the one row read becomes two rows stored. *)
Lemma listed_twice_adds_rows :
  db_query listed_twice_db "crude_birth_rate" "" "" "*"
  = Ok (mkFrame crude_birth_rate_columns
          [[CStr "Estimates"; CInt 2; CInt 496; CFloat 34.2; CFloat 20.0]])
  /\ table_with_iso (fst (get_un_iso_map listed_twice_db)) "crude_birth_rate"
     = Ok (mkFrame
             ["Variant"; "Country code"; "1980-1984"; "1985-1989";
              "Location code"; "iso3"]
             [[CStr "Estimates"; CInt 496; CFloat 34.2; CFloat 20.0;
               CInt 496; CStr "MNG"];
              [CStr "Estimates"; CInt 496; CFloat 34.2; CFloat 20.0;
               CInt 496; CStr "MNG"]])
  /\ (table <- db_query listed_twice_db "crude_birth_rate" "" "" "*" ;;
      Ok (nrows table))
     = Ok 1
  /\ (mapped <- db_query
                   (fst (add_iso_to_table listed_twice_db "crude_birth_rate"))
                   "crude_birth_rate_mapped" "" "" "*" ;;
      Ok (nrows mapped))
     = Ok 2.
Proof. repeat split. Qed.





(** *** Further properties *)

(** The coverage table has no ["Country code"] column: mapping it raises
    [KeyError], and the crosswalk just built has taken the place of the old
    one. *)
Lemma failed_mapping_keeps_the_new_crosswalk_witness :
  snd (add_iso_to_table coverage_db "bcg") = Raise KeyError
  /\ map_df coverage_db
     = Some (mkFrame ["Location code"; "ISO3 Alpha-code"]
               [[CFloat 1.0; CStr "OLD"]])
  /\ map_df (fst (add_iso_to_table coverage_db "bcg"))
     = Some (mkFrame ["Location code"; "ISO3 Alpha-code"]
               [[CFloat 496.0; CStr "MNG"]; [CFloat 4.0; CStr "AFG"]]).
Proof.
  destruct (failed_mapping_keeps_the_new_crosswalk coverage_db "bcg")
    as (_ & _ & Hkey).
  destruct (Hkey (mkFrame ["index"; "ISO_code"; "1980"]
                    [[CInt 0; CStr "MNG"; CFloat 87.0];
                     [CInt 1; CStr "AFG"; CFloat nan];
                     [CInt 2; CStr "MNG"; CFloat 88.0]])
              (mkFrame ["Location code"; "ISO3 Alpha-code"]
                 [[CFloat 496.0; CStr "MNG"]; [CFloat 4.0; CStr "AFG"]]))
    as [Hraise Hmap]; [reflexivity ..|].
  split; [exact Hraise|]. split; [reflexivity | exact Hmap].
Defined.

(** Mapping the worked birth-rate table gives the same with no crosswalk in
    the object as with an old one. *)
Lemma add_iso_to_table_ignores_old_crosswalk_witness :
  add_iso_to_table (mkInputDB example_store None) "crude_birth_rate"
  = add_iso_to_table
      (mkInputDB example_store
         (Some (mkFrame ["Location code"; "ISO3 Alpha-code"]
                  [[CFloat 1.0; CStr "OLD"]])))
      "crude_birth_rate".
Proof.
  destruct (add_iso_to_table_ignores_old_crosswalk example_store None
              (Some (mkFrame ["Location code"; "ISO3 Alpha-code"]
                       [[CFloat 1.0; CStr "OLD"]]))
              "crude_birth_rate") as (_ & _ & _ & _ & Hsame).
  apply Hsame. reflexivity.
Defined.

(** Mongolia's coverage series: 1980 and 1982, in the order of the columns;
    1981 holds [None]. *)
Lemma coverage_series_in_column_order_witness :
  get_bcg_coverage example_db "MNG" = Ok [(1980%Z, 0.87%float); (1982%Z, 0.9%float)]
  /\ Forall2
       (fun kv entry =>
          fst entry = digits_value (fst kv)
          /\ truediv (snd kv) 1e2 = Ok (snd entry))
       [("1980", CFloat 87.0); ("1982", CInt 90)]
       [(1980%Z, 0.87%float); (1982%Z, 0.9%float)].
Proof.
  split; [reflexivity|].
  destruct (coverage_series_in_column_order example_db "MNG"
              (mkFrame bcg_columns [bcg_row_MNG]) bcg_row_MNG []
              [(1980%Z, 0.87%float); (1982%Z, 0.9%float)])
    as (_ & _ & _ & Horder); [reflexivity ..|].
  apply Horder. vm_compute.
  repeat constructor; simpl; intuition discriminate.
Defined.

(** Mongolia's birth-rate series: one entry per hyphenated label, in the
    order of the columns. *)
Lemma birth_rate_series_in_column_order_witness :
  get_crude_birth_rate example_db "MNG"
  = Ok [(1982.5%float, 0.0342%float); (1987.5%float, 0.02%float)]
  /\ Forall2
       (fun kv entry =>
          exists start raw,
            float_of_str (slice_to (fst kv) (str_find "-" (fst kv))) = Ok start
            /\ fst entry = (start + 2.5)%float
            /\ float_of_cell (snd kv) = Ok raw
            /\ snd entry = (raw / 1e3)%float)
       [("1980-1984", CFloat 34.2); ("1985-1989", CFloat 20.0)]
       [(1982.5%float, 0.0342%float); (1987.5%float, 0.02%float)].
Proof.
  split; [reflexivity|].
  destruct (birth_rate_series_in_column_order example_db "MNG"
              (mkFrame birth_rate_columns [birth_rate_row_MNG])
              birth_rate_row_MNG []
              [(1982.5%float, 0.0342%float); (1987.5%float, 0.02%float)])
    as (_ & _ & _ & Horder); [reflexivity ..|].
  apply Horder. reflexivity.
Defined.

(** Text under ["1981"] and [None] under ["1985-1989"] raise [TypeError]. *)
Lemma unusable_values_raise_TypeError_witness :
  get_bcg_coverage unusable_db "MNG" = Raise TypeError
  /\ get_crude_birth_rate unusable_db "MNG" = Raise TypeError.
Proof.
  destruct (unusable_values_raise_TypeError unusable_db "MNG")
    as (Hbcg & Hbirth & _).
  split.
  - apply (Hbcg (mkFrame bcg_columns
                   [[CInt 0; CStr "MNG"; CStr "Mongolia"; CFloat 87.0;
                     CStr "n/a"; CInt 90]])
             [CInt 0; CStr "MNG"; CStr "Mongolia"; CFloat 87.0; CStr "n/a";
              CInt 90] []
             [("index", CInt 0); ("ISO_code", CStr "MNG");
              ("Cname", CStr "Mongolia"); ("1980", CFloat 87.0)]
             [("1982", CInt 90)] "1981" "n/a"); try reflexivity.
    intros label v Hin Hdigit Hv. simpl in Hin.
    repeat (destruct Hin as [[= <- <-]|Hin]; try discriminate Hdigit);
      try reflexivity; contradiction.
  - apply (Hbirth (mkFrame birth_rate_columns
                     [[CInt 0; CStr "Estimates"; CInt 496; CFloat 34.2; CNone;
                       CFloat 496.0; CStr "MNG"]])
             [CInt 0; CStr "Estimates"; CInt 496; CFloat 34.2; CNone;
              CFloat 496.0; CStr "MNG"] []
             [("index", CInt 0); ("Variant", CStr "Estimates");
              ("Country code", CInt 496); ("1980-1984", CFloat 34.2)]
             [("Location code", CFloat 496.0); ("iso3", CStr "MNG")]
             "1985-1989" "1985" "1989"); try reflexivity.
    intros label v Hin Hhyphen. simpl in Hin.
    repeat (destruct Hin as [[= <- <-]|Hin]; try discriminate Hhyphen);
      try (split; reflexivity); contradiction.
Defined.

(** A deaths table without a period column raises [KeyError]; a population
    table with the label ["under-5"] raises [ValueError]. *)
Lemma extract_demo_data_failures_witness :
  extract_demo_data bad_labels_db "absolute_deaths_mapped" "MNG" = Raise KeyError
  /\ extract_demo_data bad_labels_db "total_population_mapped" "MNG"
     = Raise ValueError.
Proof.
  split.
  - destruct (extract_demo_data_failures bad_labels_db
                "absolute_deaths_mapped" "MNG"
                (mkFrame ["index"; "Country code"; "0-4"; "iso3"]
                   [[CInt 0; CInt 496; CFloat 30.0; CStr "MNG"]]))
      as (Hkey & _); [reflexivity|].
    apply Hkey. reflexivity.
  - destruct (extract_demo_data_failures bad_labels_db
                "total_population_mapped" "MNG"
                (mkFrame ["index"; "Period"; "0-4"; "under-5"]
                   [[CInt 0; CInt 1950; CFloat 120.5; CFloat 120.5]]))
      as (_ & Hvalue & _); [reflexivity|].
    apply (Hvalue eq_refl "under-5"); [simpl; tauto | reflexivity ..].
Defined.

(** Mongolia's population table, reshaped. *)
Lemma reshaped_table_is_regular_witness :
  exists out,
    extract_demo_data example_db "total_population_mapped" "MNG" = Ok out
    /\ nrows out = 2
    /\ columns out = (map LInt [0; 5; 95]%Z ++ [LStr "Period"])%list
    /\ get_column (LStr "Period") out = Ok [CStr "1950"; CStr "1955"].
Proof.
  eexists. split; [reflexivity|].
  destruct (reshaped_table_is_regular example_db "total_population_mapped" "MNG"
              (mkFrame population_columns population_rows_MNG)
              (mkFrame [LInt 0; LInt 5; LInt 95; LStr "Period"]
                 [[CFloat 120.5; CFloat 98.0; CFloat 0.5; CStr "1950"];
                  [CFloat 140.0; CFloat 110.5; CFloat 1.0; CStr "1955"]]))
    as (Hn & _ & _ & _); [reflexivity ..|].
  split; [exact Hn|]. split; reflexivity.
Defined.

(** The codes of the coverage table: Mongolia twice, as in the table. *)
Lemma get_all_iso3_from_bcg_lists_every_row_witness :
  get_all_iso3_from_bcg coverage_db = Ok [CStr "MNG"; CStr "AFG"; CStr "MNG"]
  /\ List.length [CStr "MNG"; CStr "AFG"; CStr "MNG"] = 3.
Proof.
  destruct (get_all_iso3_from_bcg_lists_every_row coverage_db) as [_ Hcodes].
  destruct (Hcodes (mkFrame ["ISO_code"] [[CStr "MNG"]; [CStr "AFG"]; [CStr "MNG"]])
              eq_refl eq_refl) as [_ Hlist].
  destruct (Hlist eq_refl) as (codes & Hreturn & Hlen & _).
  assert (Heq : codes = [CStr "MNG"; CStr "AFG"; CStr "MNG"]).
  { vm_compute in Hreturn. now injection Hreturn as <-. }
  rewrite <- Heq. split; [exact Hreturn | exact Hlen].
Defined.

(** The worked birth-rate table, mapped: the world's row has no entry, and
    Mongolia's row is stored without ["Index"], with its ISO3 code. *)
Lemma mapped_table_carries_the_codes_witness :
  exists self' mapped,
    add_iso_to_table example_db "crude_birth_rate" = (self', Ok tt)
    /\ to_sql mapped "crude_birth_rate_mapped" (engine example_db)
       = Ok (engine self')
    /\ columns mapped
       = ["Variant"; "Country code"; "1980-1984"; "1985-1989";
          "Location code"; "iso3"]
    /\ has_label "Index" (columns mapped) = false.
Proof.
  destruct (add_iso_to_table example_db "crude_birth_rate")
    as [self' [[]|e]] eqn:Hadd; [|discriminate Hadd].
  destruct (mapped_table_carries_the_codes example_db self' "crude_birth_rate" Hadd)
    as (table & crosswalk & mapped & Hq & _ & Hstore & _ & _ & Hindex & Hcolumns).
  exists self', mapped.
  assert (Htable : table = mkFrame crude_birth_rate_columns crude_birth_rate_rows).
  { vm_compute in Hq. now injection Hq as <-. }
  split; [reflexivity|]. split; [exact Hstore|]. split; [|exact Hindex].
  rewrite Htable in Hcolumns.
  destruct (Hcolumns eq_refl eq_refl eq_refl) as [-> _]. reflexivity.
Defined.

(** *** The loaders *)

(** A path written with a backslash gives the file's stem; the same path
    written with [/] raises. *)
Lemma csv_table_name_is_second_component_witness :
  csv_table_name "../xls\notifications.csv" = Done "notifications"
  /\ csv_table_name "../xls/notifications.csv" = Failed IndexError.
Proof.
  destruct csv_table_name_is_second_component as [Hname Hnone].
  split.
  - apply (Hname "../xls" "notifications" ".csv"); try reflexivity.
    right. exists "."%char, "csv". auto.
  - apply Hnone. reflexivity.
Defined.

(** In the worked folder the one CSV file is read and nothing is stored. *)
Lemma update_csv_reads_without_backslash_witness :
  update_csv_reads example_db "../xls/*.csv" = (example_db, Failed IndexError).
Proof.
  destruct (update_csv_reads_without_backslash example_db "../xls/*.csv")
    as (Hsame & _ & Hraise).
  - intros filename [<-|[]]. reflexivity.
  - rewrite (surjective_pairing (update_csv_reads example_db "../xls/*.csv")).
    rewrite Hsame, (Hraise "../xls/notifications.csv" [] eq_refl).
    reflexivity.
Defined.

(** A path written as on Windows is brought to the form of the keys of
    [__init__]. *)
Lemma xlsx_filename_keeps_the_stem_witness :
  xlsx_filename "..\XLS\gtb_2015.XLSX" = "../xls/gtb_2015.xlsx"
  /\ xlsx_filename "../xls/gtb_2015.xlsx" = "../xls/gtb_2015.xlsx"
  /\ xlsx_filename "gtb_2015.xls" = "../xls/.xlsx".
Proof.
  destruct xlsx_filename_keeps_the_stem as (Hkeep & Hsame & Hshort).
  split; [|split].
  - exact (Hkeep "..\XLS\" "gtb_2015" ".XLSX" eq_refl eq_refl).
  - exact (Hsame "gtb_2015").
  - apply Hshort. simpl. lia.
Defined.

(** The worked folder: the coverage workbook is stored, the unlisted one
    ends the run, and the locations workbook after it is not loaded. *)
Lemma update_xl_reads_stops_at_unknown_file_witness :
  update_xl_reads (attributes "../databases/inputs.db" false)
    (mkInputDB [] None)
    ["../xls/coverage_estimates_series.xlsx"; "../xls/unlisted.xlsx";
     "../xls/WPP2019_F01_LOCATIONS.xlsx"]
  = (mkInputDB
       [("Select * from bcg",
         mkFrame ["Cname"; "ISO_code"; "1980"]
           [[CStr "Mongolia"; CStr "MNG"; CFloat 87.0]])]
       None,
     [], Failed (Raised KeyError)).
Proof.
  apply (update_xl_reads_stops_at_unknown_file
           (attributes "../databases/inputs.db" false) (mkInputDB [] None) _
           ["../xls/coverage_estimates_series.xlsx"]
           ["../xls/WPP2019_F01_LOCATIONS.xlsx"]
           "../xls/unlisted.xlsx" [] unlisted_workbook);
    reflexivity.
Defined.

(** The coverage workbook is stored under ["bcg"], from its tab ["BCG"]. *)
Lemma update_xl_read_uses_the_listed_name_witness :
  exists self' book tab header title sheet,
    update_xl_read (attributes "../databases/inputs.db" false)
      (mkInputDB [] None) "../xls/coverage_estimates_series.xlsx"
    = (self', [], Done tt)
    /\ In ("../xls/coverage_estimates_series.xlsx", tab)
         (tab_of_interest (attributes "../databases/inputs.db" false))
    /\ In ("../xls/coverage_estimates_series.xlsx", title)
         (output_name (attributes "../databases/inputs.db" false))
    /\ title <> "../xls/coverage_estimates_series.xlsx"
    /\ ExcelFile "../xls/coverage_estimates_series.xlsx" = Done book
    /\ read_excel book header 1 tab = Done sheet
    /\ sheet_to_sql sheet title [] = Done (engine self').
Proof.
  destruct (update_xl_read (attributes "../databases/inputs.db" false)
              (mkInputDB [] None) "../xls/coverage_estimates_series.xlsx")
    as [[self' printed] outcome] eqn:Hread.
  assert (Hprinted : printed = []) by (vm_compute in Hread; congruence).
  assert (Houtcome : outcome = Done tt) by (vm_compute in Hread; congruence).
  subst printed outcome.
  destruct (update_xl_read_uses_the_listed_name "../databases/inputs.db" false
              (mkInputDB [] None) self'
              "../xls/coverage_estimates_series.xlsx" [] Hread)
    as (book & tab & header & title & sheet
        & Htab & Htitle & Hne & _ & Hbook & Hsheet & Hstore).
  exists self', book, tab, header, title, sheet.
  repeat split; assumption.
Defined.

(** With [verbose] on, loading the coverage and the locations workbooks
    prints a line for each. *)
Lemma update_xl_reads_prints_when_verbose_witness :
  Forall2
    (fun available_file line =>
       exists tab,
         dict_get String.eqb (xlsx_filename available_file)
           (tab_of_interest (attributes "../databases/inputs.db" true))
         = Some tab
         /\ line = "now reading '" ++ tab ++ "' tab of '"
                   ++ xlsx_filename available_file ++ "' file")
    ["../xls/coverage_estimates_series.xlsx";
     "../xls/WPP2019_F01_LOCATIONS.xlsx"]
    ["now reading 'BCG' tab of '../xls/coverage_estimates_series.xlsx' file";
     "now reading 'Location' tab of '../xls/WPP2019_F01_LOCATIONS.xlsx' file"].
Proof.
  destruct (update_xl_reads_prints_when_verbose
              (attributes "../databases/inputs.db" true) (mkInputDB [] None)
              ["../xls/coverage_estimates_series.xlsx";
               "../xls/WPP2019_F01_LOCATIONS.xlsx"])
    as (_ & Hlines & _).
  exact (Hlines eq_refl eq_refl).
Defined.
